(** * Invisible Art Gallery: reveal conditions, notifications and the
      artist-facing pages

    A shallow embedding of the TypeScript/JavaScript sources (the upload and
    edit pages, the artist dashboard, the comment section, the API client and
    the WebSocket client example) together with a model of the reveal
    evaluator and notifier of the backend, whose Python sources are not part
    of the tree and are therefore modelled from the specification. *)

From Stdlib Require Import ZArith String List Bool Lia Ascii DecimalString.
From Stdlib Require Import Floats.PrimFloat Uint63.
From Stdlib Require Floats.SpecFloat Floats.FloatAxioms.
Import ListNotations.

Set Warnings "-register-all".

Local Open Scope string_scope.
Local Open Scope Z_scope.

(** ** JavaScript values

    Form values, request bodies and parsed WebSocket frames are untyped
    ([any]) in the sources.  They are modelled by a JSON-like value type;
    objects are association lists in insertion order. *)
Module Js.

Inductive jsval : Type :=
| JUndefined
| JNull
| JBool (b : bool)
| JNum (n : Z)
| JStr (s : string)
| JFile (name : string)
| JArr (items : list jsval)
| JObj (fields : list (string * jsval)).

Fixpoint assoc {A : Type} (k : string) (l : list (string * A)) : option A :=
  match l with
  | [] => None
  | (k', v) :: rest => if String.eqb k k' then Some v else assoc k rest
  end.

Definition keys {A : Type} (l : list (string * A)) : list string :=
  map fst l.

(** [o.k] on a value that is known not to be [null] or [undefined]: a
    missing property reads as [undefined]. *)
Definition get_prop (o : jsval) (k : string) : jsval :=
  match o with
  | JObj fields =>
      match assoc k fields with
      | Some v => v
      | None => JUndefined
      end
  | _ => JUndefined
  end.

(** [o.k] in general: reading a property of [null] or [undefined] throws a
    TypeError, rendered as [None]. *)
Definition read_prop (o : jsval) (k : string) : option jsval :=
  match o with
  | JUndefined | JNull => None
  | _ => Some (get_prop o k)
  end.

(** ToBoolean. *)
Definition truthy (v : jsval) : bool :=
  match v with
  | JUndefined | JNull => false
  | JBool b => b
  | JNum n => negb (n =? 0)
  | JStr s => negb (String.eqb s EmptyString)
  | JFile _ | JArr _ | JObj _ => true
  end.

(** [value == null]: the value is [null] or [undefined]. *)
Definition is_absent (v : jsval) : bool :=
  match v with
  | JUndefined | JNull => true
  | _ => false
  end.

(** Text typed by the user, as the sequence of its UTF-16 code units. *)
Definition text : Type := list N.

(** The code units [String.prototype.trim] strips: WhiteSpace (TAB, VT, FF,
    SP, NBSP, ZWNBSP and the space separators) and LineTerminator (LF, CR,
    LS, PS). *)
Definition is_white_space (c : N) : bool :=
  ((c =? 9) || (c =? 10) || (c =? 11) || (c =? 12) || (c =? 13) || (c =? 32)
   || (c =? 160) || (c =? 5760) || ((8192 <=? c) && (c <=? 8202))
   || (c =? 8232) || (c =? 8233) || (c =? 8239) || (c =? 8287)
   || (c =? 12288) || (c =? 65279))%N.

Fixpoint trimStart (s : text) : text :=
  match s with
  | [] => []
  | c :: rest => if is_white_space c then trimStart rest else s
  end.

Definition trimEnd (s : text) : text := rev (trimStart (rev s)).

(** [s.trim()]. *)
Definition trim (s : text) : text := trimEnd (trimStart s).

(** The code units of an ASCII string. *)
Fixpoint text_of_string (s : string) : text :=
  match s with
  | EmptyString => []
  | String c rest => N_of_ascii c :: text_of_string rest
  end.

End Js.

(** ** React components as state transformers

    An event handler of a function component runs a sequence of state
    setters and side effects.  It is modelled as a function from the
    component state to a result, the new state and the effects issued, in
    order.  The outcome of an awaited promise is an input of the handler. *)
Module Component.

Section Handler.
Context {S E : Type}.

Definition M (A : Type) : Type := S -> A * S * list E.

Definition ret {A : Type} (a : A) : M A := fun s => (a, s, []).

Definition bind {A B : Type} (m : M A) (k : A -> M B) : M B :=
  fun s =>
    let '(a, s1, e1) := m s in
    let '(b, s2, e2) := k a s1 in
    (b, s2, (e1 ++ e2)%list).

(** The state as the handler sees it. *)
Definition get : M S := fun s => (s, s, []).

(** A state setter [setX(v)]. *)
Definition set (f : S -> S) : M unit := fun s => (tt, f s, []).

(** A side effect (a request, a navigation, a callback). *)
Definition emit (e : E) : M unit := fun s => (tt, s, [e]).

Definition state_of {A : Type} (r : A * S * list E) : S := snd (fst r).
Definition effects_of {A : Type} (r : A * S * list E) : list E := snd r.

End Handler.

(** What a rejected promise throws: an [Error] with its message, or any
    other value. *)
Inductive thrown : Type :=
| ErrorInstance (message : string)
| NotAnError (value : Js.jsval).

(** The settlement of an awaited promise: it resolves with a value or
    rejects with a thrown value. *)
Inductive settled (A : Type) : Type :=
| Resolved (value : A)
| Rejected (reason : thrown).
Arguments Resolved {A} value.
Arguments Rejected {A} reason.

(** [err instanceof Error ? err.message : fallback]. *)
Definition error_message (err : thrown) (fallback : string) : string :=
  match err with
  | ErrorInstance message => message
  | NotAnError _ => fallback
  end.

End Component.

Declare Scope handler_scope.
Delimit Scope handler_scope with handler.
Notation "x <- m ;; k" := (Component.bind m (fun x => k))
  (at level 61, m at next level, right associativity) : handler_scope.
Notation "m ;; k" := (Component.bind m (fun _ => k))
  (at level 61, right associativity) : handler_scope.

(** ** The condition evaluator *)
Module Evaluator.

(** Modelled from the spec: the artwork metrics read by the evaluator
    (section 4.1: current wall-clock time, current view count, current
    comment count).  The backend that defines them is not in the tree. *)
Record ArtworkMetrics : Type := {
  current_time : Z;
  view_count : Z;
  comment_count : Z
}.

(** Modelled from the spec: a reveal condition as the closed tagged variant
    over time, view_count and interactive (section 3), each with its
    threshold. *)
Inductive RevealCondition : Type :=
| TimeCondition (reveal_at : Z)
| ViewCountCondition (count : Z)
| InteractiveCondition (comment_threshold : Z).

(** Modelled from the spec: [evaluate(artwork_metrics, condition) -> bool]
    (section 4.1), the backend function that is missing from the tree. *)
Definition evaluate (m : ArtworkMetrics) (c : RevealCondition) : bool :=
  match c with
  | TimeCondition reveal_at => reveal_at <=? current_time m
  | ViewCountCondition count => count <=? view_count m
  | InteractiveCondition comment_threshold => comment_threshold <=? comment_count m
  end.

(** Scenario A of the specification: threshold 100, 99 views, then 100. *)
Example evaluate_scenario_A :
  evaluate {| current_time := 0; view_count := 99; comment_count := 0 |}
           (ViewCountCondition 100) = false /\
  evaluate {| current_time := 0; view_count := 100; comment_count := 0 |}
           (ViewCountCondition 100) = true.
Proof. split; reflexivity. Qed.

(** Scenario B: reveal at 2025-01-01T00:00:00Z (1735689600 seconds after
    the epoch), evaluated one second before and one second after. *)
Example evaluate_scenario_B :
  evaluate {| current_time := 1735689599; view_count := 0; comment_count := 0 |}
           (TimeCondition 1735689600) = false /\
  evaluate {| current_time := 1735689601; view_count := 0; comment_count := 0 |}
           (TimeCondition 1735689600) = true.
Proof. split; reflexivity. Qed.

(** C1: for all metrics (current time, view count, comment count) and every
    reveal condition, [evaluate] is true exactly when the metric selected by
    the condition's tag has reached its threshold: current time >= reveal
    timestamp for a time condition, view count >= count for a view_count
    condition, comment count >= threshold for an interactive condition.
    [evaluate] is a total function into [bool]: it always returns one of the
    two values and has no error outcome. *)
Theorem evaluate_iff_threshold_met :
  forall (m : ArtworkMetrics) (c : RevealCondition),
    (evaluate m c = true <->
       match c with
       | TimeCondition reveal_at => current_time m >= reveal_at
       | ViewCountCondition count => view_count m >= count
       | InteractiveCondition threshold => comment_count m >= threshold
       end) /\
    (evaluate m c = true \/ evaluate m c = false).
Proof.
  intros m c. split.
  - destruct c as [t | n | n]; simpl; rewrite Z.leb_le; lia.
  - destruct (evaluate m c); [left | right]; reflexivity.
Qed.

(** C5: with a view-count condition of threshold [n], [evaluate] is true iff
    the view count is at least [n], and the verdict is monotone in the view
    count: true at [v1] implies true at every [v2 >= v1], whatever the other
    metrics are. *)
Theorem evaluate_view_count_monotone :
  forall (n : Z) (m1 m2 : ArtworkMetrics),
    view_count m1 <= view_count m2 ->
    (evaluate m1 (ViewCountCondition n) = true <-> view_count m1 >= n) /\
    (evaluate m2 (ViewCountCondition n) = true <-> view_count m2 >= n) /\
    (evaluate m1 (ViewCountCondition n) = true ->
     evaluate m2 (ViewCountCondition n) = true).
Proof.
  intros n m1 m2 Hle. simpl. rewrite !Z.leb_le. lia.
Qed.

Lemma evaluate_view_count_monotone_witness :
  let m1 := {| current_time := 5; view_count := 100; comment_count := 3 |} in
  let m2 := {| current_time := 9; view_count := 101; comment_count := 3 |} in
  view_count m1 <= view_count m2 /\
  evaluate m1 (ViewCountCondition 100) = true /\
  evaluate m2 (ViewCountCondition 100) = true.
Proof.
  intros m1 m2.
  assert (Hle : view_count m1 <= view_count m2) by (simpl; lia).
  split; [exact Hle |].
  pose proof (evaluate_view_count_monotone 100 m1 m2 Hle) as [H1 [_ Hmono]].
  assert (E1 : evaluate m1 (ViewCountCondition 100) = true)
    by (apply H1; simpl; lia).
  split; [exact E1 | exact (Hmono E1)].
Defined.

End Evaluator.

(** ** The API client ([services/api.ts]) *)
Module Api.
Import Js.

(** A value appended to a [FormData]: as it is (a string or a file), or
    as the JSON text [JSON.stringify] produces for it. *)
Inductive FormEntry : Type :=
| Value (v : jsval)
| Json (v : jsval).

(** The body of a comment creation ([CommentCreate]). *)
Record CommentCreate : Type := {
  artwork_id : Z;
  content : text
}.

(** The requests the pages issue through [apiService.artworks]. *)
Inductive Request : Type :=
| CreateArtwork (formData : list (string * FormEntry))
| UpdateArtwork (id : Z) (data : jsval)
| DeleteArtwork (id : Z)
| AddComment (artworkId : Z) (comment : CommentCreate)
| GetMyArtworks.

(** [artworks.create]: the multipart body of [POST /artworks/]. *)
Definition create (artworkData : jsval) : Request :=
  CreateArtwork
    ([("title", Value (get_prop artworkData "title"))]
     ++ (if truthy (get_prop artworkData "description")
         then [("description", Value (get_prop artworkData "description"))]
         else [])
     ++ [("content_type", Value (get_prop artworkData "content_type"));
         ("artwork_file", Value (get_prop artworkData "artwork_file"))]
     ++ (if truthy (get_prop artworkData "placeholder_image")
         then [("placeholder_image", Value (get_prop artworkData "placeholder_image"))]
         else [])
     ++ [("reveal_conditions", Json (get_prop artworkData "reveal_conditions"))])%list.

(** [artworks.update]: [PATCH /artworks/{id}/] with the given body. *)
Definition update (id : Z) (data : jsval) : Request := UpdateArtwork id data.

(** [artworks.delete]: [DELETE /artworks/{id}/]. *)
Definition delete (id : Z) : Request := DeleteArtwork id.

(** [artworks.addComment]: [POST /artworks/{artworkId}/add_comment/]. *)
Definition addComment (artworkId : Z) (comment : CommentCreate) : Request :=
  AddComment artworkId comment.

End Api.

(** ** The edit page ([pages/EditArtwork.tsx]) *)
Module EditArtwork.
Import Js Component.

(** The part of the component state that [handleSubmit] writes. *)
Record State : Type := {
  saving : bool;
  success : bool;
  error : option string
}.

Inductive Effect : Type :=
| Call (r : Api.Request)
| NavigateAfter (delay_ms : Z) (artworkId : Z)
| SetSubmitting (b : bool).

(** The update payload built by [handleSubmit]. *)
Definition artworkData (values : jsval) : jsval :=
  JObj [("title", get_prop values "title");
        ("description", get_prop values "description");
        ("placeholder_image", get_prop values "placeholder_image")].

Local Open Scope handler_scope.

Definition handleSubmit (artworkId : Z) (values : jsval)
    (outcome : settled jsval) : M (S := State) (E := Effect) unit :=
  set (fun s => {| saving := true; success := success s; error := error s |}) ;;
  set (fun s => {| saving := saving s; success := false; error := error s |}) ;;
  set (fun s => {| saving := saving s; success := success s; error := None |}) ;;
  emit (Call (Api.update artworkId (artworkData values))) ;;
  match outcome with
  | Resolved _ =>
      set (fun s => {| saving := saving s; success := true; error := error s |}) ;;
      emit (NavigateAfter 2000 artworkId)
  | Rejected err =>
      set (fun s => {| saving := saving s; success := success s;
                       error := Some (error_message err
                                  "Failed to update artwork. Please try again.") |})
  end ;;
  set (fun s => {| saving := false; success := success s; error := error s |}) ;;
  emit (SetSubmitting false).

(** The requests a submission of the edit form sends. *)
Definition requests_of (effects : list Effect) : list Api.Request :=
  flat_map (fun e => match e with Call r => [r] | _ => [] end) effects.


Lemma artworkData_keys (values : jsval) :
  exists fields,
    artworkData values = JObj fields /\
    keys fields = ["title"; "description"; "placeholder_image"].
Proof. eexists; split; reflexivity. Qed.

End EditArtwork.

(** ** Messages on the two WebSocket channels

    The consumers that send them are backend code outside the tree; the
    message shapes below are the ones documented in
    [backend/websockets/README.md] (section "Message Types"). *)
Module Wire.
Import Js.

Inductive Channel : Type :=
| ArtworkChannel (artwork_id : Z)        (* /ws/artwork/<artwork_id>/ *)
| NotificationChannel (user : string).   (* /ws/notifications/?token=... *)

Record Frame : Type := {
  channel : Channel;
  payload : jsval
}.

(** The [type] discriminator of a message. *)
Definition message_type (m : jsval) : jsval := get_prop m "type".

(** Artwork channel, message 1: sent when connecting. *)
Definition artwork_status (is_revealed : bool) (id : Z) (title : string) : jsval :=
  JObj [("type", JStr "artwork_status");
        ("is_revealed", JBool is_revealed);
        ("artwork", JObj [("id", JNum id); ("title", JStr title)])].

(** Artwork channel, message 2: sent when an artwork is revealed. *)
Definition artwork_revealed (id : Z) (title artist : string) : jsval :=
  JObj [("type", JStr "artwork_revealed");
        ("artwork", JObj [("id", JNum id); ("title", JStr title);
                          ("artist", JStr artist); ("is_revealed", JBool true)])].

(** Notification channel, message 1: sent when the connection is
    established. *)
Definition welcome : jsval :=
  JObj [("type", JStr "welcome");
        ("message", JStr "Connected to notification service")].

(** Notification channel, message 2: a notification for the user, wrapping
    a typed payload. *)
Definition notification (message : string) (data : jsval) : jsval :=
  JObj [("type", JStr "notification");
        ("message", JStr message);
        ("data", data)].

Definition new_comment_data (artwork_id comment_id : Z) (user : string) : jsval :=
  JObj [("type", JStr "new_comment");
        ("artwork_id", JNum artwork_id);
        ("comment_id", JNum comment_id);
        ("user", JStr user)].

(** The payload types a notification wraps: the new comment of the README
    example, the reveal the client example tests for, and the view
    milestone. *)
Definition payload_types : list jsval :=
  [JStr "new_comment"; JStr "view_milestone"; JStr "artwork_revealed"].

Definition artwork_revealed_data (artwork_id : Z) : jsval :=
  JObj [("type", JStr "artwork_revealed"); ("artwork_id", JNum artwork_id)].

Definition view_milestone_data (artwork_id count : Z) : jsval :=
  JObj [("type", JStr "view_milestone");
        ("artwork_id", JNum artwork_id);
        ("view_count", JNum count)].

(** The catalogue of messages, what is sent on which channel: the two
    "Artwork WebSocket Messages" and the two "Notification WebSocket
    Messages" of the README. *)
Inductive sent : Channel -> jsval -> Prop :=
| sent_artwork_status (id : Z) (is_revealed : bool) (title : string) :
    sent (ArtworkChannel id) (artwork_status is_revealed id title)
| sent_artwork_revealed (id : Z) (title artist : string) :
    sent (ArtworkChannel id) (artwork_revealed id title artist)
| sent_welcome (user : string) :
    sent (NotificationChannel user) welcome
| sent_notification (user message : string) (data : jsval) :
    In (message_type data) payload_types ->
    sent (NotificationChannel user) (notification message data).

End Wire.

(** ** The WebSocket client ([scripts/websocket_client_example.js]) *)
Module WebsocketClient.
Import Js.

(** What the [onmessage] handler of the artwork socket does with a parsed
    frame. *)
Inductive ArtworkSocketAction : Type :=
| HandleArtworkStatus (data : jsval)
| HandleArtworkRevealed (data : jsval)
| UnknownMessageType (type : jsval).

(** [connectToArtworkSocket], [socket.onmessage], after [JSON.parse]:
    the [switch (data.type)].  [None] is the TypeError of reading [type]
    off [null]. *)
Definition artworkSocket_onmessage (data : jsval) : option ArtworkSocketAction :=
  match read_prop data "type" with
  | None => None
  | Some (JStr "artwork_status") => Some (HandleArtworkStatus data)
  | Some (JStr "artwork_revealed") => Some (HandleArtworkRevealed data)
  | Some t => Some (UnknownMessageType t)
  end.

Inductive NotificationSocketAction : Type :=
| LogConnected
| DisplayNotification (message data : jsval)
| UnknownNotificationType (type : jsval).

(** [connectToNotificationsSocket], [socket.onmessage]. *)
Definition notificationsSocket_onmessage (data : jsval)
    : option NotificationSocketAction :=
  match read_prop data "type" with
  | None => None
  | Some (JStr "welcome") => Some LogConnected
  | Some (JStr "notification") =>
      Some (DisplayNotification (get_prop data "message") (get_prop data "data"))
  | Some t => Some (UnknownNotificationType t)
  end.

Inductive UiEffect : Type :=
| ShowToast (message : jsval)
| OfferToNavigateToArtwork (artwork_id : jsval).

(** [displayNotification(message, data)]: a toast, and for a reveal an
    offer to navigate to the artwork. *)
Definition displayNotification (message data : jsval) : list UiEffect :=
  ShowToast message ::
  (if truthy data then
     match get_prop data "type" with
     | JStr "artwork_revealed" => [OfferToNavigateToArtwork (get_prop data "artwork_id")]
     | _ => []
     end
   else []).

(** A frame is recognised by the client of its channel when the handler
    dispatches it to a case other than the [default] one. *)
Definition recognised (f : Wire.Frame) : bool :=
  match Wire.channel f with
  | Wire.ArtworkChannel _ =>
      match artworkSocket_onmessage (Wire.payload f) with
      | Some (HandleArtworkStatus _) | Some (HandleArtworkRevealed _) => true
      | _ => false
      end
  | Wire.NotificationChannel _ =>
      match notificationsSocket_onmessage (Wire.payload f) with
      | Some LogConnected | Some (DisplayNotification _ _) => true
      | _ => false
      end
  end.

(** Every message of the catalogue has a case in the client of its
    channel. *)
Lemma sent_recognised (ch : Wire.Channel) (m : jsval) :
  Wire.sent ch m -> recognised {| Wire.channel := ch; Wire.payload := m |} = true.
Proof. intros []; reflexivity. Qed.

Lemma sent_message_type (ch : Wire.Channel) (m : jsval) :
  Wire.sent ch m ->
  match ch with
  | Wire.ArtworkChannel _ =>
      In (Wire.message_type m) [JStr "artwork_status"; JStr "artwork_revealed"]
  | Wire.NotificationChannel _ =>
      In (Wire.message_type m) [JStr "welcome"; JStr "notification"]
  end.
Proof. intros []; cbn; auto. Qed.

End WebsocketClient.

(** ** The reveal lifecycle of an artwork (backend) *)
Module Lifecycle.
Import Js.

(** Modelled from the spec: the Artwork entity of section 3 as the backend
    stores it (the models of the backend are not in the tree).  The comment
    count is the derived tally of the artwork's comments. *)
Record Artwork : Type := {
  id : Z;
  title : string;
  description : string;
  artist : string;
  placeholder_image : jsval;
  is_revealed : bool;
  view_count : Z;
  comment_count : Z;
  reveal_conditions : list Evaluator.RevealCondition;
  created_at : Z
}.

(** Modelled from the spec: the transient NotificationEvent of section 3, a
    tagged variant over artwork_revealed, new_comment and view_milestone
    carrying the artwork id, display metadata and a timestamp. *)
Inductive NotificationKind : Type :=
| ArtworkRevealed
| NewComment (comment_id : Z) (author : string)
| ViewMilestone (count : Z).

Record NotificationEvent : Type := {
  kind : NotificationKind;
  artwork_id : Z;
  artwork_title : string;
  artist_name : string;
  timestamp : Z
}.

(** Modelled from the spec: the policy for artworks with several
    conditions, which section 9 leaves open and asks to make explicit. *)
Inductive Policy : Type :=
| RequireAll
| RequireAny.

(** Modelled from the spec: the operations that reach an artwork (section
    3, "Mutated by", and section 6): a page view, a comment submission, a
    re-check by the evaluator with no metric change, an update submitted
    from the edit form, and the two kinds of WebSocket connection. *)
Inductive Operation : Type :=
| ViewOp (now : Z)
| CommentOp (now : Z) (comment_id : Z) (author : string)
| RecheckOp (now : Z)
| UpdateOp (values : jsval)
| ConnectArtworkOp
| ConnectNotificationsOp (user : string).

(** The outcome of a sequence of operations: the artwork at the end, the
    notification events constructed and the frames sent, in order. *)
Record Run : Type := {
  final : Artwork;
  events : list NotificationEvent;
  frames : list Wire.Frame
}.

Definition is_reveal_event (e : NotificationEvent) : bool :=
  match kind e with
  | ArtworkRevealed => true
  | _ => false
  end.

Definition set_is_revealed (b : bool) (a : Artwork) : Artwork :=
  {| id := id a; title := title a; description := description a;
     artist := artist a; placeholder_image := placeholder_image a;
     is_revealed := b;
     view_count := view_count a; comment_count := comment_count a;
     reveal_conditions := reveal_conditions a; created_at := created_at a |}.

Definition set_view_count (n : Z) (a : Artwork) : Artwork :=
  {| id := id a; title := title a; description := description a;
     artist := artist a; placeholder_image := placeholder_image a;
     is_revealed := is_revealed a;
     view_count := n; comment_count := comment_count a;
     reveal_conditions := reveal_conditions a; created_at := created_at a |}.

Definition set_comment_count (n : Z) (a : Artwork) : Artwork :=
  {| id := id a; title := title a; description := description a;
     artist := artist a; placeholder_image := placeholder_image a;
     is_revealed := is_revealed a;
     view_count := view_count a; comment_count := n;
     reveal_conditions := reveal_conditions a; created_at := created_at a |}.

Definition set_title (s : string) (a : Artwork) : Artwork :=
  {| id := id a; title := s; description := description a;
     artist := artist a; placeholder_image := placeholder_image a;
     is_revealed := is_revealed a;
     view_count := view_count a; comment_count := comment_count a;
     reveal_conditions := reveal_conditions a; created_at := created_at a |}.

Definition set_description (s : string) (a : Artwork) : Artwork :=
  {| id := id a; title := title a; description := s;
     artist := artist a; placeholder_image := placeholder_image a;
     is_revealed := is_revealed a;
     view_count := view_count a; comment_count := comment_count a;
     reveal_conditions := reveal_conditions a; created_at := created_at a |}.

Definition set_placeholder_image (v : jsval) (a : Artwork) : Artwork :=
  {| id := id a; title := title a; description := description a;
     artist := artist a; placeholder_image := v;
     is_revealed := is_revealed a;
     view_count := view_count a; comment_count := comment_count a;
     reveal_conditions := reveal_conditions a; created_at := created_at a |}.

(** Modelled from the spec: the metrics the caller hands to the evaluator
    (section 4.1, Input), read off the artwork at the current time. *)
Definition metrics (now : Z) (a : Artwork) : Evaluator.ArtworkMetrics :=
  {| Evaluator.current_time := now;
     Evaluator.view_count := view_count a;
     Evaluator.comment_count := comment_count a |}.

Section Backend.

(** How several conditions combine. *)
Variable policy : Policy.
(** The configured view milestones (10, 50, 100, ...). *)
Variable milestones : list Z.
(** The fields the update endpoint accepts from a request body. *)
Variable writable : string -> bool.
(** The human-readable text of a notification. *)
Variable describe : NotificationEvent -> string.

(** Modelled from the spec: the re-check of the conditions of an artwork
    (section 2), each by [evaluate], combined under the policy. *)
Definition conditions_met (now : Z) (a : Artwork) : bool :=
  match policy with
  | RequireAll => forallb (Evaluator.evaluate (metrics now a)) (reveal_conditions a)
  | RequireAny => existsb (Evaluator.evaluate (metrics now a)) (reveal_conditions a)
  end.

(** Modelled from the spec: [notify_revealed(artwork)] of the Reveal
    Notifier contract (section 4.2); each call constructs one
    NotificationEvent. *)
Definition notify_revealed (now : Z) (a : Artwork) : NotificationEvent :=
  {| kind := ArtworkRevealed; artwork_id := id a; artwork_title := title a;
     artist_name := artist a; timestamp := now |}.

(** Modelled from the spec: [notify_new_comment(artwork, comment)]. *)
Definition notify_new_comment (now : Z) (a : Artwork) (comment_id : Z)
    (author : string) : NotificationEvent :=
  {| kind := NewComment comment_id author; artwork_id := id a;
     artwork_title := title a; artist_name := artist a; timestamp := now |}.

(** Modelled from the spec: [notify_view_milestone(artwork, new_count)]. *)
Definition notify_view_milestone (now : Z) (a : Artwork) (new_count : Z)
    : NotificationEvent :=
  {| kind := ViewMilestone new_count; artwork_id := id a;
     artwork_title := title a; artist_name := artist a; timestamp := now |}.

(** Modelled from the spec: the transition path of sections 2 and 4.1.
    The caller re-checks the conditions, persists [is_revealed = true] and
    invokes the notifier once; an already revealed artwork is guarded by the
    flag. *)
Definition transition (now : Z) (a : Artwork) : Artwork * list NotificationEvent :=
  if is_revealed a then (a, [])
  else if conditions_met now a
       then (set_is_revealed true a, [notify_revealed now a])
       else (a, []).

(** Modelled from the spec: the update of the CRUD surface (section 6),
    whose code is not in the tree.  A partial update writes the fields named
    by the request body, as far as the endpoint accepts them; which fields
    it accepts is left open ([writable]). *)
Definition write_field (a : Artwork) (field : string * jsval) : Artwork :=
  let '(k, v) := field in
  if negb (writable k) then a
  else if String.eqb k "title"
       then match v with JStr s => set_title s a | _ => a end
  else if String.eqb k "description"
       then match v with JStr s => set_description s a | _ => a end
  else if String.eqb k "placeholder_image"
       then match v with JUndefined => a | _ => set_placeholder_image v a end
  else if String.eqb k "is_revealed"
       then match v with JBool b => set_is_revealed b a | _ => a end
  else a.

(** Modelled from the spec: the artwork after [PATCH /artworks/{id}/]
    with the given body. *)
Definition apply_update (body : jsval) (a : Artwork) : Artwork :=
  match body with
  | JObj fields => fold_left write_field fields a
  | _ => a
  end.

(** Modelled from the spec: view-milestone notifications fire only at the
    configured thresholds, not on every view (section 4.2). *)
Definition milestone_events (now : Z) (a : Artwork) : list NotificationEvent :=
  if existsb (Z.eqb (view_count a)) milestones
  then [notify_view_milestone now a (view_count a)]
  else [].

(** Modelled from the spec: the effect of one operation on the artwork and
    the notification events it produces (section 2, control flow). *)
Definition step (a : Artwork) (op : Operation) : Artwork * list NotificationEvent :=
  match op with
  | ViewOp now =>
      let a1 := set_view_count (view_count a + 1) a in
      let '(a2, revealed) := transition now a1 in
      (a2, (milestone_events now a1 ++ revealed)%list)
  | CommentOp now comment_id author =>
      let a1 := set_comment_count (comment_count a + 1) a in
      let '(a2, revealed) := transition now a1 in
      (a2, (notify_new_comment now a1 comment_id author :: revealed)%list)
  | RecheckOp now => transition now a
  | UpdateOp values => (apply_update (EditArtwork.artworkData values) a, [])
  | ConnectArtworkOp => (a, [])
  | ConnectNotificationsOp _ => (a, [])
  end.

(** Modelled from the spec: the fan-out of one event (sections 4.2 and 6).
    A reveal goes to the artwork's broadcast scope and, wrapped in a
    notification, to the artist's personal scope; comments and milestones go
    to the artist. *)
Definition deliver (e : NotificationEvent) : list Wire.Frame :=
  match kind e with
  | ArtworkRevealed =>
      [ {| Wire.channel := Wire.ArtworkChannel (artwork_id e);
           Wire.payload := Wire.artwork_revealed (artwork_id e) (artwork_title e)
                                                 (artist_name e) |};
        {| Wire.channel := Wire.NotificationChannel (artist_name e);
           Wire.payload :=
             Wire.notification (describe e)
               (Wire.artwork_revealed_data (artwork_id e)) |} ]
  | NewComment comment_id author =>
      [ {| Wire.channel := Wire.NotificationChannel (artist_name e);
           Wire.payload :=
             Wire.notification (describe e)
               (Wire.new_comment_data (artwork_id e) comment_id author) |} ]
  | ViewMilestone count =>
      [ {| Wire.channel := Wire.NotificationChannel (artist_name e);
           Wire.payload :=
             Wire.notification (describe e)
               (Wire.view_milestone_data (artwork_id e) count) |} ]
  end.

(** Modelled from the spec: the frames one operation puts on the wire
    (section 6; the consumers are not in the tree).  A connection to an
    artwork channel is answered with the artwork's status, a connection to
    the notification channel with the welcome message that
    [backend/websockets/README.md] documents and the client example
    handles; every other operation sends the fan-out of its events. *)
Definition step_frames (a : Artwork) (op : Operation) : list Wire.Frame :=
  match op with
  | ConnectArtworkOp =>
      [ {| Wire.channel := Wire.ArtworkChannel (id a);
           Wire.payload := Wire.artwork_status (is_revealed a) (id a) (title a) |} ]
  | ConnectNotificationsOp user =>
      [ {| Wire.channel := Wire.NotificationChannel user;
           Wire.payload := Wire.welcome |} ]
  | _ => flat_map deliver (snd (step a op))
  end.

(** Modelled from the spec: operations on one artwork are serialized
    (section 5); a run applies them one after the other. *)
Fixpoint run (a : Artwork) (ops : list Operation) : Run :=
  match ops with
  | [] => {| final := a; events := []; frames := [] |}
  | op :: rest =>
      let r := run (fst (step a op)) rest in
      {| final := final r;
         events := (snd (step a op) ++ events r)%list;
         frames := (step_frames a op ++ frames r)%list |}
  end.

(** *** The flag under single operations *)

Lemma transition_is_revealed (now : Z) (a : Artwork) :
  is_revealed (fst (transition now a)) = is_revealed a || conditions_met now a.
Proof.
  unfold transition.
  destruct (is_revealed a) eqn:Hrev; simpl; [exact Hrev |].
  destruct (conditions_met now a); simpl; [reflexivity | exact Hrev].
Qed.

Lemma transition_events (now : Z) (a : Artwork) :
  snd (transition now a)
  = if negb (is_revealed a) && conditions_met now a
    then [notify_revealed now a] else [].
Proof.
  unfold transition.
  destruct (is_revealed a); simpl; [reflexivity |].
  destruct (conditions_met now a); reflexivity.
Qed.

Lemma write_field_is_revealed (a : Artwork) (k : string) (v : jsval) :
  String.eqb k "is_revealed" = false ->
  is_revealed (write_field a (k, v)) = is_revealed a.
Proof.
  intros Hk. unfold write_field. rewrite Hk.
  destruct (writable k); simpl; [| reflexivity].
  destruct (String.eqb k "title"); [destruct v; reflexivity |].
  destruct (String.eqb k "description"); [destruct v; reflexivity |].
  destruct (String.eqb k "placeholder_image"); [destruct v; reflexivity |].
  reflexivity.
Qed.

Lemma fold_write_field_is_revealed (fields : list (string * jsval)) (a : Artwork) :
  ~ In "is_revealed" (keys fields) ->
  is_revealed (fold_left write_field fields a) = is_revealed a.
Proof.
  revert a. induction fields as [| [k v] rest IH]; intros a Hnotin; simpl.
  - reflexivity.
  - rewrite IH.
    + apply write_field_is_revealed.
      destruct (String.eqb_spec k "is_revealed") as [-> | _]; [| reflexivity].
      exfalso. apply Hnotin. now left.
    + intros Hin. apply Hnotin. now right.
Qed.

(** The update submitted from the edit form leaves the flag as it is,
    whatever fields the endpoint accepts. *)
Lemma update_is_revealed (values : jsval) (a : Artwork) :
  is_revealed (apply_update (EditArtwork.artworkData values) a) = is_revealed a.
Proof.
  unfold EditArtwork.artworkData, apply_update.
  apply fold_write_field_is_revealed. simpl.
  intros [H | [H | [H | []]]]; discriminate H.
Qed.

Lemma step_is_revealed (a : Artwork) (op : Operation) :
  is_revealed a = true -> is_revealed (fst (step a op)) = true.
Proof.
  intros Hrev.
  destruct op as [now | now cid author | now | values | | user]; cbn [step].
  - pose proof (transition_is_revealed now (set_view_count (view_count a + 1) a)) as H.
    destruct (transition now (set_view_count (view_count a + 1) a)) as [a2 evs].
    simpl in *. rewrite H, Hrev. reflexivity.
  - pose proof (transition_is_revealed now (set_comment_count (comment_count a + 1) a)) as H.
    destruct (transition now (set_comment_count (comment_count a + 1) a)) as [a2 evs].
    simpl in *. rewrite H, Hrev. reflexivity.
  - rewrite transition_is_revealed, Hrev. reflexivity.
  - cbn [fst]. rewrite update_is_revealed. exact Hrev.
  - exact Hrev.
  - exact Hrev.
Qed.

Lemma run_is_revealed (ops : list Operation) (a : Artwork) :
  is_revealed a = true -> is_revealed (final (run a ops)) = true.
Proof.
  revert a. induction ops as [| op rest IH]; intros a Hrev; simpl.
  - exact Hrev.
  - apply IH. now apply step_is_revealed.
Qed.

Lemma run_app_final (ops1 ops2 : list Operation) (a : Artwork) :
  final (run a (ops1 ++ ops2)%list) = final (run (final (run a ops1)) ops2).
Proof.
  revert a. induction ops1 as [| op rest IH]; intros a; simpl.
  - reflexivity.
  - apply IH.
Qed.

(** C2: the [is_revealed] flag is monotonic.  In every sequence of
    operations (views, comments, evaluator re-checks, updates, connections),
    once the flag is true after a prefix of the sequence it is true after
    every extension of that prefix; no single operation takes a revealed
    artwork back to hidden.  The update operation does not write the flag:
    the body built by the edit form names exactly title, description and
    placeholder_image, and applying it leaves [is_revealed] as it was. *)
Theorem is_revealed_monotonic :
  forall (a : Artwork) (ops1 ops2 : list Operation),
    is_revealed (final (run a ops1)) = true ->
    is_revealed (final (run a (ops1 ++ ops2)%list)) = true /\
    (forall op, is_revealed (fst (step (final (run a ops1)) op)) = true) /\
    (forall (b : Artwork) (values : jsval),
        is_revealed (fst (step b (UpdateOp values))) = is_revealed b /\
        exists fields,
          EditArtwork.artworkData values = JObj fields /\
          keys fields = ["title"; "description"; "placeholder_image"] /\
          assoc "is_revealed" fields = None).
Proof.
  intros a ops1 ops2 Hrev. split; [| split].
  - rewrite run_app_final. now apply run_is_revealed.
  - intros op. now apply step_is_revealed.
  - intros b values. split.
    + cbn [step fst]. apply update_is_revealed.
    + eexists. split; [reflexivity |]. split; reflexivity.
Qed.

(** *** Reveal notifications over a run *)

Definition reveal_count (evs : list NotificationEvent) : nat :=
  length (filter is_reveal_event evs).

Lemma reveal_count_app (l1 l2 : list NotificationEvent) :
  reveal_count (l1 ++ l2)%list = (reveal_count l1 + reveal_count l2)%nat.
Proof.
  unfold reveal_count. rewrite filter_app. apply length_app.
Qed.

Lemma milestone_events_reveal_count (now : Z) (a : Artwork) :
  reveal_count (milestone_events now a) = 0%nat.
Proof.
  unfold milestone_events.
  destruct (existsb (Z.eqb (view_count a)) milestones); reflexivity.
Qed.

Lemma transition_reveal_count (now : Z) (a : Artwork) :
  reveal_count (snd (transition now a))
  = if is_revealed a then 0%nat
    else if is_revealed (fst (transition now a)) then 1%nat else 0%nat.
Proof.
  unfold transition.
  destruct (is_revealed a) eqn:Hrev; simpl; [reflexivity |].
  destruct (conditions_met now a); simpl; [reflexivity |].
  rewrite Hrev. reflexivity.
Qed.

Lemma step_reveal_count (a : Artwork) (op : Operation) :
  reveal_count (snd (step a op))
  = if is_revealed a then 0%nat
    else if is_revealed (fst (step a op)) then 1%nat else 0%nat.
Proof.
  destruct op as [now | now cid author | now | values | | user]; cbn [step].
  - pose proof (transition_reveal_count now (set_view_count (view_count a + 1) a)) as H.
    destruct (transition now (set_view_count (view_count a + 1) a)) as [a2 evs].
    cbn [fst snd] in *.
    rewrite reveal_count_app, milestone_events_reveal_count. exact H.
  - pose proof (transition_reveal_count now (set_comment_count (comment_count a + 1) a)) as H.
    destruct (transition now (set_comment_count (comment_count a + 1) a)) as [a2 evs].
    cbn [fst snd] in *. exact H.
  - apply transition_reveal_count.
  - cbn [fst snd]. rewrite update_is_revealed.
    destruct (is_revealed a); reflexivity.
  - cbn [fst snd]. destruct (is_revealed a); reflexivity.
  - cbn [fst snd]. destruct (is_revealed a); reflexivity.
Qed.

Lemma run_reveal_count (ops : list Operation) (a : Artwork) :
  reveal_count (events (run a ops))
  = if is_revealed a then 0%nat
    else if is_revealed (final (run a ops)) then 1%nat else 0%nat.
Proof.
  revert a. induction ops as [| op rest IH]; intros a; cbn [run events final].
  - destruct (is_revealed a) eqn:Hrev; [reflexivity |].
    cbn. reflexivity.
  - rewrite reveal_count_app, step_reveal_count, IH.
    destruct (is_revealed a) eqn:Hrev.
    + rewrite (step_is_revealed a op Hrev). reflexivity.
    + destruct (is_revealed (fst (step a op))) eqn:Hstep.
      * rewrite (run_is_revealed rest _ Hstep). reflexivity.
      * reflexivity.
Qed.

(** The frames of type [artwork_revealed] broadcast on artwork channels. *)
Definition is_artwork_revealed_frame (f : Wire.Frame) : bool :=
  match Wire.channel f, Wire.message_type (Wire.payload f) with
  | Wire.ArtworkChannel _, JStr t => String.eqb t "artwork_revealed"
  | _, _ => false
  end.

Lemma deliver_artwork_revealed_frames (e : NotificationEvent) :
  length (filter is_artwork_revealed_frame (deliver e))
  = if is_reveal_event e then 1%nat else 0%nat.
Proof.
  unfold deliver, is_reveal_event. destruct (kind e); reflexivity.
Qed.

Lemma flat_map_deliver_artwork_revealed_frames (evs : list NotificationEvent) :
  length (filter is_artwork_revealed_frame (flat_map deliver evs))
  = reveal_count evs.
Proof.
  induction evs as [| e rest IH]; [reflexivity |].
  cbn [flat_map]. rewrite filter_app, length_app, IH.
  rewrite deliver_artwork_revealed_frames.
  unfold reveal_count. cbn [filter].
  destruct (is_reveal_event e); reflexivity.
Qed.

Lemma step_frames_artwork_revealed (a : Artwork) (op : Operation) :
  length (filter is_artwork_revealed_frame (step_frames a op))
  = reveal_count (snd (step a op)).
Proof.
  destruct op; try apply flat_map_deliver_artwork_revealed_frames; reflexivity.
Qed.

Lemma run_frames_artwork_revealed (ops : list Operation) (a : Artwork) :
  length (filter is_artwork_revealed_frame (frames (run a ops)))
  = reveal_count (events (run a ops)).
Proof.
  revert a. induction ops as [| op rest IH]; intros a; cbn [run events frames].
  - reflexivity.
  - rewrite filter_app, length_app, reveal_count_app, IH.
    now rewrite step_frames_artwork_revealed.
Qed.

(** C3: the transition path is idempotent with respect to notification.
    On a revealed artwork the transition changes nothing and emits nothing;
    over any sequence of operations the number of artwork_revealed events
    is 1 if the artwork went from hidden to revealed during the sequence and
    0 otherwise, hence at most one over the lifetime of an artwork and none
    once it is revealed; the same count of [artwork_revealed] frames is
    broadcast on the artwork channel. *)
Theorem artwork_revealed_at_most_once :
  forall (a : Artwork) (ops : list Operation),
    (forall now, is_revealed a = true -> transition now a = (a, [])) /\
    reveal_count (events (run a ops))
    = (if negb (is_revealed a) && is_revealed (final (run a ops))
       then 1%nat else 0%nat) /\
    (reveal_count (events (run a ops)) <= 1)%nat /\
    (is_revealed a = true -> reveal_count (events (run a ops)) = 0%nat) /\
    length (filter is_artwork_revealed_frame (frames (run a ops)))
    = reveal_count (events (run a ops)).
Proof.
  intros a ops.
  pose proof (run_reveal_count ops a) as Hcount.
  split; [| split; [| split; [| split]]].
  - intros now Hrev. unfold transition. rewrite Hrev. reflexivity.
  - rewrite Hcount. destruct (is_revealed a); reflexivity.
  - rewrite Hcount.
    destruct (is_revealed a); [lia |].
    destruct (is_revealed (final (run a ops))); lia.
  - intros Hrev. rewrite Hcount, Hrev. reflexivity.
  - apply run_frames_artwork_revealed.
Qed.

(** *** Message types on the wire *)

(** The frame carries a message of the catalogue on its channel. *)
Definition catalogued (f : Wire.Frame) : Prop :=
  Wire.sent (Wire.channel f) (Wire.payload f).

Lemma deliver_catalogued (e : NotificationEvent) :
  Forall catalogued (deliver e).
Proof.
  unfold deliver, catalogued.
  destruct (kind e); repeat apply Forall_cons; try apply Forall_nil;
    cbn [Wire.channel Wire.payload]; constructor; cbn; auto.
Qed.

Lemma step_frames_catalogued (a : Artwork) (op : Operation) :
  Forall catalogued (step_frames a op).
Proof.
  assert (Hdel : forall evs, Forall catalogued (flat_map deliver evs)).
  { induction evs as [| e rest IH]; cbn [flat_map].
    - constructor.
    - apply Forall_app. split; [apply deliver_catalogued | exact IH]. }
  destruct op; cbn [step_frames]; try apply Hdel;
    apply Forall_cons; try apply Forall_nil; constructor.
Qed.

(** The backend sends nothing but messages of the catalogue. *)
Lemma run_frames_catalogued (ops : list Operation) (a : Artwork) :
  Forall catalogued (frames (run a ops)).
Proof.
  revert a. induction ops as [| op rest IH]; intros a; cbn [run frames].
  - constructor.
  - apply Forall_app. split; [apply step_frames_catalogued | apply IH].
Qed.

End Backend.

(** *** A concrete gallery *)

Definition default_milestones : list Z := [10; 50; 100].

Definition default_describe (e : NotificationEvent) : string :=
  match kind e with
  | ArtworkRevealed => "Your artwork has been revealed"
  | NewComment _ _ => "New comment on your artwork"
  | ViewMilestone _ => "Your artwork reached a view milestone"
  end.

Definition accept_all (field : string) : bool := true.

(** An artwork with a view-count condition of 100 and 98 recorded views. *)
Definition mystery_landscape : Artwork :=
  {| id := 1; title := "Mystery Landscape";
     description := "A landscape that reveals itself over time";
     artist := "artlover"; placeholder_image := JNull;
     is_revealed := false; view_count := 98; comment_count := 0;
     reveal_conditions := [Evaluator.ViewCountCondition 100];
     created_at := 1735819200 |}.

Definition gallery_run : Artwork -> list Operation -> Run :=
  run RequireAll default_milestones accept_all default_describe.

(** Scenario A of the specification: the 99th view leaves the artwork
    hidden, the 100th reveals it with exactly one artwork_revealed event,
    and later views and comments add none. *)
Example scenario_A_run :
  is_revealed (final (gallery_run mystery_landscape [ViewOp 10])) = false /\
  reveal_count (events (gallery_run mystery_landscape [ViewOp 10])) = 0%nat /\
  is_revealed (final (gallery_run mystery_landscape [ViewOp 10; ViewOp 11])) = true /\
  reveal_count (events (gallery_run mystery_landscape [ViewOp 10; ViewOp 11])) = 1%nat /\
  reveal_count (events (gallery_run mystery_landscape
                          [ViewOp 10; ViewOp 11; ViewOp 12; CommentOp 13 7 "commentor";
                           RecheckOp 14])) = 1%nat.
Proof. repeat split; reflexivity. Qed.

Lemma is_revealed_monotonic_witness :
  let ops1 := [ViewOp 10; ViewOp 11] in
  let ops2 := [UpdateOp (JObj [("title", JStr "Updated Mystery Landscape");
                               ("description", JStr "Updated description");
                               ("is_revealed", JBool false)]);
               ViewOp 12; CommentOp 13 7 "commentor"; RecheckOp 14] in
  is_revealed (final (gallery_run mystery_landscape ops1)) = true /\
  is_revealed (final (gallery_run mystery_landscape (ops1 ++ ops2)%list)) = true.
Proof.
  intros ops1 ops2.
  assert (H1 : is_revealed (final (gallery_run mystery_landscape ops1)) = true)
    by reflexivity.
  split; [exact H1 |].
  exact (proj1 (is_revealed_monotonic RequireAll default_milestones accept_all
                  default_describe mystery_landscape ops1 ops2 H1)).
Defined.

Lemma artwork_revealed_at_most_once_witness :
  let revealed := final (gallery_run mystery_landscape [ViewOp 10; ViewOp 11]) in
  let later := [ViewOp 12; CommentOp 13 7 "commentor"; RecheckOp 14] in
  is_revealed revealed = true /\
  transition RequireAll 15 revealed = (revealed, []) /\
  reveal_count (events (gallery_run revealed later)) = 0%nat /\
  reveal_count (events (gallery_run mystery_landscape
                          ([ViewOp 10; ViewOp 11] ++ later)%list)) = 1%nat.
Proof.
  intros revealed later.
  assert (Hrev : is_revealed revealed = true) by reflexivity.
  pose proof (artwork_revealed_at_most_once RequireAll default_milestones
                accept_all default_describe revealed later)
    as [Hidem [_ [_ [Hnone _]]]].
  split; [exact Hrev |].
  split; [exact (Hidem 15 Hrev) |].
  split; [exact (Hnone Hrev) | reflexivity].
Defined.

(** Connecting to the two channels and viewing the artwork puts the four
    message types on the wire: the two connection messages, the
    notification of the 100-view milestone, and the reveal with its wrapped
    notification. *)
Example four_types_on_the_wire :
  map (fun f => Wire.message_type (Wire.payload f))
      (frames (gallery_run mystery_landscape
                 [ConnectArtworkOp; ConnectNotificationsOp "artlover";
                  ViewOp 10; ViewOp 11]))
  = [JStr "artwork_status"; JStr "welcome"; JStr "notification";
     JStr "artwork_revealed"; JStr "notification"].
Proof. reflexivity. Qed.

(** The README's welcome message, as the client example receives it. *)
Example welcome_is_handled :
  WebsocketClient.notificationsSocket_onmessage Wire.welcome
  = Some WebsocketClient.LogConnected /\
  WebsocketClient.notificationsSocket_onmessage
    (Wire.notification "New comment on your artwork"
                       (Wire.new_comment_data 1 7 "commentor"))
  = Some (WebsocketClient.DisplayNotification
            (JStr "New comment on your artwork")
            (Wire.new_comment_data 1 7 "commentor")) /\
  WebsocketClient.artworkSocket_onmessage Wire.welcome
  = Some (WebsocketClient.UnknownMessageType (JStr "welcome")).
Proof. repeat split; reflexivity. Qed.

(** Restricted to the three types artwork_status, artwork_revealed and
    notification, C4 fails: the welcome message sent on the notification
    channel when the connection is established has none of them. *)
Lemma welcome_outside_three_types :
  ~ (forall (ch : Wire.Channel) (m : jsval),
        Wire.sent ch m ->
        In (Wire.message_type m)
           [JStr "artwork_status"; JStr "artwork_revealed"; JStr "notification"]).
Proof.
  intros Hall.
  specialize (Hall (Wire.NotificationChannel "artlover") Wire.welcome
                   (Wire.sent_welcome "artlover")).
  cbn in Hall.
  destruct Hall as [H | [H | [H | []]]]; discriminate H.
Qed.

(** C4 (amended): every message placed on the wire over the two channels
    is a JSON object whose [type] is one of exactly four values:
    artwork_status (initial state on connect) and artwork_revealed
    (transition event) on an artwork channel, welcome (sent when the
    connection is established) and notification on a notification channel,
    a notification wrapping a payload of type new_comment, view_milestone
    or artwork_revealed.  Each of the four is sent, the client of each
    channel has a case for every one of them, and no run of the backend
    sends a message outside the catalogue. *)
Theorem wire_message_types :
  (forall (ch : Wire.Channel) (m : jsval),
      Wire.sent ch m ->
      In (Wire.message_type m)
         [JStr "artwork_status"; JStr "artwork_revealed"; JStr "welcome";
          JStr "notification"] /\
      (Wire.message_type m = JStr "notification" ->
       In (Wire.message_type (get_prop m "data")) Wire.payload_types) /\
      WebsocketClient.recognised {| Wire.channel := ch; Wire.payload := m |} = true) /\
  (forall t : jsval,
      In t [JStr "artwork_status"; JStr "artwork_revealed"; JStr "welcome";
            JStr "notification"] ->
      exists ch m, Wire.sent ch m /\ Wire.message_type m = t) /\
  (forall (policy : Policy) (milestones : list Z) (writable : string -> bool)
          (describe : NotificationEvent -> string)
          (a : Artwork) (ops : list Operation),
      Forall (fun f => Wire.sent (Wire.channel f) (Wire.payload f))
             (frames (run policy milestones writable describe a ops))).
Proof.
  split; [| split].
  - intros ch m Hsent. split; [| split].
    + destruct Hsent; cbn; auto.
    + destruct Hsent; cbn; try discriminate. intros _. assumption.
    + now apply WebsocketClient.sent_recognised.
  - intros t [<- | [<- | [<- | [<- | []]]]].
    + exists (Wire.ArtworkChannel 1), (Wire.artwork_status false 1 "Mystery Landscape").
      split; [constructor | reflexivity].
    + exists (Wire.ArtworkChannel 1),
        (Wire.artwork_revealed 1 "Mystery Landscape" "artlover").
      split; [constructor | reflexivity].
    + exists (Wire.NotificationChannel "artlover"), Wire.welcome.
      split; [constructor | reflexivity].
    + exists (Wire.NotificationChannel "artlover"),
        (Wire.notification "New comment on your artwork"
                           (Wire.new_comment_data 1 7 "commentor")).
      split; [constructor; cbn; auto | reflexivity].
  - intros policy milestones writable describe a ops.
    apply run_frames_catalogued.
Qed.

Lemma wire_message_types_witness :
  In (Wire.message_type Wire.welcome)
     [JStr "artwork_status"; JStr "artwork_revealed"; JStr "welcome";
      JStr "notification"] /\
  WebsocketClient.recognised
    {| Wire.channel := Wire.NotificationChannel "artlover";
       Wire.payload := Wire.welcome |} = true.
Proof.
  destruct (proj1 wire_message_types (Wire.NotificationChannel "artlover")
              Wire.welcome (Wire.sent_welcome "artlover")) as [Htype [_ Hcase]].
  split; [exact Htype | exact Hcase].
Defined.

End Lifecycle.

(** ** The [Date] built-in

    Time values are milliseconds since the epoch.  The calendar functions
    follow ECMAScript's Date algorithms (Day, TimeWithinDay, YearFromTime,
    MonthFromTime, DateFromTime, MakeDay, MakeDate, LocalTime, UTC) for
    dates inside the range of valid time values; days are converted to and
    from civil dates of the proleptic Gregorian calendar in closed form. *)
Module JsDate.

Definition msPerDay : Z := 86400000.

Definition Day (t : Z) : Z := t / msPerDay.
Definition TimeWithinDay (t : Z) : Z := t mod msPerDay.

(** The civil date (year, month 1..12, day 1..31) of a day number, counting
    in eras of 400 years that start on March 1st. *)
Definition civil_from_days (z : Z) : Z * Z * Z :=
  let z := z + 719468 in
  let era := z / 146097 in
  let doe := z mod 146097 in
  let yoe := (doe - doe / 1460 + doe / 36524 - doe / 146096) / 365 in
  let doy := doe - (365 * yoe + yoe / 4 - yoe / 100) in
  let mp := (5 * doy + 2) / 153 in
  let d := doy - (153 * mp + 2) / 5 + 1 in
  let m := if mp <? 10 then mp + 3 else mp - 9 in
  (yoe + era * 400 + (if m <=? 2 then 1 else 0), m, d).

(** The day number of a civil date; the day of the month may overflow the
    month. *)
Definition days_from_civil (y m d : Z) : Z :=
  let y := y - (if m <=? 2 then 1 else 0) in
  let era := y / 400 in
  let yoe := y mod 400 in
  let doy := (153 * (if 2 <? m then m - 3 else m + 9) + 2) / 5 + d - 1 in
  let doe := yoe * 365 + yoe / 4 - yoe / 100 + doy in
  era * 146097 + doe - 719468.

Definition YearFromTime (t : Z) : Z := fst (fst (civil_from_days (Day t))).
(** Months are numbered from 0. *)
Definition MonthFromTime (t : Z) : Z := snd (fst (civil_from_days (Day t))) - 1.
Definition DateFromTime (t : Z) : Z := snd (civil_from_days (Day t)).
Definition HourFromTime (t : Z) : Z := (t / 3600000) mod 24.
Definition MinFromTime (t : Z) : Z := (t / 60000) mod 60.
Definition SecFromTime (t : Z) : Z := (t / 1000) mod 60.
Definition msFromTime (t : Z) : Z := t mod 1000.

Definition MakeDay (year month date : Z) : Z :=
  let ym := year + month / 12 in
  let mn := month mod 12 in
  days_from_civil ym (mn + 1) 1 + date - 1.

Definition MakeDate (day time : Z) : Z := day * msPerDay + time.

(** The local time zone of the host: its offset from UTC in milliseconds,
    at a UTC time value and at a local one. *)
Record TimeZone : Type := {
  offset_at_utc : Z -> Z;
  offset_at_local : Z -> Z
}.

Definition utc_zone : TimeZone :=
  {| offset_at_utc := fun _ => 0; offset_at_local := fun _ => 0 |}.

Definition fixed_zone (offset_ms : Z) : TimeZone :=
  {| offset_at_utc := fun _ => offset_ms; offset_at_local := fun _ => offset_ms |}.

Definition LocalTime (tz : TimeZone) (t : Z) : Z := t + offset_at_utc tz t.
Definition UTC (tz : TimeZone) (t : Z) : Z := t - offset_at_local tz t.

(** [date.getDate()]. *)
Definition getDate (tz : TimeZone) (t : Z) : Z := DateFromTime (LocalTime tz t).

(** [date.setDate(dt)]: the new time value of the date. *)
Definition setDate (tz : TimeZone) (t : Z) (dt : Z) : Z :=
  let lt := LocalTime tz t in
  UTC tz (MakeDate (MakeDay (YearFromTime lt) (MonthFromTime lt) dt) (TimeWithinDay lt)).

Definition digit (n : Z) : ascii := ascii_of_N (48 + Z.to_N (n mod 10)).

(** [n] in decimal on [width] digits, padded with zeros. *)
Fixpoint padded (width : nat) (n : Z) : string :=
  match width with
  | O => EmptyString
  | S w => (padded w (n / 10) ++ String (digit n) EmptyString)%string
  end.

(** Years 0 to 9999 print on four digits, the others with a sign on six. *)
Definition year_string (y : Z) : string :=
  if (0 <=? y) && (y <=? 9999) then padded 4 y
  else String.append (if y <? 0 then "-" else "+") (padded 6 (Z.abs y)).

(** [date.toISOString()]: YYYY-MM-DDTHH:mm:ss.sssZ, in UTC. *)
Definition toISOString (t : Z) : string :=
  (year_string (YearFromTime t) ++ "-" ++ padded 2 (MonthFromTime t + 1) ++ "-"
   ++ padded 2 (DateFromTime t) ++ "T" ++ padded 2 (HourFromTime t) ++ ":"
   ++ padded 2 (MinFromTime t) ++ ":" ++ padded 2 (SecFromTime t) ++ "."
   ++ padded 3 (msFromTime t) ++ "Z")%string.

(** [s.slice(0, n)] for a non-negative [n]. *)
Definition slice0 (n : nat) (s : string) : string := substring 0 n s.

(** *** Reading and printing dates

    [new Date(string)] is implementation-defined outside the ISO format; the
    forms the application exchanges are read here: YYYY-MM-DDTHH:mm and
    YYYY-MM-DDTHH:mm:ss in local time, and with a final Z (and optional
    milliseconds) in UTC.  Anything else is an invalid date ([None]). *)

Definition digit_value (c : ascii) : option Z :=
  let n := N_of_ascii c in
  if ((48 <=? n) && (n <=? 57))%N then Some (Z.of_N n - 48) else None.

Fixpoint digits_value (acc : Z) (s : string) : option Z :=
  match s with
  | EmptyString => Some acc
  | String c rest =>
      match digit_value c with
      | Some d => digits_value (10 * acc + d) rest
      | None => None
      end
  end.

(** The number written by the [len] characters at position [pos]. *)
Definition field (s : string) (pos len : nat) : option Z :=
  let f := substring pos len s in
  if (String.length f =? len)%nat then digits_value 0 f else None.

Definition parse (tz : TimeZone) (s : string) : option Z :=
  match field s 0 4, field s 5 2, field s 8 2, field s 11 2, field s 14 2 with
  | Some y, Some m, Some d, Some h, Some mi =>
      if String.eqb (substring 4 1 s) "-" && String.eqb (substring 7 1 s) "-"
         && String.eqb (substring 10 1 s) "T" && String.eqb (substring 13 1 s) ":"
      then
        let at_minute := MakeDate (days_from_civil y m d) (h * 3600000 + mi * 60000) in
        let rest := substring 16 (String.length s) s in
        if String.eqb rest "" then Some (UTC tz at_minute)
        else
          match field s 17 2 with
          | Some sec =>
              let at_second := at_minute + sec * 1000 in
              if negb (String.eqb (substring 16 1 s) ":") then None
              else if String.eqb (substring 19 (String.length s) s) "" then
                Some (UTC tz at_second)
              else if String.eqb (substring 19 (String.length s) s) "Z" then
                Some at_second
              else
                match field s 20 3 with
                | Some ms =>
                    if String.eqb (substring 19 1 s) "."
                       && String.eqb (substring 23 (String.length s) s) "Z"
                    then Some (at_second + ms) else None
                | None => None
                end
          | None => None
          end
      else None
  | _, _, _, _, _ => None
  end.

(** [new Date(value)] for a string that may be [undefined]. *)
Definition new_Date (tz : TimeZone) (value : option string) : option Z :=
  match value with
  | Some s => parse tz s
  | None => None
  end.

(** [date.toLocaleDateString()] in the en-US locale: M/D/YYYY. *)
Definition toLocaleDateString (tz : TimeZone) (date : option Z) : string :=
  match date with
  | Some t =>
      let lt := LocalTime tz t in
      (NilZero.string_of_int (Z.to_int (MonthFromTime lt + 1)) ++ "/"
       ++ NilZero.string_of_int (Z.to_int (DateFromTime lt)) ++ "/"
       ++ NilZero.string_of_int (Z.to_int (YearFromTime lt)))%string
  | None => "Invalid Date"
  end.

Example parse_examples :
  parse utc_zone "2025-01-08T00:00" = Some 1736294400000 /\
  parse (fixed_zone 3600000) "2025-01-08T00:00" = Some 1736290800000 /\
  parse (fixed_zone 3600000) "2025-01-02T12:00:00Z" = Some 1735819200000 /\
  parse utc_zone "2025-01-02T12:00:00.250Z" = Some 1735819200250 /\
  parse utc_zone "next week" = None /\
  toLocaleDateString utc_zone (parse utc_zone "2025-01-08T00:00") = "1/8/2025".
Proof. repeat split; reflexivity. Qed.

Example toISOString_epoch : toISOString 0 = "1970-01-01T00:00:00.000Z".
Proof. reflexivity. Qed.

Example toISOString_2025 :
  toISOString 1735689600000 = "2025-01-01T00:00:00.000Z" /\
  toISOString 1735689599999 = "2024-12-31T23:59:59.999Z" /\
  toISOString 1709164800123 = "2024-02-29T00:00:00.123Z" /\
  toISOString (-1) = "1969-12-31T23:59:59.999Z".
Proof. repeat split; reflexivity. Qed.

(** Seven days after 2024-02-26 is 2024-03-04 (a leap year). *)
Example setDate_across_month :
  toISOString (setDate utc_zone 1708948800000 (getDate utc_zone 1708948800000 + 7))
  = "2024-03-04T12:00:00.000Z".
Proof. reflexivity. Qed.

(** *** The calendar conversions are inverse to each other *)

Lemma year_of_era_bounds (doe : Z) :
  0 <= doe < 146097 ->
  let yoe := (doe - doe / 1460 + doe / 36524 - doe / 146096) / 365 in
  0 <= yoe < 400 /\ 0 <= doe - (365 * yoe + yoe / 4 - yoe / 100) < 366.
Proof.
  intros H yoe. subst yoe. Z.div_mod_to_equations. lia.
Qed.

Lemma month_index_inverse (mp : Z) :
  0 <= mp < 12 ->
  let m := if mp <? 10 then mp + 3 else mp - 9 in
  1 <= m <= 12 /\ (if 2 <? m then m - 3 else m + 9) = mp.
Proof.
  intros Hmp m. subst m. destruct (mp <? 10) eqn:E.
  - apply Z.ltb_lt in E. destruct (2 <? mp + 3) eqn:E2; [lia |].
    apply Z.ltb_ge in E2. lia.
  - apply Z.ltb_ge in E. destruct (2 <? mp - 9) eqn:E2; [| lia].
    apply Z.ltb_lt in E2. lia.
Qed.

Lemma civil_from_days_month (z : Z) :
  1 <= snd (fst (civil_from_days z)) <= 12.
Proof.
  unfold civil_from_days. cbv zeta. cbn [fst snd].
  set (doe := (z + 719468) mod 146097).
  assert (Hdoe : 0 <= doe < 146097) by (apply Z.mod_pos_bound; lia).
  pose proof (year_of_era_bounds doe Hdoe) as Hy. cbv zeta in Hy.
  set (yoe := (doe - doe / 1460 + doe / 36524 - doe / 146096) / 365) in *.
  set (doy := doe - (365 * yoe + yoe / 4 - yoe / 100)) in *.
  set (mp := (5 * doy + 2) / 153).
  assert (Hmp : 0 <= mp < 12) by (subst mp; Z.div_mod_to_equations; lia).
  exact (proj1 (month_index_inverse mp Hmp)).
Qed.

Lemma days_from_civil_from_days (z : Z) :
  let '(y, m, d) := civil_from_days z in days_from_civil y m d = z.
Proof.
  unfold civil_from_days, days_from_civil.
  set (z' := z + 719468).
  set (doe := z' mod 146097).
  assert (Hdoe : 0 <= doe < 146097) by (apply Z.mod_pos_bound; lia).
  pose proof (year_of_era_bounds doe Hdoe) as Hy. cbv zeta in Hy.
  set (yoe := (doe - doe / 1460 + doe / 36524 - doe / 146096) / 365) in *.
  set (doy := doe - (365 * yoe + yoe / 4 - yoe / 100)) in *.
  set (mp := (5 * doy + 2) / 153).
  assert (Hmp : 0 <= mp < 12) by (subst mp; Z.div_mod_to_equations; lia).
  pose proof (month_index_inverse mp Hmp) as [_ Hm]. cbv zeta in Hm.
  set (m := if mp <? 10 then mp + 3 else mp - 9) in *.
  rewrite Hm.
  replace (yoe + z' / 146097 * 400 + (if m <=? 2 then 1 else 0)
           - (if m <=? 2 then 1 else 0)) with (yoe + z' / 146097 * 400) by lia.
  assert (Hera : (yoe + z' / 146097 * 400) / 400 = z' / 146097).
  { rewrite Z.div_add by lia. rewrite Z.div_small by lia. lia. }
  assert (Hyoe : (yoe + z' / 146097 * 400) mod 400 = yoe).
  { rewrite Z.mod_add by lia. apply Z.mod_small. lia. }
  rewrite Hera, Hyoe.
  pose proof (Z.div_mod z' 146097 ltac:(lia)) as Hz. fold doe in Hz.
  subst doy z'. lia.
Qed.

Lemma days_from_civil_shift (y m d k : Z) :
  days_from_civil y m (d + k) = days_from_civil y m d + k.
Proof. unfold days_from_civil. lia. Qed.

(** Moving the day of the month by [k] moves the local time by [k] days. *)
Lemma MakeDay_shift (lt k : Z) :
  MakeDay (YearFromTime lt) (MonthFromTime lt) (DateFromTime lt + k) = Day lt + k.
Proof.
  unfold MakeDay, YearFromTime, MonthFromTime, DateFromTime.
  pose proof (civil_from_days_month (Day lt)) as Hm.
  pose proof (days_from_civil_from_days (Day lt)) as Hrt.
  destruct (civil_from_days (Day lt)) as [[y m] d]. cbn [fst snd] in *.
  replace ((m - 1) / 12) with 0 by (Z.div_mod_to_equations; lia).
  replace ((m - 1) mod 12 + 1) with m by (Z.div_mod_to_equations; lia).
  rewrite Z.add_0_r.
  replace (days_from_civil y m 1 + (d + k) - 1)
    with (days_from_civil y m (1 + (d - 1)) + k)
    by (rewrite days_from_civil_shift; lia).
  replace (1 + (d - 1)) with d by lia.
  rewrite Hrt. reflexivity.
Qed.

(** [date.setDate(date.getDate() + k)] adds [k] days of 24 hours whenever
    the zone has the same offset at both ends. *)
Lemma setDate_getDate_plus (tz : TimeZone) (t k : Z) :
  offset_at_local tz (LocalTime tz t + k * msPerDay) = offset_at_utc tz t ->
  setDate tz t (getDate tz t + k) = t + k * msPerDay.
Proof.
  intros Hoff. unfold setDate, getDate. cbv zeta.
  rewrite MakeDay_shift. unfold MakeDate, UTC.
  assert (Hlt : (Day (LocalTime tz t) + k) * msPerDay + TimeWithinDay (LocalTime tz t)
                = LocalTime tz t + k * msPerDay).
  { unfold Day, TimeWithinDay, msPerDay.
    pose proof (Z.div_mod (LocalTime tz t) 86400000 ltac:(lia)). lia. }
  rewrite Hlt, Hoff. unfold LocalTime. lia.
Qed.

End JsDate.

(** ** Numbers as text *)
Module JsText.

(** [String(n)] for an integer [n]. *)
Definition number_to_string (n : Z) : string :=
  NilZero.string_of_int (Z.to_int n).

Example number_to_string_examples :
  number_to_string 0 = "0" /\ number_to_string 100 = "100" /\
  number_to_string (-7) = "-7".
Proof. repeat split; reflexivity. Qed.

(** The text of a number starts with a digit or a minus sign. *)
Definition starts_numeric (s : string) : bool :=
  match s with
  | String c _ =>
      let n := N_of_ascii c in ((48 <=? n) && (n <=? 57) || (n =? 45))%N
  | EmptyString => false
  end.

Lemma number_to_string_numeric (n : Z) :
  starts_numeric (number_to_string n) = true.
Proof.
  unfold number_to_string.
  destruct (Z.to_int n) as [u | u]; [| reflexivity].
  destruct u; reflexivity.
Qed.

End JsText.

(** ** Yup schemas

    A schema is data built by chained calls; [validate] gives the errors
    that [schema.validate(value, { abortEarly: false })] collects, as the
    library documents them for the schemas used by the pages.  Values
    are cast before they are tested (a number or a boolean becomes its
    text for a string schema); [undefined] passes every test but
    [required]; [null] is refused by every schema but [mixed]. *)
Module Yup.
Import Js.

Inductive Segment : Type :=
| Key (name : string)
| Index (i : nat).

Definition Path : Type := list Segment.

Inductive Failure : Type :=
| TypeMismatch (expected : string)
| Violation (message : string).

Record ValidationError : Type := {
  path : Path;
  failure : Failure
}.

Record Tests : Type := {
  t_required : option string;
  t_max : option (nat * string);
  t_min : option (nat * string);
  t_oneOf : option (list string * string)
}.

Definition no_tests : Tests :=
  {| t_required := None; t_max := None; t_min := None; t_oneOf := None |}.

Inductive schema : Type :=
| SString (tests : Tests)
| SMixed (tests : Tests)
| SArray (element : option schema) (tests : Tests)
| SObject (fields : list (string * schema)) (tests : Tests).

(** [Yup.string()], [Yup.mixed()], [Yup.array()], [Yup.object()]. *)
Definition string_ : schema := SString no_tests.
Definition mixed : schema := SMixed no_tests.
Definition array : schema := SArray None no_tests.
Definition object : schema := SObject [] no_tests.

Definition tests_of (s : schema) : Tests :=
  match s with
  | SString t | SMixed t | SArray _ t | SObject _ t => t
  end.

Definition with_tests (f : Tests -> Tests) (s : schema) : schema :=
  match s with
  | SString t => SString (f t)
  | SMixed t => SMixed (f t)
  | SArray e t => SArray e (f t)
  | SObject fs t => SObject fs (f t)
  end.

(** [.required(message)]. *)
Definition required (message : string) : schema -> schema :=
  with_tests (fun t => {| t_required := Some message; t_max := t_max t;
                          t_min := t_min t; t_oneOf := t_oneOf t |}).

(** [.max(limit, message)]. *)
Definition max (limit : nat) (message : string) : schema -> schema :=
  with_tests (fun t => {| t_required := t_required t; t_max := Some (limit, message);
                          t_min := t_min t; t_oneOf := t_oneOf t |}).

(** [.min(limit, message)]. *)
Definition min (limit : nat) (message : string) : schema -> schema :=
  with_tests (fun t => {| t_required := t_required t; t_max := t_max t;
                          t_min := Some (limit, message); t_oneOf := t_oneOf t |}).

(** [.oneOf(values, message)]. *)
Definition oneOf (values : list string) (message : string) : schema -> schema :=
  with_tests (fun t => {| t_required := t_required t; t_max := t_max t;
                          t_min := t_min t; t_oneOf := Some (values, message) |}).

(** [.of(element)] on an array schema. *)
Definition of_ (element : schema) (s : schema) : schema :=
  match s with
  | SArray _ t => SArray (Some element) t
  | _ => s
  end.

(** [.shape(fields)] on an object schema. *)
Definition shape (fields : list (string * schema)) (s : schema) : schema :=
  match s with
  | SObject _ t => SObject fields t
  | _ => s
  end.

Definition fail (p : Path) (f : Failure) : list ValidationError :=
  [{| path := p; failure := f |}].

Definition check_required (t : Tests) (p : Path) (present : bool)
    : list ValidationError :=
  match t_required t with
  | Some message => if present then [] else fail p (Violation message)
  | None => []
  end.

Definition check_max (t : Tests) (p : Path) (size : nat) : list ValidationError :=
  match t_max t with
  | Some (limit, message) =>
      if (size <=? limit)%nat then [] else fail p (Violation message)
  | None => []
  end.

Definition check_min (t : Tests) (p : Path) (size : nat) : list ValidationError :=
  match t_min t with
  | Some (limit, message) =>
      if (limit <=? size)%nat then [] else fail p (Violation message)
  | None => []
  end.

Definition check_oneOf (t : Tests) (p : Path) (s : string) : list ValidationError :=
  match t_oneOf t with
  | Some (values, message) =>
      if existsb (String.eqb s) values then [] else fail p (Violation message)
  | None => []
  end.

(** The cast of a string schema: numbers and booleans become their text. *)
Definition cast_string (v : jsval) : jsval :=
  match v with
  | JNum n => JStr (JsText.number_to_string n)
  | JBool b => JStr (if b then "true" else "false")
  | _ => v
  end.

Definition validate_string (t : Tests) (p : Path) (v : jsval)
    : list ValidationError :=
  match cast_string v with
  | JUndefined => check_required t p false
  | JStr s =>
      (check_required t p (negb (String.eqb s EmptyString))
       ++ check_max t p (String.length s)
       ++ check_min t p (String.length s)
       ++ check_oneOf t p s)%list
  | _ => fail p (TypeMismatch "string")
  end.

Definition validate_mixed (t : Tests) (p : Path) (v : jsval)
    : list ValidationError :=
  check_required t p (negb (is_absent v)).

(** The elements of an array with their indices. *)
Definition indexed {A : Type} (l : list A) : list (nat * A) :=
  combine (seq 0 (length l)) l.

Fixpoint validate (s : schema) (p : Path) (v : jsval) {struct s}
    : list ValidationError :=
  match s with
  | SString t => validate_string t p v
  | SMixed t => validate_mixed t p v
  | SArray element t =>
      match v with
      | JUndefined => check_required t p false
      | JArr items =>
          (match element with
           | Some el =>
               flat_map (fun ix => validate el (p ++ [Index (fst ix)]) (snd ix))
                        (indexed items)
           | None => []
           end
           ++ check_required t p true
           ++ check_max t p (length items)
           ++ check_min t p (length items))%list
      | _ => fail p (TypeMismatch "array")
      end
  | SObject fields t =>
      match v with
      | JUndefined | JObj _ =>
          flat_map (fun kf => let '(k, field) := kf in
                              validate field (p ++ [Key k])%list (get_prop v k))
                   fields
      | _ => fail p (TypeMismatch "object")
      end
  end.

Lemma flat_map_nonempty {A B : Type} (f : A -> list B) (l : list A) (x : A) :
  In x l -> f x <> [] -> flat_map f l <> [].
Proof.
  intros Hin Hfx Hnil.
  destruct (f x) as [| y ys] eqn:E; [now apply Hfx |].
  assert (Hy : In y (flat_map f l)).
  { apply in_flat_map. exists x. split; [exact Hin |]. rewrite E. now left. }
  rewrite Hnil in Hy. exact Hy.
Qed.

Lemma in_indexed {A : Type} (l : list A) (x : A) :
  In x l -> exists i, In (i, x) (indexed l).
Proof.
  unfold indexed. generalize 0%nat.
  induction l as [| y rest IH]; intros start Hin; [destruct Hin |].
  cbn [length seq combine]. destruct Hin as [-> | Hin].
  - exists start. now left.
  - destruct (IH (Datatypes.S start) Hin) as [i Hi]. exists i. now right.
Qed.

(** A failing field makes the object fail, and so does a value that is
    no object at all. *)
Lemma validate_object_field (fields : list (string * schema)) (t : Tests)
    (p : Path) (v : jsval) (k : string) (field : schema) :
  In (k, field) fields ->
  validate field (p ++ [Key k])%list (get_prop v k) <> [] ->
  validate (SObject fields t) p v <> [].
Proof.
  intros Hin Hfield. cbn [validate].
  destruct v; try discriminate;
    apply (flat_map_nonempty _ fields (k, field) Hin); exact Hfield.
Qed.

(** A failing element makes the array fail. *)
Lemma validate_array_element (el : schema) (t : Tests) (p : Path)
    (items : list jsval) (x : jsval) :
  In x items ->
  (forall q, validate el q x <> []) ->
  validate (SArray (Some el) t) p (JArr items) <> [].
Proof.
  intros Hin Hx. cbn [validate].
  destruct (in_indexed items x Hin) as [i Hi].
  intros Hnil. apply app_eq_nil in Hnil. destruct Hnil as [Hnil _].
  revert Hnil.
  apply (flat_map_nonempty _ (indexed items) (i, x) Hi). apply Hx.
Qed.

(** The text of a number is none of the given words when these do not
    start like a number. *)
Lemma number_not_among (n : Z) (values : list string) :
  forallb (fun s => negb (JsText.starts_numeric s)) values = true ->
  existsb (String.eqb (JsText.number_to_string n)) values = false.
Proof.
  intros Hall. apply not_true_is_false. intros Hex.
  apply existsb_exists in Hex. destruct Hex as [s [Hin Heq]].
  apply String.eqb_eq in Heq. subst s.
  rewrite forallb_forall in Hall. specialize (Hall _ Hin).
  rewrite JsText.number_to_string_numeric in Hall. discriminate Hall.
Qed.

End Yup.

Notation "x |> f" := (f x) (at level 45, left associativity, only parsing).

(** ** Formik *)
Module Formik.
Import Js.

(** [prepareDataForValidation]: empty strings are validated as
    [undefined], recursively through arrays and plain objects. *)
Fixpoint prepareDataForValidation (v : jsval) : jsval :=
  match v with
  | JArr items => JArr (map prepareDataForValidation items)
  | JObj fields =>
      JObj ((fix each (fs : list (string * jsval)) : list (string * jsval) :=
               match fs with
               | [] => []
               | (k, x) :: rest => (k, prepareDataForValidation x) :: each rest
               end) fields)
  | JStr s => if String.eqb s EmptyString then JUndefined else v
  | _ => v
  end.

(** The errors Formik computes for the values with a [validationSchema]. *)
Definition validateYupSchema (values : jsval) (s : Yup.schema)
    : list Yup.ValidationError :=
  Yup.validate s [] (prepareDataForValidation values).

Lemma prepareDataForValidation_get_prop (v : jsval) (k : string) :
  get_prop (prepareDataForValidation v) k
  = prepareDataForValidation (get_prop v k).
Proof.
  destruct v as [ | | b | n | s | name | items | fields]; try reflexivity.
  - cbn. destruct (String.eqb s EmptyString); reflexivity.
  - cbn [prepareDataForValidation get_prop].
    induction fields as [| [k' x] rest IH]; [reflexivity |].
    cbn [assoc]. destruct (String.eqb k k'); [reflexivity | exact IH].
Qed.

Lemma prepareDataForValidation_string (v : jsval) (t : string) :
  prepareDataForValidation v = JStr t -> v = JStr t.
Proof.
  destruct v as [ | | b | n | s | name | items | fields]; cbn; try discriminate.
  destruct (String.eqb s EmptyString); [discriminate | trivial].
Qed.

Lemma prepareDataForValidation_absent (v : jsval) :
  is_absent v = true -> is_absent (prepareDataForValidation v) = true.
Proof.
  destruct v; cbn; trivial; discriminate.
Qed.

End Formik.

(** ** Shared types ([types]) *)
Module Types.
Import Js.

(** The value of a reveal condition: an object with the key of its type. *)
Record ConditionValue : Type := {
  reveal_at : option string;
  count : option Z;
  comment_count : option Z
}.

Record RevealCondition : Type := {
  condition_type : string;
  condition_value : ConditionValue
}.

Definition optional_field (k : string) (v : option jsval) : list (string * jsval) :=
  match v with
  | Some x => [(k, x)]
  | None => []
  end.

(** The condition as the JavaScript object it is at run time. *)
Definition value_object (v : ConditionValue) : jsval :=
  JObj (optional_field "reveal_at" (option_map JStr (reveal_at v))
        ++ optional_field "count" (option_map JNum (count v))
        ++ optional_field "comment_count" (option_map JNum (comment_count v)))%list.

Definition condition_object (c : RevealCondition) : jsval :=
  JObj [("condition_type", JStr (condition_type c));
        ("condition_value", value_object (condition_value c))].

(** A comment as the API returns it. *)
Record Comment : Type := {
  comment_id : Z;
  comment_user : string;
  comment_content : text;
  comment_created_at : string
}.

(** An artwork as the API returns it (the fields the pages compute
    with). *)
Record Artwork : Type := {
  id : Z;
  title : string;
  is_revealed : bool;
  view_count : Z;
  comments : list Comment;
  created_at : string;
  reveal_conditions : list RevealCondition
}.

(** The keys an object value carries. *)
Definition object_keys (v : jsval) : list string :=
  match v with
  | JObj fields => keys fields
  | _ => []
  end.

End Types.

(** ** The upload page ([pages/Upload.tsx]) *)
Module Upload.
Import Js Component Types.

(** The validation schema of the upload form. *)
Definition conditionSchema : Yup.schema :=
  Yup.object |> Yup.shape
    [("condition_type",
      Yup.string_
        |> Yup.required "Condition type is required"
        |> Yup.oneOf ["time"; "view_count"; "interactive"] "Invalid condition type");
     ("condition_value",
      Yup.mixed |> Yup.required "Condition value is required")].

Definition uploadSchema : Yup.schema :=
  Yup.object |> Yup.shape
    [("title",
      Yup.string_
        |> Yup.required "Title is required"
        |> Yup.max 255 "Title must be less than 255 characters");
     ("description",
      Yup.string_
        |> Yup.max 1000 "Description must be less than 1000 characters");
     ("content_type",
      Yup.string_ |> Yup.required "Content type is required");
     ("artwork_file",
      Yup.mixed |> Yup.required "Artwork file is required");
     ("placeholder_image", Yup.mixed);
     ("reveal_conditions",
      Yup.array
        |> Yup.of_ conditionSchema
        |> Yup.min 1 "At least one reveal condition is required")].

(** [date.toISOString().slice(0, 16)]: YYYY-MM-DDTHH:mm. *)
Definition iso_minute (t : Z) : string :=
  JsDate.slice0 16 (JsDate.toISOString t).

(** Initialize a new condition based on type.  [now] is the time value
    read by [new Date()], [tz] the time zone of the browser. *)
Definition initializeCondition (tz : JsDate.TimeZone) (now : Z) (type : string)
    : RevealCondition :=
  if String.eqb type "time" then
    (* Set default reveal date to 1 week from now *)
    let date := JsDate.setDate tz now (JsDate.getDate tz now + 7) in
    {| condition_type := "time";
       condition_value := {| reveal_at := Some (iso_minute date);
                             count := None; comment_count := None |} |}
  else if String.eqb type "view_count" then
    {| condition_type := "view_count";
       condition_value := {| reveal_at := None; count := Some 100;
                             comment_count := None |} |}
  else if String.eqb type "interactive" then
    {| condition_type := "interactive";
       condition_value := {| reveal_at := None; count := None;
                             comment_count := Some 10 |} |}
  else
    {| condition_type := "time";
       condition_value := {| reveal_at := Some (iso_minute now);
                             count := None; comment_count := None |} |}.

(** The initial values of the form. *)
Definition initialValues (tz : JsDate.TimeZone) (now : Z) : jsval :=
  JObj [("title", JStr "");
        ("description", JStr "");
        ("content_type", JStr "");
        ("artwork_file", JNull);
        ("placeholder_image", JNull);
        ("reveal_conditions",
         JArr [condition_object (initializeCondition tz now "time")])].

Record State : Type := {
  uploading : bool;
  uploadSuccess : bool;
  uploadError : option string;
  artwork : jsval;
  artworkPreview : option string;
  placeholder : jsval;
  placeholderPreview : option string
}.

Inductive Effect : Type :=
| Call (r : Api.Request)
| ResetForm
| NavigateAfter (delay_ms : Z) (to : string)
| SetSubmitting (b : bool).

Definition setUploading (b : bool) (s : State) : State :=
  {| uploading := b; uploadSuccess := uploadSuccess s; uploadError := uploadError s;
     artwork := artwork s; artworkPreview := artworkPreview s;
     placeholder := placeholder s; placeholderPreview := placeholderPreview s |}.

Definition setUploadSuccess (b : bool) (s : State) : State :=
  {| uploading := uploading s; uploadSuccess := b; uploadError := uploadError s;
     artwork := artwork s; artworkPreview := artworkPreview s;
     placeholder := placeholder s; placeholderPreview := placeholderPreview s |}.

Definition setUploadError (e : option string) (s : State) : State :=
  {| uploading := uploading s; uploadSuccess := uploadSuccess s; uploadError := e;
     artwork := artwork s; artworkPreview := artworkPreview s;
     placeholder := placeholder s; placeholderPreview := placeholderPreview s |}.

Definition setArtwork (f : jsval) (s : State) : State :=
  {| uploading := uploading s; uploadSuccess := uploadSuccess s;
     uploadError := uploadError s;
     artwork := f; artworkPreview := artworkPreview s;
     placeholder := placeholder s; placeholderPreview := placeholderPreview s |}.

Definition setArtworkPreview (p : option string) (s : State) : State :=
  {| uploading := uploading s; uploadSuccess := uploadSuccess s;
     uploadError := uploadError s;
     artwork := artwork s; artworkPreview := p;
     placeholder := placeholder s; placeholderPreview := placeholderPreview s |}.

Definition setPlaceholder (f : jsval) (s : State) : State :=
  {| uploading := uploading s; uploadSuccess := uploadSuccess s;
     uploadError := uploadError s;
     artwork := artwork s; artworkPreview := artworkPreview s;
     placeholder := f; placeholderPreview := placeholderPreview s |}.

Definition setPlaceholderPreview (p : option string) (s : State) : State :=
  {| uploading := uploading s; uploadSuccess := uploadSuccess s;
     uploadError := uploadError s;
     artwork := artwork s; artworkPreview := artworkPreview s;
     placeholder := placeholder s; placeholderPreview := p |}.

(** The artwork data prepared by [handleSubmit]. *)
Definition artworkData (values : jsval) : jsval :=
  JObj [("title", get_prop values "title");
        ("description", get_prop values "description");
        ("content_type", get_prop values "content_type");
        ("artwork_file", get_prop values "artwork_file");
        ("placeholder_image", get_prop values "placeholder_image");
        ("reveal_conditions", get_prop values "reveal_conditions")].

Local Open Scope handler_scope.

(** Handle form submission. *)
Definition handleSubmit (values : jsval) (outcome : settled jsval)
    : M (S := State) (E := Effect) unit :=
  set (setUploading true) ;;
  set (setUploadSuccess false) ;;
  set (setUploadError None) ;;
  emit (Call (Api.create (artworkData values))) ;;
  match outcome with
  | Resolved _ =>
      set (setUploadSuccess true) ;;
      emit ResetForm ;;
      set (setArtwork JNull) ;;
      set (setArtworkPreview None) ;;
      set (setPlaceholder JNull) ;;
      set (setPlaceholderPreview None) ;;
      emit (NavigateAfter 3000 "/dashboard")
  | Rejected err =>
      set (setUploadError
             (Some (error_message err "Failed to upload artwork. Please try again.")))
  end ;;
  set (setUploading false) ;;
  emit (SetSubmitting false).

(** Submitting the [Formik] form: the values are validated against the
    schema, and [onSubmit] runs only when there is no error. *)
Definition submitForm (values : jsval) (outcome : settled jsval)
    : M (S := State) (E := Effect) unit :=
  match Formik.validateYupSchema values uploadSchema with
  | [] => handleSubmit values outcome
  | _ :: _ => ret tt
  end.

Definition requests_of (effects : list Effect) : list Api.Request :=
  flat_map (fun e => match e with Call r => [r] | _ => [] end) effects.

(** *** Malformed condition payloads are rejected before any request *)

Definition known_types : list string := ["time"; "view_count"; "interactive"].

(** The condition's [condition_type] is one of the three known tags. *)
Definition has_known_type (c : jsval) : Prop :=
  exists t, In t known_types /\ get_prop c "condition_type" = JStr t.

(** The three kinds of malformed payload: no condition at all, a condition
    of an unknown type, a condition whose value is missing ([undefined] or
    [null]). *)
Inductive malformed (values : jsval) : Prop :=
| NoCondition :
    get_prop values "reveal_conditions" = JArr [] -> malformed values
| UnknownType (items : list jsval) (c : jsval) :
    get_prop values "reveal_conditions" = JArr items ->
    In c items -> ~ has_known_type c -> malformed values
| MissingValue (items : list jsval) (c : jsval) :
    get_prop values "reveal_conditions" = JArr items ->
    In c items -> is_absent (get_prop c "condition_value") = true ->
    malformed values.

Lemma known_types_not_numeric :
  forallb (fun s => negb (JsText.starts_numeric s)) known_types = true.
Proof. reflexivity. Qed.

Lemma condition_type_rejected (p : Yup.Path) (v : jsval) :
  (forall t, In t known_types -> v <> JStr t) ->
  Yup.validate
    (Yup.string_
       |> Yup.required "Condition type is required"
       |> Yup.oneOf known_types "Invalid condition type") p v <> [].
Proof.
  intros Hunknown. cbn [Yup.validate Yup.string_ Yup.required Yup.oneOf Yup.with_tests].
  unfold Yup.validate_string.
  destruct v as [ | | b | n | s | name | items | fields];
    cbn [Yup.cast_string]; try (cbn; discriminate).
  - destruct b; cbn; discriminate.
  - unfold Yup.check_oneOf. cbn [Yup.t_oneOf].
    rewrite (Yup.number_not_among n known_types known_types_not_numeric).
    intros Hnil. repeat (apply app_eq_nil in Hnil; destruct Hnil as [_ Hnil]).
    discriminate Hnil.
  - unfold Yup.check_oneOf. cbn [Yup.t_oneOf].
    destruct (existsb (String.eqb s) known_types) eqn:Hex.
    + apply existsb_exists in Hex. destruct Hex as [t [Hin Heq]].
      apply String.eqb_eq in Heq. subst t.
      exfalso. exact (Hunknown s Hin eq_refl).
    + intros Hnil. repeat (apply app_eq_nil in Hnil; destruct Hnil as [_ Hnil]).
      discriminate Hnil.
Qed.

Lemma condition_value_rejected (p : Yup.Path) (v : jsval) :
  is_absent v = true ->
  Yup.validate (Yup.mixed |> Yup.required "Condition value is required") p v <> [].
Proof.
  intros Habsent. cbn. unfold Yup.validate_mixed, Yup.check_required.
  cbn. rewrite Habsent. cbn. discriminate.
Qed.

(** A condition of an unknown type fails the element schema. *)
Lemma unknown_type_rejected (q : Yup.Path) (c : jsval) :
  ~ has_known_type c ->
  Yup.validate conditionSchema q (Formik.prepareDataForValidation c) <> [].
Proof.
  intros Hunknown. unfold conditionSchema.
  eapply Yup.validate_object_field; [left; reflexivity |].
  rewrite Formik.prepareDataForValidation_get_prop.
  apply condition_type_rejected.
  intros t Hin Heq. apply Hunknown. exists t. split; [exact Hin |].
  now apply Formik.prepareDataForValidation_string.
Qed.

(** A condition without a value fails the element schema. *)
Lemma missing_value_rejected (q : Yup.Path) (c : jsval) :
  is_absent (get_prop c "condition_value") = true ->
  Yup.validate conditionSchema q (Formik.prepareDataForValidation c) <> [].
Proof.
  intros Habsent. unfold conditionSchema.
  eapply Yup.validate_object_field; [right; left; reflexivity |].
  rewrite Formik.prepareDataForValidation_get_prop.
  apply condition_value_rejected.
  now apply Formik.prepareDataForValidation_absent.
Qed.

(** The form fails validation as soon as its list of conditions does. *)
Lemma conditions_rejected (values : jsval) (items : list jsval) :
  get_prop values "reveal_conditions" = JArr items ->
  Yup.validate
    (Yup.array |> Yup.of_ conditionSchema
               |> Yup.min 1 "At least one reveal condition is required")
    [Yup.Key "reveal_conditions"]
    (JArr (map Formik.prepareDataForValidation items)) <> [] ->
  Formik.validateYupSchema values uploadSchema <> [].
Proof.
  intros Hconds Hbad. unfold Formik.validateYupSchema, uploadSchema.
  eapply Yup.validate_object_field; [do 5 right; left; reflexivity |].
  rewrite Formik.prepareDataForValidation_get_prop, Hconds.
  exact Hbad.
Qed.

Lemma malformed_fails_validation (values : jsval) :
  malformed values -> Formik.validateYupSchema values uploadSchema <> [].
Proof.
  intros [Hempty | items c Hconds Hin Hunknown | items c Hconds Hin Habsent].
  - apply (conditions_rejected values [] Hempty). cbn. discriminate.
  - apply (conditions_rejected values items Hconds).
    apply (Yup.validate_array_element _ _ _ _ (Formik.prepareDataForValidation c)).
    + now apply in_map.
    + intros q. now apply unknown_type_rejected.
  - apply (conditions_rejected values items Hconds).
    apply (Yup.validate_array_element _ _ _ _ (Formik.prepareDataForValidation c)).
    + now apply in_map.
    + intros q. now apply missing_value_rejected.
Qed.

(** A form that fails validation never reaches the submit handler. *)
Lemma invalid_form_not_submitted (values : jsval) (outcome : settled jsval)
    (s : State) :
  Formik.validateYupSchema values uploadSchema <> [] ->
  submitForm values outcome s = (tt, s, []).
Proof.
  intros Hfail. unfold submitForm.
  destruct (Formik.validateYupSchema values uploadSchema) as [| e errors].
  - exfalso. now apply Hfail.
  - reflexivity.
Qed.

(** C6: artwork creation rejects malformed condition payloads before any
    create request is issued.  For every submitted form whose list of
    reveal conditions is empty, or contains a condition whose
    [condition_type] is not one of time, view_count and interactive, or
    contains a condition whose [condition_value] is missing, validation
    against the upload schema reports an error, the submit handler does not
    run, no request is sent and the page state is unchanged. *)
Theorem malformed_conditions_rejected :
  forall (values : jsval) (outcome : settled jsval) (s : State),
    malformed values ->
    Formik.validateYupSchema values uploadSchema <> [] /\
    effects_of (submitForm values outcome s) = [] /\
    requests_of (effects_of (submitForm values outcome s)) = [] /\
    state_of (submitForm values outcome s) = s.
Proof.
  intros values outcome s Hbad.
  pose proof (malformed_fails_validation values Hbad) as Hfail.
  split; [exact Hfail |].
  rewrite (invalid_form_not_submitted values outcome s Hfail).
  repeat split.
Qed.

Lemma has_known_type_dec (c : jsval) : {has_known_type c} + {~ has_known_type c}.
Proof.
  unfold has_known_type.
  destruct (get_prop c "condition_type") as [ | | b | n | s | name | items | fields];
    try (right; intros [t [_ H]]; discriminate H).
  destruct (existsb (String.eqb s) known_types) eqn:Hex.
  - left. apply existsb_exists in Hex. destruct Hex as [t [Hin Heq]].
    apply String.eqb_eq in Heq. subst t. now exists s.
  - right. intros [t [Hin Heq]]. injection Heq as ->.
    assert (Htrue : existsb (String.eqb t) known_types = true).
    { apply existsb_exists. exists t. split; [exact Hin | apply String.eqb_refl]. }
    rewrite Hex in Htrue. discriminate Htrue.
Qed.

(** Conversely, whenever a request leaves the page, the conditions it
    carries are a non-empty list of conditions of a known type with a value:
    nothing downstream is handed one of the malformed payloads. *)
Lemma created_conditions_well_formed (values : jsval) (outcome : settled jsval)
    (s : State) (items : list jsval) :
  effects_of (submitForm values outcome s) <> [] ->
  get_prop values "reveal_conditions" = JArr items ->
  items <> [] /\
  Forall (fun c => has_known_type c /\
                   is_absent (get_prop c "condition_value") = false) items.
Proof.
  intros Hsent Hconds.
  assert (Hok : ~ malformed values).
  { intros Hbad. apply Hsent.
    rewrite (invalid_form_not_submitted values outcome s
               (malformed_fails_validation values Hbad)).
    reflexivity. }
  split.
  - intros ->. apply Hok. now apply NoCondition.
  - apply Forall_forall. intros c Hin. split.
    + destruct (has_known_type_dec c) as [Hknown | Hunknown]; [exact Hknown |].
      exfalso. apply Hok. exact (UnknownType values items c Hconds Hin Hunknown).
    + destruct (is_absent (get_prop c "condition_value")) eqn:Habsent; [| reflexivity].
      exfalso. apply Hok. exact (MissingValue values items c Hconds Hin Habsent).
Qed.

(** A form with a condition of type [location] (a type the architecture
    notes mention, which the form does not offer). *)
Definition location_form : jsval :=
  JObj [("title", JStr "Mystery Landscape");
        ("description", JStr "A landscape that reveals itself over time");
        ("content_type", JStr "image/jpeg");
        ("artwork_file", JFile "landscape.jpg");
        ("placeholder_image", JNull);
        ("reveal_conditions",
         JArr [JObj [("condition_type", JStr "location");
                     ("condition_value", JObj [("radius", JNum 50)])]])].

Definition idle : State :=
  {| uploading := false; uploadSuccess := false; uploadError := None;
     artwork := JFile "landscape.jpg"; artworkPreview := None;
     placeholder := JNull; placeholderPreview := None |}.

Lemma location_form_malformed : malformed location_form.
Proof.
  eapply UnknownType; [reflexivity | left; reflexivity |].
  intros [t [Hin Heq]]. cbn in Heq. injection Heq as <-.
  cbn in Hin. destruct Hin as [H | [H | [H | []]]]; discriminate H.
Qed.

Lemma malformed_conditions_rejected_witness :
  malformed location_form /\
  Formik.validateYupSchema location_form uploadSchema <> [] /\
  requests_of (effects_of (submitForm location_form (Resolved JNull) idle)) = [].
Proof.
  pose proof (malformed_conditions_rejected location_form (Resolved JNull) idle
                location_form_malformed) as [Hfail [_ [Hreq _]]].
  split; [exact location_form_malformed |].
  split; [exact Hfail | exact Hreq].
Defined.

Example location_form_errors :
  Formik.validateYupSchema location_form uploadSchema
  = [{| Yup.path := [Yup.Key "reveal_conditions"; Yup.Index 0; Yup.Key "condition_type"];
        Yup.failure := Yup.Violation "Invalid condition type" |}].
Proof. reflexivity. Qed.

(** A well-formed form passes validation and sends exactly one create
    request carrying its conditions. *)
Example valid_form_submitted :
  let form :=
    JObj [("title", JStr "Mystery Landscape");
          ("description", JStr "");
          ("content_type", JStr "image/jpeg");
          ("artwork_file", JFile "landscape.jpg");
          ("placeholder_image", JNull);
          ("reveal_conditions",
           JArr [condition_object (initializeCondition JsDate.utc_zone 0 "view_count")])] in
  Formik.validateYupSchema form uploadSchema = [] /\
  requests_of (effects_of (submitForm form (Resolved JNull) idle))
  = [Api.CreateArtwork
       [("title", Api.Value (JStr "Mystery Landscape"));
        ("content_type", Api.Value (JStr "image/jpeg"));
        ("artwork_file", Api.Value (JFile "landscape.jpg"));
        ("reveal_conditions",
         Api.Json (JArr [JObj [("condition_type", JStr "view_count");
                               ("condition_value", JObj [("count", JNum 100)])]]))]].
Proof. split; reflexivity. Qed.

(** The untouched initial form is refused for its missing title and file,
    not for its condition. *)
Example initial_form_errors :
  map Yup.path (Formik.validateYupSchema (initialValues JsDate.utc_zone 0) uploadSchema)
  = [[Yup.Key "title"]; [Yup.Key "content_type"]; [Yup.Key "artwork_file"]].
Proof. reflexivity. Qed.

(** *** The default conditions *)

(** The key of [condition_value] that goes with a condition type. *)
Definition value_key (condition_type : string) : string :=
  if String.eqb condition_type "time" then "reveal_at"
  else if String.eqb condition_type "view_count" then "count"
  else "comment_count".

Definition time_condition (reveal_at : string) : RevealCondition :=
  {| condition_type := "time";
     condition_value := {| Types.reveal_at := Some reveal_at;
                           count := None; comment_count := None |} |}.

Example initializeCondition_examples :
  initializeCondition JsDate.utc_zone 1735689601234 "time"
  = time_condition "2025-01-08T00:00" /\
  initializeCondition JsDate.utc_zone 1735689601234 "location"
  = time_condition "2025-01-01T00:00" /\
  initializeCondition (JsDate.fixed_zone 3600000) 1735689601234 ""
  = time_condition "2025-01-01T00:00".
Proof. repeat split; reflexivity. Qed.

(** Across a change of the zone offset the seven calendar days are not
    seven times 24 hours: in a zone that moves its clocks forward by one
    hour during the week, the default date is one hour short of it. *)
Example seven_days_across_clock_change :
  let spring :=
    {| JsDate.offset_at_utc := fun t => if t <? 1743296400000 then 3600000 else 7200000;
       JsDate.offset_at_local := fun t => if t <? 1743300000000 then 3600000 else 7200000 |} in
  let now := 1743069600000 in
  JsDate.toISOString now = "2025-03-27T10:00:00.000Z" /\
  initializeCondition spring now "time" = time_condition "2025-04-03T09:00" /\
  iso_minute (now + 7 * JsDate.msPerDay) = "2025-04-03T10:00".
Proof. repeat split; reflexivity. Qed.

(** C8: [initializeCondition] is total and yields a well-formed condition
    for every input string: its type is one of time, view_count and
    interactive, its value carries exactly the key that goes with the type
    (so the element schema accepts it); for view_count the count is 100, for
    interactive the comment count is 10; for time the reveal date is the
    current time moved 7 days ahead on the local calendar (7 times 24 hours
    when the zone offset is the same at both ends), and for every other
    input it is a time condition at the current time; reveal dates are
    written at minute precision, YYYY-MM-DDTHH:mm in UTC. *)
Theorem initializeCondition_well_formed :
  forall (tz : JsDate.TimeZone) (now : Z) (type : string),
    let c := initializeCondition tz now type in
    In (condition_type c) known_types /\
    object_keys (value_object (condition_value c)) = [value_key (condition_type c)] /\
    Yup.validate conditionSchema [] (condition_object c) = [] /\
    (type = "view_count" ->
     c = {| condition_type := "view_count";
            condition_value := {| reveal_at := None; count := Some 100;
                                  comment_count := None |} |}) /\
    (type = "interactive" ->
     c = {| condition_type := "interactive";
            condition_value := {| reveal_at := None; count := None;
                                  comment_count := Some 10 |} |}) /\
    (type = "time" ->
     c = time_condition
           (iso_minute (JsDate.setDate tz now (JsDate.getDate tz now + 7))) /\
     (JsDate.offset_at_local tz (JsDate.LocalTime tz now + 7 * JsDate.msPerDay)
      = JsDate.offset_at_utc tz now ->
      c = time_condition (iso_minute (now + 7 * JsDate.msPerDay)))) /\
    (~ In type known_types -> c = time_condition (iso_minute now)).
Proof.
  intros tz now type c. subst c. unfold initializeCondition.
  destruct (String.eqb_spec type "time") as [-> | Htime];
    [| destruct (String.eqb_spec type "view_count") as [-> | Hview];
       [| destruct (String.eqb_spec type "interactive") as [-> | Hinter]]];
    refine (conj _ (conj _ (conj _ (conj _ (conj _ (conj _ _))))));
    try (cbn; auto; fail);
    try (intros H; discriminate H);
    try (intros H; exfalso; apply H; cbn; auto; fail);
    try (intros ->; contradiction).
  - intros _. split; [reflexivity |].
    intros Hoff. now rewrite JsDate.setDate_getDate_plus.
Qed.

Lemma initializeCondition_well_formed_witness :
  initializeCondition JsDate.utc_zone 1735689601234 "time"
  = time_condition "2025-01-08T00:00" /\
  initializeCondition JsDate.utc_zone 1735689601234 "location"
  = time_condition "2025-01-01T00:00".
Proof.
  pose proof (initializeCondition_well_formed JsDate.utc_zone 1735689601234 "time")
    as [_ [_ [_ [_ [_ [Htime _]]]]]].
  pose proof (initializeCondition_well_formed JsDate.utc_zone 1735689601234 "location")
    as [_ [_ [_ [_ [_ [_ Hother]]]]]].
  split.
  - exact (proj2 (Htime eq_refl) eq_refl).
  - apply Hother. cbn. intros [H | [H | [H | []]]]; discriminate H.
Defined.

End Upload.

(** ** JavaScript numbers

    Counts and identifiers are integers ([Z]); they are far below 2^53,
    where arithmetic on them is exact.  Quotients are IEEE 754 doubles,
    which are Rocq's primitive floats. *)
Module JsNumber.

Definition number : Type := float.

(** The double nearest to an integer (for integers below 2^63 in
    magnitude). *)
Definition of_Z (z : Z) : number :=
  if z <? 0 then PrimFloat.opp (PrimFloat.of_uint63 (Uint63.of_Z (- z)))
  else PrimFloat.of_uint63 (Uint63.of_Z z).

(** ToNumber of a numeric property that may be missing: [undefined] is
    NaN. *)
Definition of_optional (z : option Z) : number :=
  match z with
  | Some n => of_Z n
  | None => PrimFloat.nan
  end.

Definition two52 : number := Eval vm_compute in of_Z (2 ^ 52).

(** The integer nearest to a finite [x] with [0 <= x < 2^52] (ties to
    even): adding 2^52 rounds to a multiple of one. *)
Definition round_small (x : number) : number :=
  PrimFloat.sub (PrimFloat.add x two52) two52.

(** [Math.floor]. *)
Definition Math_floor (x : number) : number :=
  if PrimFloat.is_nan x || PrimFloat.is_zero x then x
  else if PrimFloat.leb two52 (PrimFloat.abs x) then x
  else if PrimFloat.ltb x PrimFloat.zero then
    (* floor x = - ceil (- x) *)
    let a := PrimFloat.abs x in
    let r := round_small a in
    PrimFloat.opp (if PrimFloat.ltb r a then PrimFloat.add r PrimFloat.one else r)
  else
    let r := round_small x in
    if PrimFloat.ltb x r then PrimFloat.sub r PrimFloat.one else r.

(** [Math.min] of two numbers: NaN if either is, and -0 below +0. *)
Definition Math_min (x y : number) : number :=
  if PrimFloat.is_nan x then x
  else if PrimFloat.is_nan y then y
  else if PrimFloat.ltb x y then x
  else if PrimFloat.ltb y x then y
  else if PrimFloat.is_zero x && PrimFloat.get_sign y then y
  else x.

Definition hundred : number := Eval vm_compute in of_Z 100.

Example floor_examples :
  Math_floor (PrimFloat.div (of_Z 7) (of_Z 2)) = of_Z 3 /\
  Math_floor (PrimFloat.div (of_Z (-7)) (of_Z 2)) = of_Z (-4) /\
  Math_floor (PrimFloat.div (of_Z 1) (of_Z 0)) = PrimFloat.infinity /\
  Math_floor (of_Z 12) = of_Z 12 /\
  PrimFloat.is_nan (Math_floor (PrimFloat.div (of_Z 0) (of_Z 0))) = true.
Proof. repeat split; vm_compute; reflexivity. Qed.

(** 29 of 100 is 28 percent once floored: 29/100*100 is just below 29. *)
Example floor_of_29_percent :
  Math_floor (PrimFloat.mul (PrimFloat.div (of_Z 29) (of_Z 100)) hundred) = of_Z 28.
Proof. vm_compute. reflexivity. Qed.

End JsNumber.

(** ** The artist dashboard ([Dashboard]) *)
Module Dashboard.
Import Js Component Types JsNumber.

Record Stats : Type := {
  totalArtworks : Z;
  totalViews : Z;
  totalReveals : Z;
  totalComments : Z
}.

Record State : Type := {
  artworks : list Artwork;
  loading : bool;
  error : option string;
  stats : Stats
}.

Inductive Effect : Type :=
| Call (r : Api.Request).

Definition initialState : State :=
  {| artworks := []; loading := true; error := None;
     stats := {| totalArtworks := 0; totalViews := 0; totalReveals := 0;
                 totalComments := 0 |} |}.

Definition setArtworks (l : list Artwork) (s : State) : State :=
  {| artworks := l; loading := loading s; error := error s; stats := stats s |}.

Definition setLoading (b : bool) (s : State) : State :=
  {| artworks := artworks s; loading := b; error := error s; stats := stats s |}.

Definition setError (e : option string) (s : State) : State :=
  {| artworks := artworks s; loading := loading s; error := e; stats := stats s |}.

(** [setStats] with an updater function of the previous stats. *)
Definition setStats (f : Stats -> Stats) (s : State) : State :=
  {| artworks := artworks s; loading := loading s; error := error s;
     stats := f (stats s) |}.

(** Calculate stats. *)
Definition calculateStats (artworksResponse : list Artwork) : Stats :=
  {| totalArtworks := Z.of_nat (length artworksResponse);
     totalViews :=
       fold_left (fun sum artwork => sum + view_count artwork) artworksResponse 0;
     totalReveals :=
       Z.of_nat (length (filter (fun a => is_revealed a) artworksResponse));
     totalComments :=
       fold_left (fun sum artwork => sum + Z.of_nat (length (comments artwork)))
                 artworksResponse 0 |}.

Local Open Scope handler_scope.

(** Fetch artist's artworks and stats. *)
Definition fetchData (isArtist : bool) (outcome : settled (list Artwork))
    : M (S := State) (E := Effect) unit :=
  if isArtist then
    set (setLoading true) ;;
    emit (Call Api.GetMyArtworks) ;;
    match outcome with
    | Resolved artworksResponse =>
        set (setArtworks artworksResponse) ;;
        set (setStats (fun _ => calculateStats artworksResponse)) ;;
        set (setError None)
    | Rejected err =>
        set (setError
               (Some (error_message err
                        "Failed to load dashboard data. Please try again.")))
    end ;;
    set (setLoading false)
  else ret tt.

(** Delete artwork handler.  [confirmed] is the answer to
    [window.confirm]; the handler works on the [artworks] of the render it
    was created in. *)
Definition handleDeleteArtwork (artworkId : Z) (confirmed : bool)
    (outcome : settled unit) : M (S := State) (E := Effect) unit :=
  rendered <- get ;;
  let artworks := artworks rendered in
  if confirmed then
    emit (Call (Api.delete artworkId)) ;;
    match outcome with
    | Resolved _ =>
        (* Update artworks list *)
        set (setArtworks
               (filter (fun artwork => negb (id artwork =? artworkId)) artworks)) ;;
        (* Update stats *)
        match find (fun artwork => id artwork =? artworkId) artworks with
        | Some deletedArtwork =>
            set (setStats (fun prevStats =>
              {| totalArtworks := totalArtworks prevStats - 1;
                 totalViews := totalViews prevStats - view_count deletedArtwork;
                 totalReveals :=
                   if is_revealed deletedArtwork
                   then totalReveals prevStats - 1 else totalReveals prevStats;
                 totalComments :=
                   totalComments prevStats
                   - Z.of_nat (length (comments deletedArtwork)) |}))
        | None => ret tt
        end
    | Rejected err =>
        set (setError
               (Some (error_message err
                        "Failed to delete artwork. Please try again.")))
    end
  else ret tt.

Local Close Scope handler_scope.

(** *** The stats follow the list of artworks *)

(** The stats computed on load describe the list shown. *)
Lemma fetchData_stats (l : list Artwork) (s : State) :
  let s' := state_of (fetchData true (Resolved l) s) in
  artworks s' = l /\ stats s' = calculateStats l.
Proof. split; reflexivity. Qed.

Lemma fold_left_sum_shift {A : Type} (f : A -> Z) (l : list A) (z : Z) :
  fold_left (fun sum a => sum + f a) l z
  = z + fold_left (fun sum a => sum + f a) l 0.
Proof.
  revert z. induction l as [| a rest IH]; intros z; cbn [fold_left].
  - lia.
  - rewrite IH, (IH (0 + f a)). lia.
Qed.

Lemma fold_left_sum_app {A : Type} (f : A -> Z) (l1 l2 : list A) :
  fold_left (fun sum a => sum + f a) (l1 ++ l2) 0
  = fold_left (fun sum a => sum + f a) l1 0
    + fold_left (fun sum a => sum + f a) l2 0.
Proof.
  rewrite fold_left_app. apply fold_left_sum_shift.
Qed.

Lemma fold_left_sum_cons {A : Type} (f : A -> Z) (a : A) (l : list A) :
  fold_left (fun sum a => sum + f a) (a :: l) 0
  = f a + fold_left (fun sum a => sum + f a) l 0.
Proof.
  cbn [fold_left]. rewrite fold_left_sum_shift. lia.
Qed.

Lemma filter_other_ids (x : Z) (l : list Artwork) :
  ~ In x (map id l) ->
  filter (fun artwork => negb (id artwork =? x)) l = l /\
  find (fun artwork => id artwork =? x) l = None.
Proof.
  induction l as [| a rest IH]; intros Hnotin; [split; reflexivity |].
  cbn [map In] in Hnotin. cbn [filter find].
  destruct (Z.eqb_spec (id a) x) as [Heq | Hne].
  - exfalso. apply Hnotin. now left.
  - cbn [negb]. destruct IH as [IHf IHn]; [tauto |].
    rewrite IHf, IHn. split; reflexivity.
Qed.

(** With unique ids, the artwork with a given id splits the list, [find]
    returns it and [filter] removes it and nothing else. *)
Lemma unique_id_split (x : Z) (l : list Artwork) :
  NoDup (map id l) ->
  In x (map id l) ->
  exists deleted before after,
    l = (before ++ deleted :: after)%list /\
    id deleted = x /\
    find (fun artwork => id artwork =? x) l = Some deleted /\
    filter (fun artwork => negb (id artwork =? x)) l = (before ++ after)%list.
Proof.
  induction l as [| a rest IH]; intros Hnodup Hin; [destruct Hin |].
  cbn [map] in Hnodup, Hin. apply NoDup_cons_iff in Hnodup.
  destruct Hnodup as [Hfresh Hnodup]. cbn [find filter].
  destruct (Z.eqb_spec (id a) x) as [Heq | Hne].
  - exists a, [], rest. cbn [negb app].
    rewrite <- Heq in *. destruct (filter_other_ids (id a) rest Hfresh) as [Hf _].
    rewrite Hf. repeat split; reflexivity.
  - destruct Hin as [Heq | Hin]; [contradiction |].
    destruct (IH Hnodup Hin) as [deleted [before [after [Hl [Hid [Hfind Hfilter]]]]]].
    exists deleted, (a :: before)%list, after. cbn [negb app].
    rewrite Hfind, Hfilter, Hl. repeat split; try reflexivity. exact Hid.
Qed.

Lemma calculateStats_remove (before after : list Artwork) (deleted : Artwork) :
  let old := calculateStats (before ++ deleted :: after) in
  calculateStats (before ++ after)
  = {| totalArtworks := totalArtworks old - 1;
       totalViews := totalViews old - view_count deleted;
       totalReveals :=
         if is_revealed deleted then totalReveals old - 1 else totalReveals old;
       totalComments := totalComments old - Z.of_nat (length (comments deleted)) |}.
Proof.
  unfold calculateStats. cbn [totalArtworks totalViews totalReveals totalComments].
  f_equal.
  - rewrite !length_app. cbn [length]. lia.
  - rewrite !fold_left_sum_app, fold_left_sum_cons. lia.
  - rewrite !filter_app, !length_app. cbn [filter].
    destruct (is_revealed deleted); cbn [length]; lia.
  - rewrite !fold_left_sum_app.
    rewrite (fold_left_sum_cons (fun a => Z.of_nat (length (comments a)))). lia.
Qed.

(** C9: the delete handler preserves the stats invariant.  If the ids of
    the artworks listed are unique and the stats are the aggregates of the
    list (number of artworks, sum of view counts, number of revealed
    artworks, sum of comment counts), then after a confirmed, successful
    delete of an id of the list, the list is the old one without that
    artwork and the stats are the same aggregates of the new list. *)
Theorem delete_preserves_stats :
  forall (s : State) (artworkId : Z),
    NoDup (map id (artworks s)) ->
    stats s = calculateStats (artworks s) ->
    In artworkId (map id (artworks s)) ->
    let s' := state_of (handleDeleteArtwork artworkId true (Resolved tt) s) in
    (exists deleted before after,
        artworks s = (before ++ deleted :: after)%list /\
        id deleted = artworkId /\
        artworks s' = (before ++ after)%list) /\
    stats s' = calculateStats (artworks s') /\
    effects_of (handleDeleteArtwork artworkId true (Resolved tt) s)
    = [Call (Api.DeleteArtwork artworkId)].
Proof.
  intros s artworkId Hnodup Hstats Hin s'.
  destruct (unique_id_split artworkId (artworks s) Hnodup Hin)
    as [deleted [before [after [Hl [Hid [Hfind Hfilter]]]]]].
  assert (Hs' : artworks s' = (before ++ after)%list /\
                stats s' = calculateStats (before ++ after) /\
                effects_of (handleDeleteArtwork artworkId true (Resolved tt) s)
                = [Call (Api.DeleteArtwork artworkId)]).
  { subst s'. unfold handleDeleteArtwork, bind, get, emit, set, state_of, effects_of.
    cbn [fst snd]. rewrite Hfind. cbn [fst snd setArtworks setStats artworks stats].
    rewrite Hfilter, Hstats, Hl.
    split; [reflexivity |]. split; [| reflexivity].
    symmetry. apply calculateStats_remove. }
  destruct Hs' as [Hlist [Hnew Heff]].
  split; [| split].
  - exists deleted, before, after. repeat split; assumption.
  - rewrite Hlist. exact Hnew.
  - exact Heff.
Qed.

(** What [formatRevealCondition] renders. *)
Inductive Icon : Type :=
| VisibilityIcon
| ScheduleIcon
| CommentIcon.

Inductive Node : Type :=
| Text (s : string)
| Chip (label : string) (color : string) (icon : Icon)
(* a primary chip above a determinate progress bar *)
| ChipWithProgress (label : string) (icon : Icon) (value : number).

(** A numeric property in a template literal. *)
Definition show_optional (n : option Z) : string :=
  match n with
  | Some z => JsText.number_to_string z
  | None => "undefined"
  end.

Section Rendering.

(** [new Date(value)]: the time value of the date, [None] when it is
    invalid. *)
Variable new_Date : option string -> option Z.
(** [date.toLocaleDateString()]. *)
Variable toLocaleDateString : option Z -> string.

(** [date.getTime()]: NaN for an invalid date. *)
Definition getTime (date : option Z) : number := of_optional date.

(** Format reveal condition for display. *)
Definition formatRevealCondition (artwork : Artwork) : Node :=
  if is_revealed artwork then Chip "Revealed" "success" VisibilityIcon
  else
    match nth_error (reveal_conditions artwork) 0 with
    | None => Text "Unknown"
    | Some condition =>
        if String.eqb (condition_type condition) "time" then
          let revealDate := new_Date (reveal_at (condition_value condition)) in
          Chip ("Reveals on " ++ toLocaleDateString revealDate) "primary" ScheduleIcon
        else if String.eqb (condition_type condition) "view_count" then
          let progress :=
            PrimFloat.mul
              (PrimFloat.div (of_Z (view_count artwork))
                             (of_optional (count (condition_value condition))))
              hundred in
          ChipWithProgress
            (JsText.number_to_string (view_count artwork) ++ "/"
             ++ show_optional (count (condition_value condition)) ++ " views")
            VisibilityIcon
            (Math_min progress hundred)
        else if String.eqb (condition_type condition) "interactive" then
          let commentProgress :=
            PrimFloat.mul
              (PrimFloat.div (of_Z (Z.of_nat (length (comments artwork))))
                             (of_optional (comment_count (condition_value condition))))
              hundred in
          ChipWithProgress
            (JsText.number_to_string (Z.of_nat (length (comments artwork))) ++ "/"
             ++ show_optional (comment_count (condition_value condition))
             ++ " comments")
            CommentIcon
            (Math_min commentProgress hundred)
        else Text "Custom condition"
    end.

(** Calculate completion percentage based on reveal condition (the
    Analytics tab); [now] is [Date.now()]. *)
Definition completionPercentage (now : Z) (artwork : Artwork) : number :=
  let completionPercentage := if is_revealed artwork then hundred else PrimFloat.zero in
  if negb (is_revealed artwork) then
    match nth_error (reveal_conditions artwork) 0 with
    | None => completionPercentage
    | Some condition =>
        if String.eqb (condition_type condition) "time" then
          let revealDate := new_Date (reveal_at (condition_value condition)) in
          let totalDuration :=
            PrimFloat.sub (getTime revealDate)
                          (getTime (new_Date (Some (created_at artwork)))) in
          let elapsedDuration :=
            PrimFloat.sub (of_Z now)
                          (getTime (new_Date (Some (created_at artwork)))) in
          Math_min hundred
            (Math_floor (PrimFloat.mul (PrimFloat.div elapsedDuration totalDuration)
                                       hundred))
        else if String.eqb (condition_type condition) "view_count" then
          Math_min hundred
            (Math_floor
               (PrimFloat.mul
                  (PrimFloat.div (of_Z (view_count artwork))
                                 (of_optional (count (condition_value condition))))
                  hundred))
        else if String.eqb (condition_type condition) "interactive" then
          Math_min hundred
            (Math_floor
               (PrimFloat.mul
                  (PrimFloat.div (of_Z (Z.of_nat (length (comments artwork))))
                                 (of_optional
                                    (comment_count (condition_value condition))))
                  hundred))
        else completionPercentage
    end
  else completionPercentage.

(** C7: the reveal-condition summary and the completion percentage depend
    on the conditions of an artwork only through [reveal_conditions[0]].
    Two artworks that agree on the [is_revealed] flag, on the metrics read
    (view count, number of comments, creation date) and on their first
    condition (or both have none) are rendered alike, at any time,
    whatever conditions follow the first. *)
Theorem first_condition_authoritative :
  forall (now : Z) (a b : Artwork),
    is_revealed a = is_revealed b ->
    view_count a = view_count b ->
    length (comments a) = length (comments b) ->
    created_at a = created_at b ->
    nth_error (reveal_conditions a) 0 = nth_error (reveal_conditions b) 0 ->
    formatRevealCondition a = formatRevealCondition b /\
    completionPercentage now a = completionPercentage now b.
Proof.
  intros now a b Hrev Hviews Hcomments Hcreated Hfirst.
  unfold formatRevealCondition, completionPercentage.
  rewrite Hrev, Hviews, Hcomments, Hcreated, Hfirst.
  split; reflexivity.
Qed.

End Rendering.

(** *** Rendering on a concrete host (UTC, en-US) *)

Definition format_utc : Artwork -> Node :=
  formatRevealCondition (JsDate.new_Date JsDate.utc_zone)
                        (JsDate.toLocaleDateString JsDate.utc_zone).

Definition completion_utc : Z -> Artwork -> number :=
  completionPercentage (JsDate.new_Date JsDate.utc_zone).

Definition view_condition (n : Z) : RevealCondition :=
  {| condition_type := "view_count";
     condition_value := {| reveal_at := None; count := Some n;
                           comment_count := None |} |}.

Definition comment_condition (n : Z) : RevealCondition :=
  {| condition_type := "interactive";
     condition_value := {| reveal_at := None; count := None;
                           comment_count := Some n |} |}.

Definition hidden_artwork (views : Z) (conditions : list RevealCondition) : Artwork :=
  {| id := 7; title := "Mystery Landscape"; is_revealed := false;
     view_count := views; comments := []; created_at := "2025-01-02T12:00:00Z";
     reveal_conditions := conditions |}.

Example format_examples :
  format_utc (hidden_artwork 50 [view_condition 100])
  = ChipWithProgress "50/100 views" VisibilityIcon (of_Z 50) /\
  format_utc (hidden_artwork 250 [view_condition 100])
  = ChipWithProgress "250/100 views" VisibilityIcon (of_Z 100) /\
  format_utc (hidden_artwork 3 [Upload.time_condition "2025-01-08T00:00"])
  = Chip "Reveals on 1/8/2025" "primary" ScheduleIcon /\
  format_utc (hidden_artwork 3 []) = Text "Unknown" /\
  format_utc (hidden_artwork 3
                [{| condition_type := "location";
                    condition_value := {| reveal_at := None; count := None;
                                          comment_count := None |} |}])
  = Text "Custom condition".
Proof. repeat split; vm_compute; reflexivity. Qed.

(** The completion column reaches 100 exactly from the 100th view on, as
    the evaluator does for the same threshold; below, the percentage is the
    floored quotient of doubles (29 of 100 shows as 28). *)
Example completion_examples :
  completion_utc 0 (hidden_artwork 99 [view_condition 100]) = of_Z 99 /\
  completion_utc 0 (hidden_artwork 100 [view_condition 100]) = of_Z 100 /\
  completion_utc 0 (hidden_artwork 250 [view_condition 100]) = of_Z 100 /\
  completion_utc 0 (hidden_artwork 29 [view_condition 100]) = of_Z 28 /\
  completion_utc 1736035200000
    (hidden_artwork 0 [Upload.time_condition "2025-01-07T12:00"]) = of_Z 50.
Proof. repeat split; vm_compute; reflexivity. Qed.

(** *** The completion column and the evaluator

    The dashboard has no access to the evaluator; its completion column
    recomputes the progress from the same metric and threshold.  For
    thresholds up to 200 and up to 400 views, checked by computation on the
    doubles involved, the column shows 100 exactly when the evaluator of the
    backend holds for the view-count condition. *)

Definition zrange (lo : Z) (len : nat) : list Z :=
  map (fun i => lo + Z.of_nat i) (seq 0 len).

Lemma in_zrange (lo : Z) (len : nat) (z : Z) :
  lo <= z < lo + Z.of_nat len -> In z (zrange lo len).
Proof.
  intros Hz. unfold zrange. apply in_map_iff.
  exists (Z.to_nat (z - lo)). split; [lia |].
  apply in_seq. lia.
Qed.

Definition complete_iff_evaluate (n v : Z) : bool :=
  Bool.eqb
    (PrimFloat.eqb (completion_utc 0 (hidden_artwork v [view_condition n])) hundred)
    (Evaluator.evaluate
       {| Evaluator.current_time := 0; Evaluator.view_count := v;
          Evaluator.comment_count := 0 |}
       (Evaluator.ViewCountCondition n)).

Lemma complete_iff_evaluate_table :
  forallb (fun n => forallb (complete_iff_evaluate n) (zrange 0 401)) (zrange 1 200)
  = true.
Proof. vm_compute. reflexivity. Qed.

Lemma completion_agrees_with_evaluate (n v : Z) :
  1 <= n <= 200 -> 0 <= v <= 400 ->
  PrimFloat.eqb (completion_utc 0 (hidden_artwork v [view_condition n])) hundred
  = Evaluator.evaluate
      {| Evaluator.current_time := 0; Evaluator.view_count := v;
         Evaluator.comment_count := 0 |}
      (Evaluator.ViewCountCondition n).
Proof.
  intros Hn Hv.
  pose proof complete_iff_evaluate_table as Htable.
  rewrite forallb_forall in Htable.
  specialize (Htable n (in_zrange 1 200 n ltac:(lia))).
  rewrite forallb_forall in Htable.
  specialize (Htable v (in_zrange 0 401 v ltac:(lia))).
  unfold complete_iff_evaluate in Htable.
  now apply Bool.eqb_prop in Htable.
Qed.

(** The creation date is one of the metrics read: two artworks that differ
    in it alone show different percentages for the same time condition. *)
Example creation_date_matters :
  let a := hidden_artwork 0 [Upload.time_condition "2025-01-07T12:00"] in
  let b := {| id := id a; title := title a; is_revealed := is_revealed a;
              view_count := view_count a; comments := comments a;
              created_at := "2025-01-04T12:00:00Z";
              reveal_conditions := reveal_conditions a |} in
  completion_utc 1736035200000 a = of_Z 50 /\
  completion_utc 1736035200000 b = of_Z 16.
Proof. split; vm_compute; reflexivity. Qed.

Lemma first_condition_authoritative_witness :
  let a := hidden_artwork 29 [view_condition 100; comment_condition 1] in
  let b := hidden_artwork 29 [view_condition 100;
                              Upload.time_condition "2025-01-08T00:00";
                              view_condition 5] in
  reveal_conditions a <> reveal_conditions b /\
  format_utc a = format_utc b /\
  completion_utc 1736035200000 a = completion_utc 1736035200000 b.
Proof.
  intros a b. split; [discriminate |].
  exact (first_condition_authoritative
           (JsDate.new_Date JsDate.utc_zone)
           (JsDate.toLocaleDateString JsDate.utc_zone)
           1736035200000 a b eq_refl eq_refl eq_refl eq_refl eq_refl).
Defined.

(** *** A dashboard with three artworks *)

Definition a_comment (n : Z) : Comment :=
  {| comment_id := n; comment_user := "commentor";
     comment_content := text_of_string "Can't wait to see this revealed!";
     comment_created_at := "2025-01-03T12:00:00Z" |}.

Definition three_artworks : list Artwork :=
  [ {| id := 1; title := "Mystery Landscape"; is_revealed := false;
       view_count := 42; comments := [a_comment 1];
       created_at := "2025-01-02T12:00:00Z";
       reveal_conditions := [view_condition 100] |};
    {| id := 2; title := "Hidden Portrait"; is_revealed := true;
       view_count := 120; comments := [a_comment 2; a_comment 3];
       created_at := "2025-01-02T13:00:00Z";
       reveal_conditions := [view_condition 100] |};
    {| id := 3; title := "Silent Room"; is_revealed := true;
       view_count := 7; comments := [];
       created_at := "2025-01-02T14:00:00Z";
       reveal_conditions := [comment_condition 0] |} ].

Definition loaded : State :=
  state_of (fetchData true (Resolved three_artworks) initialState).

Example loaded_stats :
  stats loaded = {| totalArtworks := 3; totalViews := 169; totalReveals := 2;
                    totalComments := 3 |}.
Proof. reflexivity. Qed.

Lemma delete_preserves_stats_witness :
  let s' := state_of (handleDeleteArtwork 2 true (Resolved tt) loaded) in
  NoDup (map id (artworks loaded)) /\
  stats loaded = calculateStats (artworks loaded) /\
  In 2 (map id (artworks loaded)) /\
  map id (artworks s') = [1; 3] /\
  stats s' = calculateStats (artworks s') /\
  stats s' = {| totalArtworks := 2; totalViews := 49; totalReveals := 1;
                totalComments := 1 |}.
Proof.
  intros s'.
  assert (Hnodup : NoDup (map id (artworks loaded))).
  { cbn. repeat constructor; cbn; intuition discriminate. }
  assert (Hstats : stats loaded = calculateStats (artworks loaded)) by reflexivity.
  assert (Hin : In 2 (map id (artworks loaded))) by (cbn; auto).
  pose proof (delete_preserves_stats loaded 2 Hnodup Hstats Hin) as [_ [Hnew _]].
  repeat split; try assumption; reflexivity.
Defined.

(** Uniqueness of the ids is needed: [filter] removes every artwork with
    the id, the stats are decremented for the first one only. *)
Example duplicate_ids_break_stats :
  let twice := state_of (fetchData true
                           (Resolved (three_artworks ++ three_artworks)%list)
                           initialState) in
  let s' := state_of (handleDeleteArtwork 2 true (Resolved tt) twice) in
  totalArtworks (stats s') = 5 /\
  totalArtworks (calculateStats (artworks s')) = 4.
Proof. split; reflexivity. Qed.

(** A failed or declined delete changes neither the list nor the stats. *)
Example delete_declined_or_failed :
  state_of (handleDeleteArtwork 2 false (Resolved tt) loaded) = loaded /\
  artworks (state_of (handleDeleteArtwork 2 true (Rejected (ErrorInstance "Network Error")) loaded))
  = artworks loaded /\
  stats (state_of (handleDeleteArtwork 2 true (Rejected (ErrorInstance "Network Error")) loaded))
  = stats loaded.
Proof. repeat split; reflexivity. Qed.

End Dashboard.

(** ** The comment section ([CommentSection]) *)
Module CommentSection.
Import Js Component.

Record Props : Type := {
  artworkId : Z;
  comments : list Types.Comment;
  (* whether the optional [onCommentAdded] callback is provided *)
  onCommentAdded : bool
}.

Record State : Type := {
  commentText : text;
  isSubmitting : bool;
  error : option string;
  commentAdded : bool
}.

Inductive Effect : Type :=
| PreventDefault
| Call (r : Api.Request)
| OnCommentAdded (newComment : Types.Comment).

Definition setCommentText (t : text) (s : State) : State :=
  {| commentText := t; isSubmitting := isSubmitting s; error := error s;
     commentAdded := commentAdded s |}.

Definition setIsSubmitting (b : bool) (s : State) : State :=
  {| commentText := commentText s; isSubmitting := b; error := error s;
     commentAdded := commentAdded s |}.

Definition setError (e : option string) (s : State) : State :=
  {| commentText := commentText s; isSubmitting := isSubmitting s; error := e;
     commentAdded := commentAdded s |}.

Definition setCommentAdded (b : bool) (s : State) : State :=
  {| commentText := commentText s; isSubmitting := isSubmitting s; error := error s;
     commentAdded := b |}.

Local Open Scope handler_scope.

(** Handle form submission. *)
Definition handleSubmit (props : Props) (outcome : settled Types.Comment)
    : M (S := State) (E := Effect) unit :=
  emit PreventDefault ;;
  s <- get ;;
  match trim (commentText s) with
  | [] => ret tt
  | _ :: _ =>
      set (setIsSubmitting true) ;;
      set (setError None) ;;
      set (setCommentAdded false) ;;
      let commentData :=
        {| Api.artwork_id := artworkId props;
           Api.content := trim (commentText s) |} in
      emit (Call (Api.addComment (artworkId props) commentData)) ;;
      match outcome with
      | Resolved newComment =>
          set (setCommentText []) ;;
          set (setCommentAdded true) ;;
          (* Notify parent component if callback provided *)
          (if onCommentAdded props then emit (OnCommentAdded newComment) else ret tt)
      | Rejected err =>
          set (setError
                 (Some (error_message err "Failed to add comment. Please try again.")))
      end ;;
      set (setIsSubmitting false)
  end.

Definition requests_of (effects : list Effect) : list Api.Request :=
  flat_map (fun e => match e with Call r => [r] | _ => [] end) effects.

(** The submit button is disabled under the same test. *)
Definition submitDisabled (s : State) : bool :=
  isSubmitting s || match trim (commentText s) with [] => true | _ :: _ => false end.

Example whitespace_only_comment :
  trim (text_of_string "   ") = [] /\
  trim [9; 160; 8232; 65279; 10]%N = [] /\
  trim (text_of_string "  Can't wait to see this revealed!  ")
  = text_of_string "Can't wait to see this revealed!".
Proof. repeat split; reflexivity. Qed.

(** C10: comment submission is guarded on non-whitespace content.  When
    the trimmed comment text is empty no request is made and the component
    state is unchanged; when it is not, exactly one request is sent, the
    creation of a comment on the artwork of the [artworkId] prop, whose body
    has [artwork_id] equal to that prop and [content] equal to the trimmed
    text, whether the request then succeeds or fails. *)
Theorem comment_submission_guarded :
  forall (props : Props) (outcome : settled Types.Comment) (s : State),
    (trim (commentText s) = [] ->
     requests_of (effects_of (handleSubmit props outcome s)) = [] /\
     state_of (handleSubmit props outcome s) = s) /\
    (trim (commentText s) <> [] ->
     requests_of (effects_of (handleSubmit props outcome s))
     = [Api.AddComment (artworkId props)
          {| Api.artwork_id := artworkId props;
             Api.content := trim (commentText s) |}]).
Proof.
  intros props outcome s. unfold handleSubmit, bind, emit, get, ret, set.
  cbn [fst snd].
  destruct (trim (commentText s)) as [| c rest] eqn:Htrim.
  - split.
    + intros _. split; reflexivity.
    + intros Hne. now contradiction Hne.
  - split.
    + intros Hnil. discriminate Hnil.
    + intros _. destruct outcome as [newComment | err].
      * destruct (onCommentAdded props); reflexivity.
      * reflexivity.
Qed.

Lemma comment_submission_guarded_witness :
  let props := {| artworkId := 42; comments := []; onCommentAdded := true |} in
  let blank := {| commentText := text_of_string "   "; isSubmitting := false;
                  error := None; commentAdded := false |} in
  let typed := {| commentText := text_of_string "  Nice!  "; isSubmitting := false;
                  error := None; commentAdded := false |} in
  (requests_of (effects_of (handleSubmit props (Rejected (ErrorInstance "Network Error")) blank)) = [] /\
   state_of (handleSubmit props (Rejected (ErrorInstance "Network Error")) blank) = blank) /\
  requests_of (effects_of (handleSubmit props (Rejected (ErrorInstance "Network Error")) typed))
  = [Api.AddComment 42 {| Api.artwork_id := 42;
                          Api.content := text_of_string "Nice!" |}].
Proof.
  intros props blank typed. split.
  - exact (proj1 (comment_submission_guarded props (Rejected (ErrorInstance "Network Error")) blank) eq_refl).
  - apply (proj2 (comment_submission_guarded props (Rejected (ErrorInstance "Network Error")) typed)).
    discriminate.
Defined.

End CommentSection.

(** ** Formik's form values

    The helpers of Formik that the upload form goes through when a field
    changes: [getIn] and [setIn] on a path of property names and indices,
    and the [push] and [remove] helpers of [FieldArray].  Form values are
    plain objects and arrays: an array has its indexed elements only, and a
    property of any other kind of value reads as [undefined] and is not
    written. *)
Module FormikValues.
Import Js.

(** The property name of a path segment. *)
Definition property_name (seg : Yup.Segment) : string :=
  match seg with
  | Yup.Key k => k
  | Yup.Index i => JsText.number_to_string (Z.of_nat i)
  end.

(** [obj[seg]]. *)
Definition getSegment (obj : jsval) (seg : Yup.Segment) : jsval :=
  match obj, seg with
  | JObj _, _ => get_prop obj (property_name seg)
  | JArr items, Yup.Index i => nth i items JUndefined
  | _, _ => JUndefined
  end.

(** [getIn(obj, path)]: the walk stops at the first falsy value. *)
Fixpoint getIn (obj : jsval) (path : Yup.Path) : jsval :=
  match path with
  | [] => obj
  | seg :: rest => if truthy obj then getIn (getSegment obj seg) rest else JUndefined
  end.

Fixpoint replace_field (k : string) (v : jsval) (fields : list (string * jsval))
    : list (string * jsval) :=
  match fields with
  | [] => [(k, v)]
  | (k', x) :: rest =>
      if String.eqb k k' then (k, v) :: rest else (k', x) :: replace_field k v rest
  end.

(** [arr[i] = v]: an index past the end leaves holes, which read as
    [undefined]. *)
Fixpoint replace_item (i : nat) (v : jsval) (items : list jsval) : list jsval :=
  match i, items with
  | O, [] => [v]
  | O, _ :: rest => v :: rest
  | Datatypes.S j, [] => JUndefined :: replace_item j v []
  | Datatypes.S j, x :: rest => x :: replace_item j v rest
  end.

(** [obj[seg] = v] on a copy of [obj]. *)
Definition assign (obj : jsval) (seg : Yup.Segment) (v : jsval) : jsval :=
  match obj, seg with
  | JObj fields, _ => JObj (replace_field (property_name seg) v fields)
  | JArr items, Yup.Index i => JArr (replace_item i v items)
  | _, _ => obj
  end.

(** [delete obj[seg]] on a copy of [obj]. *)
Definition remove_property (obj : jsval) (seg : Yup.Segment) : jsval :=
  match obj, seg with
  | JObj fields, _ =>
      JObj (filter (fun kv => negb (String.eqb (property_name seg) (fst kv))) fields)
  | JArr items, Yup.Index i =>
      if (i <? length items)%nat then JArr (replace_item i JUndefined items) else obj
  | _, _ => obj
  end.

(** The value found along a path of properties. *)
Fixpoint current_at (obj : jsval) (path : Yup.Path) : jsval :=
  match path with
  | [] => obj
  | seg :: rest => current_at (getSegment obj seg) rest
  end.

(** The copy made by [setIn] along the path: a missing or primitive
    intermediate value becomes a new array before an index and a new object
    before a key; at the end of the path [undefined] deletes the
    property. *)
Fixpoint setIn_from (obj : jsval) (path : Yup.Path) (value : jsval) : jsval :=
  match path with
  | [] => obj
  | seg :: rest =>
      match rest with
      | [] =>
          match value with
          | JUndefined => remove_property obj seg
          | _ => assign obj seg value
          end
      | next :: _ =>
          let currentObj := getSegment obj seg in
          let child :=
            match currentObj with
            | JObj _ | JArr _ | JFile _ => currentObj
            | _ => match next with
                   | Yup.Index _ => JArr []
                   | Yup.Key _ => JObj []
                   end
            end in
          assign obj seg (setIn_from child rest value)
      end
  end.

(** [setIn(obj, path, value)] for a path of at least one segment.  The
    values are returned as they are when the property already holds the
    value, which matters when [undefined] is set where nothing is. *)
Definition setIn (obj : jsval) (path : Yup.Path) (value : jsval) : jsval :=
  match value, current_at obj path with
  | JUndefined, JUndefined => obj
  | _, _ => setIn_from obj path value
  end.

(** [copyArrayLike] of the value of an array field: the elements of the
    array, none when the field holds nothing. *)
Definition copyArrayLike (v : jsval) : list jsval :=
  match v with
  | JArr items => items
  | _ => []
  end.

(** [push(value)] of the [FieldArray] at [name]. *)
Definition push (name : Yup.Path) (value : jsval) (values : jsval) : jsval :=
  setIn values name (JArr (copyArrayLike (getIn values name) ++ [value])%list).

Definition is_undefined (v : jsval) : bool :=
  match v with
  | JUndefined => true
  | _ => false
  end.

(** [remove(index)] of the [FieldArray] at [name]: [splice(index, 1)] on
    a copy, which becomes the empty array when only holes are left. *)
Definition remove (name : Yup.Path) (index : nat) (values : jsval) : jsval :=
  let copy := copyArrayLike (getIn values name) in
  let spliced := (firstn index copy ++ skipn (Datatypes.S index) copy)%list in
  setIn values name (JArr (if forallb is_undefined spliced then [] else spliced)).

End FormikValues.

(** ** Filling in the upload form *)
Module UploadForm.
Import Js Component Types Upload.

(** A file picked in a file input. *)
Record File : Type := {
  file_name : string;
  (* [file.type]: the MIME type, empty when the browser cannot tell *)
  file_type : string
}.

Definition file_object (file : File) : jsval := JFile (file_name file).

(** The form: the values Formik holds and the state of the page. *)
Record Form : Type := {
  values : jsval;
  page : State
}.

Definition setFieldValue (path : Yup.Path) (value : jsval) (f : Form) : Form :=
  {| values := FormikValues.setIn (values f) path value; page := page f |}.

Definition setPage (update : State -> State) (f : Form) : Form :=
  {| values := values f; page := update (page f) |}.

(** Handle file changes; [files] is [event.target.files]. *)
Definition handleArtworkChange (files : list File) (f : Form) : Form :=
  match files with
  | file :: _ =>
      f |> setPage (setArtwork (file_object file))
        |> setFieldValue [Yup.Key "artwork_file"] (file_object file)
        (* Set content type based on file type *)
        |> setFieldValue [Yup.Key "content_type"] (JStr (file_type file))
  | [] => f
  end.

Definition handlePlaceholderChange (files : list File) (f : Form) : Form :=
  match files with
  | file :: _ =>
      f |> setPage (setPlaceholder (file_object file))
        |> setFieldValue [Yup.Key "placeholder_image"] (file_object file)
  | [] => f
  end.

(** The path of a field of the condition at [index]. *)
Definition condition_field (index : nat) (rest : Yup.Path) : Yup.Path :=
  Yup.Key "reveal_conditions" :: Yup.Index index :: rest.

(** [values.reveal_conditions], the conditions the form renders. *)
Definition conditions (f : Form) : list jsval :=
  FormikValues.copyArrayLike (get_prop (values f) "reveal_conditions").

(** [condition.condition_type === type] for the condition rendered at
    [index]. *)
Definition rendered_as (type : string) (index : nat) (f : Form) : bool :=
  match nth_error (conditions f) index with
  | Some condition =>
      match get_prop condition "condition_type" with
      | JStr t => String.eqb t type
      | _ => false
      end
  | None => false
  end.

(** The values of the menu items of the Reveal Type select. *)
Definition menu_items : list string := ["time"; "view_count"; "interactive"].

(** What the artist does with the form.  A number input hands Formik the
    number typed, or the empty string when there is none. *)
Inductive Action : Type :=
| ChangeTitle (text : string)
| ChangeDescription (text : string)
| PickArtwork (files : list File)
| ArtworkPreviewLoaded (result : string)
| PickPlaceholder (files : list File)
| PlaceholderPreviewLoaded (result : string)
| SelectRevealType (index : nat) (newType : string) (now : Z)
| ChangeRevealAt (index : nat) (text : string)
| ChangeCount (index : nat) (number : option Z)
| ChangeCommentCount (index : nat) (number : option Z)
| AddAnotherCondition (now : Z)
| RemoveCondition (index : nat)
| PressUpload (outcome : settled jsval).

(** The control of the action is rendered: a condition has a Reveal Type
    select with three items, the one input of its type, and a Remove button
    when it is not the only condition. *)
Definition rendered (a : Action) (f : Form) : bool :=
  match a with
  | SelectRevealType index newType _ =>
      (index <? length (conditions f))%nat && existsb (String.eqb newType) menu_items
  | ChangeRevealAt index _ => rendered_as "time" index f
  | ChangeCount index _ => rendered_as "view_count" index f
  | ChangeCommentCount index _ => rendered_as "interactive" index f
  | RemoveCondition index =>
      (1 <? length (conditions f))%nat && (index <? length (conditions f))%nat
  | _ => true
  end.

Definition number_input (number : option Z) : jsval :=
  match number with
  | Some n => JNum n
  | None => JStr ""
  end.

Section Page.

(** The time zone of the browser and the values of the first render, which
    [resetForm] restores. *)
Variable tz : JsDate.TimeZone.
Variable mounted : Z.

Definition resets (effects : list Effect) : bool :=
  existsb (fun e => match e with ResetForm => true | _ => false end) effects.

(** Pressing the submit button: Formik validates, runs [handleSubmit] on
    valid values, and [resetForm] puts the initial values back. *)
Definition pressUpload (outcome : settled jsval) (f : Form) : Form :=
  let '(_, page', effects) := submitForm (values f) outcome (page f) in
  {| values := if resets effects then initialValues tz mounted else values f;
     page := page' |}.

Definition perform (a : Action) (f : Form) : Form :=
  match a with
  | ChangeTitle text => setFieldValue [Yup.Key "title"] (JStr text) f
  | ChangeDescription text => setFieldValue [Yup.Key "description"] (JStr text) f
  | PickArtwork files => handleArtworkChange files f
  | ArtworkPreviewLoaded result => setPage (setArtworkPreview (Some result)) f
  | PickPlaceholder files => handlePlaceholderChange files f
  | PlaceholderPreviewLoaded result => setPage (setPlaceholderPreview (Some result)) f
  | SelectRevealType index newType now =>
      f |> setFieldValue (condition_field index [Yup.Key "condition_type"])
                         (JStr newType)
        |> setFieldValue (condition_field index [Yup.Key "condition_value"])
                         (value_object (condition_value (initializeCondition tz now newType)))
  | ChangeRevealAt index text =>
      setFieldValue
        (condition_field index [Yup.Key "condition_value"; Yup.Key "reveal_at"])
        (JStr text) f
  | ChangeCount index number =>
      setFieldValue
        (condition_field index [Yup.Key "condition_value"; Yup.Key "count"])
        (number_input number) f
  | ChangeCommentCount index number =>
      setFieldValue
        (condition_field index [Yup.Key "condition_value"; Yup.Key "comment_count"])
        (number_input number) f
  | AddAnotherCondition now =>
      {| values := FormikValues.push [Yup.Key "reveal_conditions"]
                     (condition_object (initializeCondition tz now "time")) (values f);
         page := page f |}
  | RemoveCondition index =>
      {| values := FormikValues.remove [Yup.Key "reveal_conditions"] index (values f);
         page := page f |}
  | PressUpload outcome => pressUpload outcome f
  end.

Definition act (f : Form) (a : Action) : Form :=
  if rendered a f then perform a f else f.

(** The page at its first render. *)
Definition firstRender : Form :=
  {| values := initialValues tz mounted;
     page := {| uploading := false; uploadSuccess := false; uploadError := None;
                artwork := JNull; artworkPreview := None;
                placeholder := JNull; placeholderPreview := None |} |}.

Definition fill (actions : list Action) : Form :=
  fold_left act actions firstRender.

End Page.

Example filled_form :
  let landscape := {| file_name := "landscape.jpg"; file_type := "image/jpeg" |} in
  values
    (fill JsDate.utc_zone 1735689601234
       [ChangeTitle "Mystery Landscape";
        PickArtwork [landscape];
        AddAnotherCondition 1735689601234;
        SelectRevealType 1 "view_count" 1735689601234;
        ChangeCount 1 (Some 250);
        ChangeRevealAt 1 "2025-02-01T10:00";
        SelectRevealType 0 "location" 1735689601234;
        ChangeRevealAt 0 "";
        RemoveCondition 5])
  = JObj [("title", JStr "Mystery Landscape");
          ("description", JStr "");
          ("content_type", JStr "image/jpeg");
          ("artwork_file", JFile "landscape.jpg");
          ("placeholder_image", JNull);
          ("reveal_conditions",
           JArr [JObj [("condition_type", JStr "time");
                       ("condition_value", JObj [("reveal_at", JStr "")])];
                 JObj [("condition_type", JStr "view_count");
                       ("condition_value", JObj [("count", JNum 250)])]])].
Proof. reflexivity. Qed.

(** *** The shape of the values *)

(** The values of the form, with the conditions it lists. *)
Definition form_values (title description content_type : string)
    (artwork_file placeholder_image : jsval) (items : list jsval) : jsval :=
  JObj [("title", JStr title);
        ("description", JStr description);
        ("content_type", JStr content_type);
        ("artwork_file", artwork_file);
        ("placeholder_image", placeholder_image);
        ("reveal_conditions", JArr items)].

(** A condition of one of the three types whose value has the one key
    that goes with the type. *)
Definition condition_item (type : string) (v : jsval) : jsval :=
  JObj [("condition_type", JStr type);
        ("condition_value", JObj [(value_key type, v)])].

Definition well_formed (c : jsval) : Prop :=
  exists type v, In type known_types /\ c = condition_item type v.

Definition file_or_null (v : jsval) : Prop :=
  v = JNull \/ exists name, v = JFile name.

(** The values hold the given files and a non-empty list of well-formed
    conditions. *)
Inductive shaped_values (artwork_file placeholder_image : jsval) (v : jsval) : Prop :=
| Shaped (title description content_type : string) (items : list jsval) :
    v = form_values title description content_type artwork_file
                    placeholder_image items ->
    items <> [] ->
    Forall well_formed items ->
    shaped_values artwork_file placeholder_image v.

(** The files the page shows as selected are the files of the values. *)
Definition shaped (f : Form) : Prop :=
  shaped_values (artwork (page f)) (placeholder (page f)) (values f) /\
  file_or_null (artwork (page f)) /\
  file_or_null (placeholder (page f)).

Lemma replace_item_listed (i : nat) (x y : jsval) (items : list jsval)
    (P : jsval -> Prop) :
  nth_error items i = Some x -> Forall P items -> P y ->
  FormikValues.replace_item i y items <> [] /\
  Forall P (FormikValues.replace_item i y items).
Proof.
  revert items. induction i as [| j IH]; intros [| z rest] Hnth Hall Hy;
    try discriminate Hnth; cbn [FormikValues.replace_item].
  - inversion Hall; subst. split; [discriminate | now constructor].
  - inversion Hall; subst. cbn [nth_error] in Hnth.
    destruct (IH rest Hnth H2 Hy) as [_ Hrest].
    split; [discriminate | now constructor].
Qed.

Lemma in_firstn_listed {A : Type} (n : nat) (l : list A) (x : A) :
  In x (firstn n l) -> In x l.
Proof.
  revert l. induction n as [| m IH]; intros [| y rest] Hin; try contradiction Hin.
  cbn [firstn] in Hin. destruct Hin as [-> | Hin]; [now left | right; now apply IH].
Qed.

Lemma in_skipn_listed {A : Type} (n : nat) (l : list A) (x : A) :
  In x (skipn n l) -> In x l.
Proof.
  revert l. induction n as [| m IH]; intros [| y rest] Hin;
    try contradiction Hin; try exact Hin.
  right. now apply IH.
Qed.

Lemma nth_listed (i : nat) (x : jsval) (items : list jsval) :
  nth_error items i = Some x -> nth i items JUndefined = x.
Proof.
  intros Hnth. now apply nth_error_nth.
Qed.

(** Writing a field of a listed condition rewrites that condition in
    place. *)
Lemma setIn_condition_field (title description content_type : string)
    (artwork_file placeholder_image : jsval) (items : list jsval)
    (i : nat) (k : string) (fields : list (string * jsval))
    (rest : Yup.Path) (v : jsval) :
  nth_error items i = Some (JObj fields) ->
  v <> JUndefined ->
  FormikValues.setIn
    (form_values title description content_type artwork_file placeholder_image items)
    (condition_field i (Yup.Key k :: rest)) v
  = form_values title description content_type artwork_file placeholder_image
      (FormikValues.replace_item i
         (FormikValues.setIn_from (JObj fields) (Yup.Key k :: rest) v) items).
Proof.
  intros Hnth Hv. unfold FormikValues.setIn.
  assert (Hfrom :
    FormikValues.setIn_from
      (form_values title description content_type artwork_file placeholder_image items)
      (condition_field i (Yup.Key k :: rest)) v
    = form_values title description content_type artwork_file placeholder_image
        (FormikValues.replace_item i
           (FormikValues.setIn_from (JObj fields) (Yup.Key k :: rest) v) items)).
  { unfold condition_field, form_values.
    cbn [FormikValues.setIn_from FormikValues.getSegment FormikValues.property_name
         get_prop assoc String.eqb Ascii.eqb Bool.eqb FormikValues.assign
         FormikValues.replace_field].
    rewrite (nth_listed i _ items Hnth). reflexivity. }
  destruct v; try exact Hfrom. now contradiction Hv.
Qed.

Lemma value_key_known (type : string) :
  In type known_types ->
  (type = "time" /\ value_key type = "reveal_at") \/
  (type = "view_count" /\ value_key type = "count") \/
  (type = "interactive" /\ value_key type = "comment_count").
Proof.
  intros [<- | [<- | [<- | []]]]; auto.
Qed.

(** The default condition of a type of the menu. *)
Lemma initializeCondition_item (tz : JsDate.TimeZone) (now : Z) (type : string) :
  In type known_types ->
  exists v,
    condition_object (initializeCondition tz now type) = condition_item type v /\
    value_object (condition_value (initializeCondition tz now type))
    = JObj [(value_key type, v)].
Proof.
  intros [<- | [<- | [<- | []]]]; eexists; split; reflexivity.
Qed.

Lemma rendered_as_item (type : string) (index : nat) (f : Form) (items : list jsval)
    (title description content_type : string) (artwork_file placeholder_image : jsval) :
  values f = form_values title description content_type artwork_file
                         placeholder_image items ->
  Forall well_formed items ->
  rendered_as type index f = true ->
  exists v, nth_error items index = Some (condition_item type v) /\
            In type known_types.
Proof.
  intros Hvalues Hall. unfold rendered_as, conditions. rewrite Hvalues.
  cbn [form_values get_prop assoc String.eqb Ascii.eqb Bool.eqb
       FormikValues.copyArrayLike].
  destruct (nth_error items index) as [c |] eqn:Hnth; [| discriminate].
  rewrite Forall_forall in Hall.
  destruct (Hall c (nth_error_In _ _ Hnth)) as [ty [v [Hknown ->]]].
  cbn [condition_item get_prop assoc String.eqb Ascii.eqb Bool.eqb].
  intros Heq. apply String.eqb_eq in Heq. subst ty. now exists v.
Qed.

Lemma replace_item_nth (i : nat) (x y : jsval) (items : list jsval) :
  nth_error items i = Some x ->
  nth_error (FormikValues.replace_item i y items) i = Some y /\
  length (FormikValues.replace_item i y items) = length items /\
  forall j, j <> i ->
    nth_error (FormikValues.replace_item i y items) j = nth_error items j.
Proof.
  revert items. induction i as [| k IH]; intros [| z rest] Hnth;
    try discriminate Hnth; cbn [FormikValues.replace_item].
  - split; [reflexivity |]. split; [reflexivity |].
    intros [| j] Hj; [now contradiction Hj | reflexivity].
  - cbn [nth_error] in Hnth. destruct (IH rest Hnth) as [Hi [Hlen Hother]].
    split; [exact Hi |]. split; [cbn [length]; now rewrite Hlen |].
    intros [| j] Hj; [reflexivity |]. cbn [nth_error]. apply Hother. congruence.
Qed.

Lemma conditions_of_values (f : Form) (t d c : string) (a p : jsval)
    (items : list jsval) :
  values f = form_values t d c a p items -> conditions f = items.
Proof. unfold conditions. now intros ->. Qed.

Section Conditions.

Variable tz : JsDate.TimeZone.
Variable mounted : Z.

(** The values after the Reveal Type select of a listed condition. *)
Lemma select_type_values (f : Form) (t d c : string) (a p : jsval)
    (items : list jsval) (index : nat) (newType : string) (now : Z) :
  values f = form_values t d c a p items ->
  Forall well_formed items ->
  (index < length items)%nat ->
  In newType menu_items ->
  values (perform tz mounted (SelectRevealType index newType now) f)
  = form_values t d c a p
      (FormikValues.replace_item index
         (condition_object (initializeCondition tz now newType)) items).
Proof.
  intros Hvalues Hall Hindex Hmenu.
  destruct (nth_error items index) as [old |] eqn:Hnth;
    [| apply nth_error_None in Hnth; lia].
  rewrite Forall_forall in Hall.
  destruct (Hall old (nth_error_In _ _ Hnth)) as [ty [v [Hknown ->]]].
  destruct (initializeCondition_item tz now newType Hmenu) as [v' [Hitem Hvalue]].
  cbn [perform setFieldValue values]. rewrite Hvalues, Hvalue, Hitem.
  rewrite (setIn_condition_field t d c a p items index "condition_type" _ []
             (JStr newType) Hnth ltac:(discriminate)).
  set (retyped := JObj [("condition_type", JStr newType);
                        ("condition_value", JObj [(value_key ty, v)])]).
  match goal with
  | |- context [FormikValues.setIn_from ?o [Yup.Key "condition_type"] ?x] =>
      change (FormikValues.setIn_from o [Yup.Key "condition_type"] x) with retyped
  end.
  destruct (replace_item_nth index _ retyped items Hnth) as [Hnth' _].
  rewrite (setIn_condition_field t d c a p _ index "condition_value" _ []
             (JObj [(value_key newType, v')]) Hnth' ltac:(discriminate)).
  change (FormikValues.setIn_from retyped [Yup.Key "condition_value"]
            (JObj [(value_key newType, v')]))
    with (condition_item newType v').
  f_equal. clear. revert items.
  induction index as [| j IH]; intros [| z rest];
    cbn [FormikValues.replace_item]; try reflexivity; now rewrite IH.
Qed.

Lemma add_values (f : Form) (t d c : string) (a p : jsval) (items : list jsval)
    (now : Z) :
  values f = form_values t d c a p items ->
  values (perform tz mounted (AddAnotherCondition now) f)
  = form_values t d c a p
      (items ++ [condition_object (initializeCondition tz now "time")])%list.
Proof. cbn [perform values]. now intros ->. Qed.

Lemma remove_values (f : Form) (t d c : string) (a p : jsval) (items : list jsval)
    (index : nat) :
  values f = form_values t d c a p items ->
  Forall well_formed items ->
  (1 < length items)%nat ->
  values (perform tz mounted (RemoveCondition index) f)
  = form_values t d c a p
      (firstn index items ++ skipn (Datatypes.S index) items)%list.
Proof.
  intros Hvalues Hall Hmany. cbn [perform values]. rewrite Hvalues.
  set (spliced := (firstn index items ++ skipn (Datatypes.S index) items)%list).
  assert (Hall' : Forall well_formed spliced).
  { apply Forall_app. split.
    - apply Forall_forall. intros x Hx. rewrite Forall_forall in Hall.
      apply Hall. eapply in_firstn_listed; exact Hx.
    - apply Forall_forall. intros x Hx. rewrite Forall_forall in Hall.
      apply Hall. eapply in_skipn_listed; exact Hx. }
  assert (Hlen : (length items - 1 <= length spliced)%nat).
  { subst spliced. rewrite length_app, length_firstn, length_skipn. lia. }
  assert (Hholes : forallb FormikValues.is_undefined spliced = false).
  { destruct spliced as [| x rest]; [cbn in Hlen; lia |].
    inversion Hall' as [| ? ? [ty [v [_ ->]]] _]; subst. reflexivity. }
  unfold FormikValues.remove.
  cbn [form_values FormikValues.getIn truthy FormikValues.getSegment
       FormikValues.property_name get_prop assoc String.eqb Ascii.eqb Bool.eqb
       FormikValues.copyArrayLike].
  fold spliced. rewrite Hholes. reflexivity.
Qed.

End Conditions.

Section Shape.

Variable tz : JsDate.TimeZone.
Variable mounted : Z.

Lemma initialValues_shaped : shaped_values JNull JNull (initialValues tz mounted).
Proof.
  eapply (Shaped _ _ _ "" "" "" [condition_item "time" _]).
  - reflexivity.
  - discriminate.
  - apply Forall_cons; [| apply Forall_nil].
    eexists "time", _. split; [now left | reflexivity].
Qed.

Lemma firstRender_shaped : shaped (firstRender tz mounted).
Proof.
  split; [apply initialValues_shaped | split; now left].
Qed.

(** Editing the value of the condition at [index], of type [type]. *)
Lemma change_value_shaped (f : Form) (a p : jsval) (type key : string)
    (index : nat) (v : jsval) :
  shaped_values a p (values f) ->
  rendered_as type index f = true ->
  value_key type = key ->
  v <> JUndefined ->
  shaped_values a p
    (FormikValues.setIn (values f)
       (condition_field index [Yup.Key "condition_value"; Yup.Key key]) v).
Proof.
  intros [t d c items Hvalues Hne Hall] Hrendered Hkey Hv.
  destruct (rendered_as_item type index f items t d c a p Hvalues Hall Hrendered)
    as [old [Hnth Hknown]].
  rewrite Hvalues.
  rewrite (setIn_condition_field t d c a p items index "condition_value" _ _ v Hnth Hv).
  assert (Hnew :
    FormikValues.setIn_from
      (JObj [("condition_type", JStr type);
             ("condition_value", JObj [(value_key type, old)])])
      [Yup.Key "condition_value"; Yup.Key key] v
    = condition_item type v).
  { subst key.
    destruct (value_key_known type Hknown) as [[-> ->] | [[-> ->] | [-> ->]]];
      destruct v; try reflexivity; now contradiction Hv. }
  rewrite Hnew.
  destruct (replace_item_listed index _ (condition_item type v) items well_formed
              Hnth Hall) as [Hne' Hall'].
  { now exists type, v. }
  exact (Shaped _ _ _ t d c _ eq_refl Hne' Hall').
Qed.

Lemma number_input_defined (number : option Z) : number_input number <> JUndefined.
Proof. destruct number; discriminate. Qed.

Lemma existsb_menu (type : string) :
  existsb (String.eqb type) menu_items = true -> In type known_types.
Proof.
  intros Hex. apply existsb_exists in Hex. destruct Hex as [t [Hin Heq]].
  apply String.eqb_eq in Heq. now subst t.
Qed.

(** The Reveal Type select: the type is written, then the default value
    of the new type. *)
Lemma select_type_shaped (f : Form) (a p : jsval) (index : nat) (newType : string)
    (now : Z) :
  shaped_values a p (values f) ->
  rendered (SelectRevealType index newType now) f = true ->
  shaped_values a p (values (perform tz mounted (SelectRevealType index newType now) f)).
Proof.
  intros [t d c items Hvalues Hne Hall] Hrendered.
  cbn [rendered] in Hrendered. apply andb_true_iff in Hrendered.
  destruct Hrendered as [Hindex Hmenu]. apply existsb_menu in Hmenu.
  rewrite (conditions_of_values f _ _ _ _ _ _ Hvalues) in Hindex.
  apply Nat.ltb_lt in Hindex.
  rewrite (select_type_values tz mounted f t d c a p items index newType now
             Hvalues Hall Hindex Hmenu).
  destruct (nth_error items index) as [old |] eqn:Hnth;
    [| apply nth_error_None in Hnth; lia].
  destruct (initializeCondition_item tz now newType Hmenu) as [v [Hitem _]].
  destruct (replace_item_listed index _
              (condition_object (initializeCondition tz now newType)) items
              well_formed Hnth Hall) as [Hne' Hall'].
  { rewrite Hitem. now exists newType, v. }
  exact (Shaped _ _ _ t d c _ eq_refl Hne' Hall').
Qed.

Lemma remove_shaped (f : Form) (a p : jsval) (index : nat) :
  shaped_values a p (values f) ->
  rendered (RemoveCondition index) f = true ->
  shaped_values a p (values (perform tz mounted (RemoveCondition index) f)).
Proof.
  intros [t d c items Hvalues Hne Hall] Hrendered.
  cbn [rendered] in Hrendered. apply andb_true_iff in Hrendered.
  destruct Hrendered as [Hmany _].
  rewrite (conditions_of_values f _ _ _ _ _ _ Hvalues) in Hmany.
  apply Nat.ltb_lt in Hmany.
  rewrite (remove_values tz mounted f t d c a p items index Hvalues Hall Hmany).
  refine (Shaped _ _ _ t d c _ eq_refl _ _).
  - intros Hnil.
    assert (Hlen : (length items - 1
                    <= length (firstn index items
                               ++ skipn (Datatypes.S index) items))%nat).
    { rewrite length_app, length_firstn, length_skipn. lia. }
    rewrite Hnil in Hlen. cbn [length] in Hlen. lia.
  - apply Forall_app. split.
    + apply Forall_forall. intros x Hx. rewrite Forall_forall in Hall.
      apply Hall. eapply in_firstn_listed; exact Hx.
    + apply Forall_forall. intros x Hx. rewrite Forall_forall in Hall.
      apply Hall. eapply in_skipn_listed; exact Hx.
Qed.

(** What pressing the button does to the form. *)
Lemma pressUpload_cases (outcome : settled jsval) (f : Form) :
  (Formik.validateYupSchema (values f) uploadSchema <> [] /\
   pressUpload tz mounted outcome f = f) \/
  (Formik.validateYupSchema (values f) uploadSchema = [] /\
   exists response, outcome = Resolved response /\
     pressUpload tz mounted outcome f
     = {| values := initialValues tz mounted;
          page := {| uploading := false; uploadSuccess := true; uploadError := None;
                     artwork := JNull; artworkPreview := None;
                     placeholder := JNull; placeholderPreview := None |} |}) \/
  (Formik.validateYupSchema (values f) uploadSchema = [] /\
   exists err, outcome = Rejected err /\
     pressUpload tz mounted outcome f
     = {| values := values f;
          page := {| uploading := false; uploadSuccess := false;
                     uploadError :=
                       Some (error_message err
                               "Failed to upload artwork. Please try again.");
                     artwork := artwork (page f);
                     artworkPreview := artworkPreview (page f);
                     placeholder := placeholder (page f);
                     placeholderPreview := placeholderPreview (page f) |} |}).
Proof.
  unfold pressUpload, submitForm.
  destruct (Formik.validateYupSchema (values f) uploadSchema) as [| e errors].
  - right. destruct outcome as [response | err].
    + left. split; [reflexivity |]. exists response. split; reflexivity.
    + right. split; [reflexivity |]. exists err. split; reflexivity.
  - left. split; [discriminate |]. destruct f; reflexivity.
Qed.

Lemma perform_shaped (a : Action) (f : Form) :
  shaped f -> rendered a f = true -> shaped (perform tz mounted a f).
Proof.
  intros [Hvalues Hfiles] Hrendered.
  destruct a as [text | text | files | result | files | result
                 | index newType now | index text | index number | index number
                 | now | index | outcome].
  - split; [| exact Hfiles].
    destruct Hvalues as [t d c items Hvalues Hne Hall].
    cbn [perform setFieldValue values page]. rewrite Hvalues.
    exact (Shaped _ _ _ text d c items eq_refl Hne Hall).
  - split; [| exact Hfiles].
    destruct Hvalues as [t d c items Hvalues Hne Hall].
    cbn [perform setFieldValue values page]. rewrite Hvalues.
    exact (Shaped _ _ _ t text c items eq_refl Hne Hall).
  - destruct files as [| file rest]; [split; assumption |].
    destruct Hvalues as [t d c items Hvalues Hne Hall].
    split; [| split];
      cbn [perform handleArtworkChange setFieldValue setPage values page
           setArtwork artwork placeholder].
    + rewrite Hvalues.
      exact (Shaped _ _ _ t d (file_type file) items eq_refl Hne Hall).
    + right. now exists (file_name file).
    + exact (proj2 Hfiles).
  - split; assumption.
  - destruct files as [| file rest]; [split; assumption |].
    destruct Hvalues as [t d c items Hvalues Hne Hall].
    split; [| split];
      cbn [perform handlePlaceholderChange setFieldValue setPage values page
           setPlaceholder artwork placeholder].
    + rewrite Hvalues.
      exact (Shaped _ _ _ t d c items eq_refl Hne Hall).
    + exact (proj1 Hfiles).
    + right. now exists (file_name file).
  - split; assumption.
  - split; [| exact Hfiles]. now apply select_type_shaped.
  - split; [| exact Hfiles]. cbn [perform setFieldValue values page].
    apply (change_value_shaped f _ _ "time"); try assumption;
      [reflexivity | discriminate].
  - split; [| exact Hfiles]. cbn [perform setFieldValue values page].
    apply (change_value_shaped f _ _ "view_count"); try assumption;
      [reflexivity | apply number_input_defined].
  - split; [| exact Hfiles]. cbn [perform setFieldValue values page].
    apply (change_value_shaped f _ _ "interactive"); try assumption;
      [reflexivity | apply number_input_defined].
  - (* Add Another Condition *)
    split; [| exact Hfiles].
    destruct Hvalues as [t d c items Hvalues Hne Hall].
    cbn [perform values page]. rewrite Hvalues.
    destruct (initializeCondition_item tz now "time" ltac:(now left)) as [v [Hitem _]].
    rewrite Hitem.
    refine (Shaped _ _ _ t d c (items ++ [condition_item "time" v])%list eq_refl _ _).
    + intros Hnil. apply app_eq_nil in Hnil. destruct Hnil as [_ Hnil].
      discriminate Hnil.
    + apply Forall_app. split; [exact Hall |].
      apply Forall_cons; [| apply Forall_nil].
      exists "time", v. split; [now left | reflexivity].
  - split; [| exact Hfiles]. now apply remove_shaped.
  - (* Upload *)
    cbn [perform].
    destruct (pressUpload_cases outcome f)
      as [[_ ->] | [[_ [response [_ ->]]] | [_ [err [_ ->]]]]].
    + split; assumption.
    + split; [apply initialValues_shaped | split; now left].
    + split; assumption.
Qed.

Lemma fill_shaped (actions : list Action) : shaped (fill tz mounted actions).
Proof.
  unfold fill. pose proof firstRender_shaped as Hinit. revert Hinit.
  generalize (firstRender tz mounted).
  induction actions as [| a rest IH]; intros f Hf; cbn [fold_left]; [exact Hf |].
  apply IH. unfold act. destruct (rendered a f) eqn:Hrendered; [| exact Hf].
  now apply perform_shaped.
Qed.

End Shape.

(** *** Validation of the values of the form *)















Definition landscape : File :=
  {| file_name := "landscape.jpg"; file_type := "image/jpeg" |}.

Definition landscape_actions : list Action :=
  [ChangeTitle "Mystery Landscape"; PickArtwork [landscape];
   ArtworkPreviewLoaded "data:image/jpeg;base64,AAAA";
   SelectRevealType 0 "interactive" 1735689601234; ChangeCommentCount 0 None].



(** X10: the files shown as selected are the files sent.  Over any
    sequence of actions, the artwork file and the placeholder image the page
    shows as selected are the ones held in the values of the form, which a
    create request carries; the artwork is a file or nothing. *)
Theorem selected_files_are_sent :
  forall (tz : JsDate.TimeZone) (mounted : Z) (actions : list Action),
    let f := fill tz mounted actions in
    get_prop (values f) "artwork_file" = artwork (page f) /\
    get_prop (values f) "placeholder_image" = placeholder (page f) /\
    get_prop (artworkData (values f)) "artwork_file" = artwork (page f) /\
    get_prop (artworkData (values f)) "placeholder_image" = placeholder (page f) /\
    (artwork (page f) = JNull \/ exists name, artwork (page f) = JFile name).
Proof.
  intros tz mounted actions f.
  destruct (fill_shaped tz mounted actions)
    as [[t d c items Hvalues Hne Hall] [Hfile _]].
  fold f in Hvalues, Hfile. unfold artworkData. rewrite Hvalues.
  repeat split; try reflexivity. exact Hfile.
Qed.



(** X19: every condition has its input.  However the form was filled in,
    each condition it lists is rendered with the input of exactly one of the
    three types, the type of the condition. *)
Theorem every_condition_has_its_input :
  forall (tz : JsDate.TimeZone) (mounted : Z) (actions : list Action) (index : nat),
    let f := fill tz mounted actions in
    (index < length (conditions f))%nat ->
    exists type,
      In type menu_items /\
      rendered_as type index f = true /\
      forall other, rendered_as other index f = true -> other = type.
Proof.
  intros tz mounted actions index f Hindex.
  destruct (fill_shaped tz mounted actions) as [[t d c items Hvalues Hne Hall] _].
  fold f in Hvalues.
  pose proof (conditions_of_values f _ _ _ _ _ _ Hvalues) as Hconditions.
  rewrite Hconditions in Hindex.
  destruct (nth_error items index) as [item |] eqn:Hnth;
    [| apply nth_error_None in Hnth; lia].
  rewrite Forall_forall in Hall.
  destruct (Hall item (nth_error_In _ _ Hnth)) as [ty [v [Hknown ->]]].
  assert (Hrendered : forall type, rendered_as type index f = String.eqb ty type).
  { intros type. unfold rendered_as. rewrite Hconditions, Hnth. reflexivity. }
  exists ty. split; [exact Hknown |]. split.
  - rewrite Hrendered. apply String.eqb_refl.
  - intros other Hother. rewrite Hrendered in Hother.
    symmetry. now apply String.eqb_eq.
Qed.

Lemma every_condition_has_its_input_witness :
  let f := fill JsDate.utc_zone 1735689601234 landscape_actions in
  rendered_as "interactive" 0 f = true /\
  rendered_as "time" 0 f = false /\
  rendered_as "view_count" 0 f = false.
Proof.
  intros f.
  destruct (every_condition_has_its_input JsDate.utc_zone 1735689601234
              landscape_actions 0 ltac:(cbn; lia)) as [type [_ [Hrendered Honly]]].
  repeat split; reflexivity.
Defined.



(** X21: adding a condition and removing it again.  However the form was
    filled in, Add Another Condition appends the default time condition
    after the conditions listed, and removing that last condition right away
    gives back the values and the page as they were. *)
Theorem add_then_remove_condition :
  forall (tz : JsDate.TimeZone) (mounted : Z) (actions : list Action) (now : Z),
    let f := fill tz mounted actions in
    let added := act tz mounted f (AddAnotherCondition now) in
    conditions added
    = (conditions f ++ [condition_object (initializeCondition tz now "time")])%list /\
    act tz mounted added (RemoveCondition (length (conditions f))) = f.
Proof.
  intros tz mounted actions now f added.
  destruct (fill_shaped tz mounted actions) as [[t d c items Hvalues Hne Hall] _].
  fold f in Hvalues.
  pose proof (conditions_of_values f _ _ _ _ _ _ Hvalues) as Hconditions.
  assert (Hadded :
    values added
    = form_values t d c (artwork (page f)) (placeholder (page f))
        (items ++ [condition_object (initializeCondition tz now "time")])%list).
  { subst added. unfold act. cbn [rendered]. now apply add_values. }
  assert (Hpage : page added = page f) by reflexivity.
  pose proof (conditions_of_values added _ _ _ _ _ _ Hadded) as Hconditions'.
  split; [now rewrite Hconditions', Hconditions |].
  assert (Hlen : (1 < length (items ++ [condition_object
                                         (initializeCondition tz now "time")]))%nat).
  { rewrite length_app. cbn [length]. destruct items; [now contradiction Hne |].
    cbn [length]. lia. }
  assert (Hall' : Forall well_formed
                    (items ++ [condition_object (initializeCondition tz now "time")])).
  { apply Forall_app. split; [exact Hall |].
    apply Forall_cons; [| apply Forall_nil].
    destruct (initializeCondition_item tz now "time" ltac:(now left)) as [v [-> _]].
    exists "time", v. split; [now left | reflexivity]. }
  unfold act. cbn [rendered]. rewrite Hconditions', Hconditions.
  replace ((1 <? length (items ++ [condition_object
                                    (initializeCondition tz now "time")]))%nat)
    with true by (symmetry; now apply Nat.ltb_lt).
  replace ((length items <? length (items ++ [condition_object
                                    (initializeCondition tz now "time")]))%nat)
    with true
    by (symmetry; apply Nat.ltb_lt; rewrite length_app; cbn [length]; lia).
  cbn [andb].
  pose proof (remove_values tz mounted added _ _ _ _ _ _ (length items)
                Hadded Hall' Hlen) as Hremoved.
  rewrite firstn_app, firstn_all, Nat.sub_diag in Hremoved. cbn [firstn] in Hremoved.
  rewrite skipn_all2 in Hremoved by (rewrite length_app; cbn [length]; lia).
  rewrite !app_nil_r in Hremoved.
  destruct f as [fvalues fpage]. cbn [values page] in *.
  cbn [perform] in *. subst fvalues.
  f_equal. exact Hremoved.
Qed.

End UploadForm.

(** ** The edit page as a whole ([pages/EditArtwork.tsx]) *)
Module EditPage.
Import Js Component.

(** The validation schema of the edit form. *)
Definition editArtworkSchema : Yup.schema :=
  Yup.object |> Yup.shape
    [("title",
      Yup.string_
        |> Yup.required "Title is required"
        |> Yup.max 255 "Title must be less than 255 characters");
     ("description",
      Yup.string_
        |> Yup.max 1000 "Description must be less than 1000 characters");
     ("placeholder_image", Yup.mixed)].

(** What [useAuth] provides. *)
Record User : Type := {
  user_id : Z;
  is_artist : bool
}.

Record Auth : Type := {
  user : option User;
  isAuthenticated : bool;
  isLoading : bool
}.

(** The state of the page: the artwork loaded, the [loading] flag and the
    state written by [handleSubmit]. *)
Record Page : Type := {
  artwork : jsval;
  loading : bool;
  form : EditArtwork.State
}.

Definition initialPage : Page :=
  {| artwork := JNull; loading := true;
     form := {| EditArtwork.saving := false; EditArtwork.success := false;
                EditArtwork.error := None |} |}.

Definition setArtwork (a : jsval) (p : Page) : Page :=
  {| artwork := a; loading := loading p; form := form p |}.

Definition setLoading (b : bool) (p : Page) : Page :=
  {| artwork := artwork p; loading := b; form := form p |}.

Definition setError (e : option string) (p : Page) : Page :=
  {| artwork := artwork p; loading := loading p;
     form := {| EditArtwork.saving := EditArtwork.saving (form p);
                EditArtwork.success := EditArtwork.success (form p);
                EditArtwork.error := e |} |}.

Inductive Effect : Type :=
| GetById (artworkId : Z)
| Navigate (to : string).

(** [a === b] for values that come from different sources: primitives are
    compared by value, two objects are never the same object. *)
Definition strict_equal (a b : jsval) : bool :=
  match a, b with
  | JUndefined, JUndefined | JNull, JNull => true
  | JBool x, JBool y => Bool.eqb x y
  | JNum x, JNum y => x =? y
  | JStr x, JStr y => String.eqb x y
  | _, _ => false
  end.

(** [user?.id]. *)
Definition current_user_id (auth : Auth) : jsval :=
  match user auth with
  | Some u => JNum (user_id u)
  | None => JUndefined
  end.

(** [artworkData.user.id]; [None] when reading it throws a TypeError. *)
Definition owner_id (artworkData : jsval) : option jsval :=
  match read_prop artworkData "user" with
  | Some owner => read_prop owner "id"
  | None => None
  end.

Section Engine.

(** The message of the TypeError the engine throws for a property read on
    [null] or [undefined]. *)
Variable typeErrorMessage : string.

Local Open Scope handler_scope.

(** Fetch artwork data. *)
Definition fetchArtwork (auth : Auth) (artworkId : Z) (outcome : settled jsval)
    : M (S := Page) (E := Effect) unit :=
  set (setLoading true) ;;
  emit (GetById artworkId) ;;
  match outcome with
  | Resolved artworkData =>
      (* Check if the logged-in user is the owner of this artwork *)
      if isAuthenticated auth then
        match owner_id artworkData with
        | Some owner =>
            if negb (strict_equal (current_user_id auth) owner) then
              set (setError (Some "You don't have permission to edit this artwork")) ;;
              emit (Navigate "/gallery")
            else
              set (setArtwork artworkData) ;;
              set (setError None)
        | None =>
            set (setError (Some typeErrorMessage)) ;;
            emit (Navigate "/not-found")
        end
      else
        set (setArtwork artworkData) ;;
        set (setError None)
  | Rejected err =>
      set (setError
             (Some (error_message err "Failed to load artwork. Please try again."))) ;;
      emit (Navigate "/not-found")
  end ;;
  set (setLoading false).

(** The effect that fetches the artwork. *)
Definition fetchEffect (auth : Auth) (artworkId : Z) (outcome : settled jsval)
    : M (S := Page) (E := Effect) unit :=
  if isAuthenticated auth && negb (isLoading auth)
  then fetchArtwork auth artworkId outcome
  else ret tt.

Local Close Scope handler_scope.

End Engine.

(** [user?.is_artist], as a condition. *)
Definition user_is_artist (auth : Auth) : bool :=
  match user auth with
  | Some u => is_artist u
  | None => false
  end.

(** Redirect if not authenticated or not an artist. *)
Definition redirectEffect (auth : Auth) : list Effect :=
  if negb (isLoading auth) && (negb (isAuthenticated auth) || negb (user_is_artist auth))
  then [Navigate "/gallery"]
  else [].

(** What the page renders. *)
Inductive View : Type :=
| Spinner
| ErrorView (message : string)
| FormView (artwork : jsval) (successAlert : bool).

Definition error_shown (e : option string) : bool :=
  match e with
  | Some message => negb (String.eqb message "")
  | None => false
  end.

Definition render (auth : Auth) (p : Page) : View :=
  (* Show loading state *)
  if isLoading auth || loading p then Spinner
  (* Show error if artwork not found or permission denied *)
  else if error_shown (EditArtwork.error (form p)) || negb (truthy (artwork p)) then
    ErrorView (match EditArtwork.error (form p) with
               | Some message =>
                   if String.eqb message "" then "Artwork not found" else message
               | None => "Artwork not found"
               end)
  else FormView (artwork p) (EditArtwork.success (form p)).

(** The initial values of the form. *)
Definition initialValues (artwork : jsval) : jsval :=
  JObj [("title", get_prop artwork "title");
        ("description",
         if truthy (get_prop artwork "description")
         then get_prop artwork "description" else JStr "");
        ("placeholder_image", JNull)].

(** Submitting the form: [handleSubmit] runs on values that pass the
    schema. *)
Definition submitForm (artworkId : Z) (values : jsval) (outcome : settled jsval)
    : M (S := EditArtwork.State) (E := EditArtwork.Effect) unit :=
  match Formik.validateYupSchema values editArtworkSchema with
  | [] => EditArtwork.handleSubmit artworkId values outcome
  | _ :: _ => ret tt
  end.


Definition owned_artwork (owner : Z) : jsval :=
  JObj [("id", JNum 7); ("title", JStr "Mystery Landscape");
        ("description", JNull);
        ("user", JObj [("id", JNum owner); ("username", JStr "artist")])].

Example fetch_examples :
  let artist := {| user := Some {| user_id := 3; is_artist := true |};
                   isAuthenticated := true; isLoading := false |} in
  let fetched outcome := fetchEffect "Cannot read properties of undefined"
                           artist 7 outcome initialPage in
  render artist (state_of (fetched (Resolved (owned_artwork 3))))
  = FormView (owned_artwork 3) false /\
  effects_of (fetched (Resolved (owned_artwork 3))) = [GetById 7] /\
  render artist (state_of (fetched (Resolved (owned_artwork 4))))
  = ErrorView "You don't have permission to edit this artwork" /\
  effects_of (fetched (Resolved (owned_artwork 4))) = [GetById 7; Navigate "/gallery"] /\
  render artist (state_of (fetched (Resolved (JObj [("id", JNum 7)]))))
  = ErrorView "Cannot read properties of undefined" /\
  render artist (state_of (fetched (Rejected (NotAnError JNull))))
  = ErrorView "Failed to load artwork. Please try again." /\
  render artist (state_of (fetched (Rejected (ErrorInstance ""))))
  = ErrorView "Artwork not found" /\
  initialValues (owned_artwork 3)
  = JObj [("title", JStr "Mystery Landscape"); ("description", JStr "");
          ("placeholder_image", JNull)].
Proof. repeat split; reflexivity. Qed.

(** *** Validation of the edit form *)










End EditPage.

(** ** Reading a default reveal date back *)
Module RevealDate.
Import Js Types.

Local Open Scope Z_scope.

Lemma civil_from_days_day (z : Z) :
  1 <= snd (JsDate.civil_from_days z) <= 31.
Proof.
  unfold JsDate.civil_from_days. cbv zeta. cbn [fst snd].
  set (doe := (z + 719468) mod 146097).
  assert (Hdoe : 0 <= doe < 146097) by (apply Z.mod_pos_bound; lia).
  pose proof (JsDate.year_of_era_bounds doe Hdoe) as Hy. cbv zeta in Hy.
  set (yoe := (doe - doe / 1460 + doe / 36524 - doe / 146096) / 365) in *.
  set (doy := doe - (365 * yoe + yoe / 4 - yoe / 100)) in *.
  Z.div_mod_to_equations. lia.
Qed.

Lemma digit_value_digit (n : Z) :
  JsDate.digit_value (JsDate.digit n) = Some (n mod 10).
Proof.
  unfold JsDate.digit_value, JsDate.digit.
  assert (Hmod : 0 <= n mod 10 < 10) by (apply Z.mod_pos_bound; lia).
  rewrite N_ascii_embedding by lia.
  replace ((48 <=? 48 + Z.to_N (n mod 10)) && (48 + Z.to_N (n mod 10) <=? 57))%N
    with true.
  - f_equal. lia.
  - symmetry. apply andb_true_iff. split; apply N.leb_le; lia.
Qed.

Lemma two_digits (n : Z) :
  0 <= n <= 99 -> 10 * (10 * 0 + (n / 10) mod 10) + n mod 10 = n.
Proof. intros H. Z.div_mod_to_equations. lia. Qed.

Lemma four_digits (n : Z) :
  0 <= n <= 9999 ->
  10 * (10 * (10 * (10 * 0 + (n / 10 / 10 / 10) mod 10) + (n / 10 / 10) mod 10)
        + (n / 10) mod 10) + n mod 10 = n.
Proof. intros H. Z.div_mod_to_equations. lia. Qed.

Lemma minute_of_time (t : Z) :
  JsDate.MakeDate (JsDate.Day t)
    (JsDate.HourFromTime t * 3600000 + JsDate.MinFromTime t * 60000)
  = t - t mod 60000.
Proof.
  unfold JsDate.MakeDate, JsDate.Day, JsDate.HourFromTime, JsDate.MinFromTime,
    JsDate.msPerDay.
  replace (t / 3600000) with (t / 60000 / 60) by (rewrite Z.div_div by lia; reflexivity).
  replace (t / 86400000) with (t / 60000 / 60 / 24)
    by (rewrite !Z.div_div by lia; reflexivity).
  Z.div_mod_to_equations. lia.
Qed.

(** [new Date(s)] on the text [toISOString().slice(0, 16)] of a time
    value: the text has no zone, so its minute is read as a local time. *)
Lemma parse_iso_minute (tz : JsDate.TimeZone) (t : Z) :
  0 <= JsDate.YearFromTime t <= 9999 ->
  JsDate.parse tz (Upload.iso_minute t) = Some (JsDate.UTC tz (t - t mod 60000)).
Proof.
  intros Hyear.
  unfold Upload.iso_minute, JsDate.toISOString, JsDate.year_string.
  replace ((0 <=? JsDate.YearFromTime t) && (JsDate.YearFromTime t <=? 9999)) with true
    by (symmetry; apply andb_true_iff; split; apply Z.leb_le; lia).
  assert (Hm : 0 <= JsDate.MonthFromTime t + 1 <= 99).
  { unfold JsDate.MonthFromTime.
    pose proof (JsDate.civil_from_days_month (JsDate.Day t)). lia. }
  assert (Hd : 0 <= JsDate.DateFromTime t <= 99).
  { unfold JsDate.DateFromTime.
    pose proof (civil_from_days_day (JsDate.Day t)). lia. }
  assert (Hh : 0 <= JsDate.HourFromTime t <= 99).
  { unfold JsDate.HourFromTime.
    pose proof (Z.mod_pos_bound (t / 3600000) 24 ltac:(lia)). lia. }
  assert (Hmi : 0 <= JsDate.MinFromTime t <= 99).
  { unfold JsDate.MinFromTime.
    pose proof (Z.mod_pos_bound (t / 60000) 60 ltac:(lia)). lia. }
  assert (Hcivil :
    JsDate.days_from_civil (JsDate.YearFromTime t) (JsDate.MonthFromTime t + 1)
      (JsDate.DateFromTime t) = JsDate.Day t).
  { unfold JsDate.YearFromTime, JsDate.MonthFromTime, JsDate.DateFromTime.
    pose proof (JsDate.days_from_civil_from_days (JsDate.Day t)) as Hrt.
    destruct (JsDate.civil_from_days (JsDate.Day t)) as [[y m] d]. cbn [fst snd].
    now replace (m - 1 + 1) with m by lia. }
  set (y := JsDate.YearFromTime t) in *.
  set (m := JsDate.MonthFromTime t + 1) in *.
  set (d := JsDate.DateFromTime t) in *.
  set (h := JsDate.HourFromTime t) in *.
  set (mi := JsDate.MinFromTime t) in *.
  cbn [JsDate.padded String.append JsDate.slice0 substring].
  unfold JsDate.parse, JsDate.field.
  cbn [substring String.length Nat.eqb JsDate.digits_value].
  rewrite !digit_value_digit.
  cbn [String.eqb Ascii.eqb Bool.eqb andb].
  rewrite (four_digits y Hyear), (two_digits m Hm), (two_digits d Hd),
    (two_digits h Hh), (two_digits mi Hmi).
  rewrite Hcivil. subst h mi. now rewrite minute_of_time.
Qed.

(** X17: the default reveal date is a UTC reading taken as local time.  In
    a browser whose zone is at a fixed offset from UTC, the default reveal
    date that [initializeCondition] writes for a time condition, read back
    with [new Date] as the pages do, is the minute of the instant seven days
    ahead moved back by the offset of the zone: it is that minute in UTC
    only. *)
Theorem default_reveal_date_read_back :
  forall (offset now : Z),
    0 <= JsDate.YearFromTime (now + 7 * JsDate.msPerDay) <= 9999 ->
    let tz := JsDate.fixed_zone offset in
    let week_ahead := now + 7 * JsDate.msPerDay in
    JsDate.new_Date tz
      (reveal_at (condition_value (Upload.initializeCondition tz now "time")))
    = Some (week_ahead - week_ahead mod 60000 - offset).
Proof.
  intros offset now Hyear tz week_ahead.
  unfold Upload.initializeCondition.
  cbn [String.eqb Ascii.eqb Bool.eqb condition_value reveal_at JsDate.new_Date].
  rewrite (JsDate.setDate_getDate_plus tz now 7) by reflexivity.
  fold week_ahead. rewrite (parse_iso_minute tz week_ahead Hyear).
  reflexivity.
Qed.

Lemma default_reveal_date_read_back_witness :
  JsDate.toISOString 1735689601234 = "2025-01-01T00:00:01.234Z" /\
  reveal_at (condition_value
               (Upload.initializeCondition (JsDate.fixed_zone 3600000)
                  1735689601234 "time"))
  = Some "2025-01-08T00:00" /\
  option_map JsDate.toISOString
    (JsDate.new_Date (JsDate.fixed_zone 3600000)
       (reveal_at (condition_value
                     (Upload.initializeCondition (JsDate.fixed_zone 3600000)
                        1735689601234 "time"))))
  = Some "2025-01-07T23:00:00.000Z".
Proof.
  split; [reflexivity |]. split; [reflexivity |].
  rewrite (default_reveal_date_read_back 3600000 1735689601234).
  - reflexivity.
  - split; vm_compute; discriminate.
Defined.

End RevealDate.

(** ** The dashboard over a session *)
Module DashboardSession.
Import Js Component Types JsNumber Dashboard.

(** What happens on the page: the fetch effect runs and its request
    settles, or the artist clicks Delete on a card, answers the confirmation
    and the request settles. *)
Inductive Event : Type :=
| Fetched (isArtist : bool) (outcome : settled (list Artwork))
| DeleteClicked (artworkId : Z) (confirmed : bool) (outcome : settled unit).

Definition handle (ev : Event) (s : State) : State :=
  match ev with
  | Fetched isArtist outcome => state_of (fetchData isArtist outcome s)
  | DeleteClicked artworkId confirmed outcome =>
      state_of (handleDeleteArtwork artworkId confirmed outcome s)
  end.

Definition session (events : list Event) : State :=
  fold_left (fun s ev => handle ev s) events initialState.

(** The server lists every artwork once. *)
Definition unique_ids (ev : Event) : Prop :=
  match ev with
  | Fetched _ (Resolved l) => NoDup (map id l)
  | _ => True
  end.

(** The cards are those of distinct artworks and the stats are their
    aggregates. *)
Definition consistent (s : State) : Prop :=
  NoDup (map id (artworks s)) /\ stats s = calculateStats (artworks s).

Local Open Scope handler_scope.

(** The part of [handleDeleteArtwork] that runs once the request has
    settled.  It runs in the closure of the render the handler was created
    in: [artworks] is the list of that render, while the updater passed to
    [setStats] receives the stats of the moment. *)
Definition deleteSettled (artworks : list Artwork) (artworkId : Z)
    (outcome : settled unit) : M (S := State) (E := Effect) unit :=
  match outcome with
  | Resolved _ =>
      set (setArtworks
             (filter (fun artwork => negb (id artwork =? artworkId)) artworks)) ;;
      match find (fun artwork => id artwork =? artworkId) artworks with
      | Some deletedArtwork =>
          set (setStats (fun prevStats =>
            {| totalArtworks := totalArtworks prevStats - 1;
               totalViews := totalViews prevStats - view_count deletedArtwork;
               totalReveals :=
                 if is_revealed deletedArtwork
                 then totalReveals prevStats - 1 else totalReveals prevStats;
               totalComments :=
                 totalComments prevStats
                 - Z.of_nat (length (comments deletedArtwork)) |}))
      | None => ret tt
      end
  | Rejected err =>
      set (setError
             (Some (error_message err
                      "Failed to delete artwork. Please try again.")))
  end.

Local Close Scope handler_scope.

(** When nothing happens between the click and the settling of the
    request, the handler is the request followed by [deleteSettled] on the
    list shown. *)
Lemma handleDeleteArtwork_settled (artworkId : Z) (outcome : settled unit)
    (s : State) :
  handleDeleteArtwork artworkId true outcome s
  = (tt, state_of (deleteSettled (artworks s) artworkId outcome s),
     [Call (Api.DeleteArtwork artworkId)]).
Proof.
  unfold handleDeleteArtwork, deleteSettled, bind, get, emit, set, ret, state_of.
  cbn [fst snd].
  destruct outcome as [[] | err]; [| reflexivity].
  destruct (find (fun artwork => id artwork =? artworkId) (artworks s));
    reflexivity.
Qed.

(** A settled delete of a listed artwork, in the closure of the list
    [before ++ deleted :: after]. *)
Lemma deleteSettled_listed (l : list Artwork) (artworkId : Z) (s : State) :
  NoDup (map id l) ->
  In artworkId (map id l) ->
  exists deleted before after,
    l = (before ++ deleted :: after)%list /\
    id deleted = artworkId /\
    state_of (deleteSettled l artworkId (Resolved tt) s)
    = {| artworks := (before ++ after)%list;
         loading := loading s;
         error := error s;
         stats :=
           {| totalArtworks := totalArtworks (stats s) - 1;
              totalViews := totalViews (stats s) - view_count deleted;
              totalReveals :=
                if is_revealed deleted
                then totalReveals (stats s) - 1 else totalReveals (stats s);
              totalComments :=
                totalComments (stats s) - Z.of_nat (length (comments deleted)) |} |}.
Proof.
  intros Hnodup Hin.
  destruct (unique_id_split artworkId l Hnodup Hin)
    as [deleted [before [after [Hl [Hid [Hfind Hfilter]]]]]].
  exists deleted, before, after. split; [exact Hl |]. split; [exact Hid |].
  unfold deleteSettled, bind, set, state_of. cbn [fst snd].
  rewrite Hfind, Hfilter. reflexivity.
Qed.

Lemma deleteSettled_unlisted (l : list Artwork) (artworkId : Z) (s : State) :
  ~ In artworkId (map id l) ->
  state_of (deleteSettled l artworkId (Resolved tt) s) = setArtworks l s.
Proof.
  intros Hnotin. destruct (filter_other_ids artworkId l Hnotin) as [Hfilter Hfind].
  unfold deleteSettled, bind, set, ret, state_of. cbn [fst snd].
  rewrite Hfind, Hfilter. reflexivity.
Qed.

Lemma handle_consistent (ev : Event) (s : State) :
  unique_ids ev -> consistent s -> consistent (handle ev s).
Proof.
  intros Hev [Hnodup Hstats].
  destruct ev as [isArtist outcome | artworkId confirmed outcome]; cbn [handle].
  - destruct isArtist; [| split; assumption].
    destruct outcome as [l | err].
    + split; [exact Hev | reflexivity].
    + split; assumption.
  - destruct confirmed; [| split; assumption].
    rewrite handleDeleteArtwork_settled. unfold state_of at 1. cbn [fst snd].
    destruct outcome as [[] | err]; [| split; assumption].
    destruct (in_dec Z.eq_dec artworkId (map id (artworks s))) as [Hin | Hnotin].
    + destruct (deleteSettled_listed (artworks s) artworkId s Hnodup Hin)
        as [deleted [before [after [Hl [Hid Hstate]]]]].
      rewrite Hstate. unfold consistent. cbn [artworks stats]. split.
      * rewrite Hl, map_app in Hnodup. cbn [map] in Hnodup.
        rewrite map_app. now apply NoDup_remove_1 in Hnodup.
      * rewrite Hstats, Hl. symmetry. apply calculateStats_remove.
    + rewrite (deleteSettled_unlisted _ _ _ Hnotin).
      destruct s; split; assumption.
Qed.

Lemma calculateStats_bounds (l : list Artwork) :
  totalArtworks (calculateStats l) = Z.of_nat (length l) /\
  0 <= totalReveals (calculateStats l) <= totalArtworks (calculateStats l).
Proof.
  unfold calculateStats. cbn [totalArtworks totalReveals].
  pose proof (filter_length_le (fun a => is_revealed a) l). lia.
Qed.

(** *** Comparisons of doubles *)

Lemma SFcompare_antisym (a b : SpecFloat.spec_float) :
  SpecFloat.SFcompare b a = option_map CompOpp (SpecFloat.SFcompare a b).
Proof.
  destruct a as [sa | sa | | sa ma ea], b as [sb | sb | | sb mb eb];
    cbn [SpecFloat.SFcompare option_map]; try reflexivity;
    try (destruct sa; reflexivity); try (destruct sb; reflexivity);
    try (destruct sa, sb; reflexivity).
  f_equal. rewrite (Z.compare_antisym ea eb).
  change (Pos.compare_cont Eq mb ma) with (Pos.compare mb ma).
  change (Pos.compare_cont Eq ma mb) with (Pos.compare ma mb).
  rewrite (Pos.compare_antisym ma mb).
  destruct sa, sb; try reflexivity;
    destruct (ea ?= eb)%Z; cbn [CompOpp]; try reflexivity;
    destruct (ma ?= mb)%positive; reflexivity.
Qed.

Lemma ltb_irrefl (x : number) : PrimFloat.ltb x x = false.
Proof.
  rewrite FloatAxioms.ltb_spec. unfold SpecFloat.SFltb.
  pose proof (SFcompare_antisym (FloatOps.Prim2SF x) (FloatOps.Prim2SF x)) as Hanti.
  destruct (SpecFloat.SFcompare (FloatOps.Prim2SF x) (FloatOps.Prim2SF x)) as [[| |] |];
    try reflexivity; discriminate Hanti.
Qed.

Lemma ltb_asym (x y : number) :
  PrimFloat.ltb x y = true -> PrimFloat.ltb y x = false.
Proof.
  rewrite !FloatAxioms.ltb_spec. unfold SpecFloat.SFltb.
  rewrite (SFcompare_antisym (FloatOps.Prim2SF x) (FloatOps.Prim2SF y)).
  destruct (SpecFloat.SFcompare (FloatOps.Prim2SF x) (FloatOps.Prim2SF y)) as [[| |] |];
    cbn; intros H; try reflexivity; discriminate H.
Qed.

(** Nothing is below NaN. *)
Lemma ltb_nan_r (x y : number) :
  PrimFloat.is_nan x = true -> PrimFloat.ltb y x = false.
Proof.
  unfold PrimFloat.is_nan. intros Hnan. apply negb_true_iff in Hnan.
  rewrite FloatAxioms.eqb_spec in Hnan. rewrite FloatAxioms.ltb_spec.
  unfold SpecFloat.SFeqb in Hnan. unfold SpecFloat.SFltb.
  destruct (FloatOps.Prim2SF x) as [sx | sx | | sx mx ex].
  - discriminate Hnan.
  - destruct sx; discriminate Hnan.
  - destruct (FloatOps.Prim2SF y); reflexivity.
  - cbn in Hnan. rewrite Z.compare_refl in Hnan.
    change (Pos.compare_cont Eq mx mx) with (Pos.compare mx mx) in Hnan.
    rewrite Pos.compare_refl in Hnan. destruct sx; discriminate Hnan.
Qed.

(** [Math.min] is above neither argument. *)
Lemma Math_min_not_above (x y : number) :
  PrimFloat.ltb x (Math_min x y) = false /\
  PrimFloat.ltb y (Math_min x y) = false.
Proof.
  unfold Math_min.
  destruct (PrimFloat.is_nan x) eqn:Hx.
  { split; [apply ltb_irrefl | now apply ltb_nan_r]. }
  destruct (PrimFloat.is_nan y) eqn:Hy.
  { split; [now apply ltb_nan_r | apply ltb_irrefl]. }
  destruct (PrimFloat.ltb x y) eqn:Hxy.
  { split; [apply ltb_irrefl | now apply ltb_asym]. }
  destruct (PrimFloat.ltb y x) eqn:Hyx.
  { split; [exact Hxy | apply ltb_irrefl]. }
  destruct (PrimFloat.is_zero x && PrimFloat.get_sign y).
  - split; [exact Hxy | apply ltb_irrefl].
  - split; [apply ltb_irrefl | exact Hyx].
Qed.

(** X4: the stats cards follow the list of artworks.  Over any sequence of
    loads and deletions (confirmed or declined, successful or failed, of a
    listed artwork or not), each started after the previous one has settled,
    and as long as the server lists every artwork once, the artworks shown
    have distinct ids and the four stats are the aggregates of the list
    shown; so the number of artworks is the number of cards and the number
    of revealed ones lies between zero and it. *)
Theorem stats_follow_artworks :
  forall events : list Event,
    Forall unique_ids events ->
    NoDup (map id (artworks (session events))) /\
    stats (session events) = calculateStats (artworks (session events)) /\
    totalArtworks (stats (session events))
    = Z.of_nat (length (artworks (session events))) /\
    0 <= totalReveals (stats (session events))
      <= totalArtworks (stats (session events)).
Proof.
  intros events Hevents.
  assert (Hconsistent : consistent (session events)).
  { unfold session.
    assert (Hinit : consistent initialState).
    { split; [constructor | reflexivity]. }
    revert Hinit. generalize initialState.
    induction Hevents as [| ev rest Hev Hrest IH]; intros s Hs; cbn [fold_left].
    - exact Hs.
    - apply IH. now apply handle_consistent. }
  destruct Hconsistent as [Hnodup Hstats].
  split; [exact Hnodup |]. split; [exact Hstats |].
  rewrite Hstats. apply calculateStats_bounds.
Qed.

Lemma stats_follow_artworks_witness :
  let events :=
    [Fetched true (Resolved three_artworks);
     DeleteClicked 2 true (Resolved tt);
     DeleteClicked 9 true (Resolved tt);
     DeleteClicked 1 false (Resolved tt);
     DeleteClicked 3 true (Rejected (ErrorInstance "Network Error"));
     Fetched true (Rejected (NotAnError JNull))] in
  map id (artworks (session events)) = [1; 3] /\
  stats (session events) = calculateStats (artworks (session events)) /\
  stats (session events)
  = {| totalArtworks := 2; totalViews := 49; totalReveals := 1;
       totalComments := 1 |}.
Proof.
  intros events.
  assert (Hevents : Forall unique_ids events).
  { repeat (apply Forall_cons; [| ]); try apply Forall_nil; cbn; try exact I.
    repeat (apply NoDup_cons; [cbn; intuition discriminate |]). apply NoDup_nil. }
  pose proof (stats_follow_artworks events Hevents) as [_ [Hstats _]].
  split; [reflexivity |]. split; [exact Hstats | reflexivity].
Defined.

(** X5: two deletions in flight.  When the artist confirms the deletion of
    two different listed artworks before either request has settled, both
    handlers filter the list of the render they were created in: once both
    have settled the first artwork is listed again although it was deleted,
    and the total shown is one less than the number of cards. *)
Theorem overlapping_deletes_restore_artwork :
  forall (s : State) (first second : Z),
    NoDup (map id (artworks s)) ->
    stats s = calculateStats (artworks s) ->
    In first (map id (artworks s)) ->
    In second (map id (artworks s)) ->
    first <> second ->
    let s1 := state_of (deleteSettled (artworks s) first (Resolved tt) s) in
    let s2 := state_of (deleteSettled (artworks s) second (Resolved tt) s1) in
    ~ In first (map id (artworks s1)) /\
    In first (map id (artworks s2)) /\
    ~ In second (map id (artworks s2)) /\
    totalArtworks (stats s2) = Z.of_nat (length (artworks s2)) - 1.
Proof.
  intros s first second Hnodup Hstats Hfirst Hsecond Hdiff s1 s2.
  assert (Hlist : forall x t,
             artworks (state_of (deleteSettled (artworks s) x (Resolved tt) t))
             = filter (fun artwork => negb (id artwork =? x)) (artworks s)).
  { intros x t. unfold deleteSettled, bind, set, ret, state_of. cbn [fst snd].
    destruct (find (fun artwork => id artwork =? x) (artworks s)); reflexivity. }
  assert (Hkept : forall x y,
             In y (map id (filter (fun artwork => negb (id artwork =? x)) (artworks s)))
             <-> In y (map id (artworks s)) /\ y <> x).
  { intros x y. rewrite !in_map_iff. split.
    - intros [a [Hid Ha]]. apply filter_In in Ha. destruct Ha as [Ha Hne].
      apply negb_true_iff, Z.eqb_neq in Hne. split; [now exists a | congruence].
    - intros [[a [Hid Ha]] Hne]. exists a. split; [exact Hid |].
      apply filter_In. split; [exact Ha |].
      apply negb_true_iff, Z.eqb_neq. congruence. }
  split; [| split; [| split]].
  - subst s1. rewrite Hlist, Hkept. tauto.
  - subst s2. rewrite Hlist, Hkept. tauto.
  - subst s2. rewrite Hlist, Hkept. tauto.
  - destruct (deleteSettled_listed (artworks s) first s Hnodup Hfirst)
      as [d1 [b1 [a1 [Hl1 [_ Hs1]]]]].
    destruct (deleteSettled_listed (artworks s) second s1 Hnodup Hsecond)
      as [d2 [b2 [a2 [Hl2 [_ Hs2]]]]].
    subst s2. rewrite Hs2. cbn [artworks stats totalArtworks].
    subst s1. rewrite Hs1. cbn [stats totalArtworks].
    rewrite Hstats. cbn [calculateStats totalArtworks].
    rewrite Hl2 at 1. rewrite !length_app. cbn [length]. lia.
Qed.

Lemma overlapping_deletes_restore_artwork_witness :
  let s1 := state_of (deleteSettled (artworks loaded) 1 (Resolved tt) loaded) in
  let s2 := state_of (deleteSettled (artworks loaded) 2 (Resolved tt) s1) in
  map id (artworks s1) = [2; 3] /\
  map id (artworks s2) = [1; 3] /\
  totalArtworks (stats s2) = 1 /\
  totalArtworks (stats s2) = Z.of_nat (length (artworks s2)) - 1.
Proof.
  intros s1 s2.
  assert (Hnodup : NoDup (map id (artworks loaded))).
  { repeat (apply NoDup_cons; [cbn; intuition discriminate |]). apply NoDup_nil. }
  assert (Hfirst : In 1 (map id (artworks loaded))) by (cbn; auto).
  assert (Hsecond : In 2 (map id (artworks loaded))) by (cbn; auto).
  assert (Hdiff : 1 <> 2) by discriminate.
  pose proof (overlapping_deletes_restore_artwork loaded 1 2 Hnodup eq_refl
                Hfirst Hsecond Hdiff) as [_ [_ [_ Htotal]]].
  split; [reflexivity |]. split; [reflexivity |]. split; [reflexivity |].
  exact Htotal.
Defined.

(** X6: progress never shows more than 100.  Whatever the artwork, its
    first condition and the clock, the completion percentage of the
    Analytics tab is not greater than 100, and neither is the value of the
    progress bar under a view-count or comment-count chip (either can be
    NaN, when a threshold is missing or the quotient is 0/0). *)
Theorem progress_at_most_hundred :
  forall (new_Date : option string -> option Z)
         (toLocaleDateString : option Z -> string) (now : Z) (artwork : Artwork),
    PrimFloat.ltb hundred (completionPercentage new_Date now artwork) = false /\
    forall (label : string) (icon : Icon) (value : number),
      formatRevealCondition new_Date toLocaleDateString artwork
      = ChipWithProgress label icon value ->
      PrimFloat.ltb hundred value = false.
Proof.
  intros new_Date toLocaleDateString now artwork. split.
  - unfold completionPercentage.
    destruct (is_revealed artwork); cbn [negb]; [reflexivity |].
    destruct (nth_error (reveal_conditions artwork) 0) as [condition |];
      [| reflexivity].
    destruct (String.eqb (condition_type condition) "time");
      [apply Math_min_not_above |].
    destruct (String.eqb (condition_type condition) "view_count");
      [apply Math_min_not_above |].
    destruct (String.eqb (condition_type condition) "interactive");
      [apply Math_min_not_above | reflexivity].
  - intros label icon value. unfold formatRevealCondition.
    destruct (is_revealed artwork); [discriminate |].
    destruct (nth_error (reveal_conditions artwork) 0) as [condition |];
      [| discriminate].
    destruct (String.eqb (condition_type condition) "time"); [discriminate |].
    destruct (String.eqb (condition_type condition) "view_count").
    { intros Hnode. injection Hnode as _ _ Hvalue. subst value.
      apply Math_min_not_above. }
    destruct (String.eqb (condition_type condition) "interactive");
      [| discriminate].
    intros Hnode. injection Hnode as _ _ Hvalue. subst value.
    apply Math_min_not_above.
Qed.

End DashboardSession.

(** ** The comment form over several submissions *)
Module CommentFlow.
Import Js Component CommentSection.

(** *** What [trim] keeps *)

Definition all_white_space (s : text) : bool := forallb is_white_space s.

(** The text does not start with a code unit that [trim] strips. *)
Definition starts_clean (s : text) : bool :=
  match s with
  | [] => true
  | c :: _ => negb (is_white_space c)
  end.

Definition ends_clean (s : text) : bool := starts_clean (rev s).

Lemma trimStart_split (s : text) :
  exists pre, s = (pre ++ trimStart s)%list /\ all_white_space pre = true.
Proof.
  induction s as [| c rest IH]; cbn [trimStart].
  - exists []. split; reflexivity.
  - destruct (is_white_space c) eqn:Hc.
    + destruct IH as [pre [Hs Hpre]]. exists (c :: pre). split.
      * cbn [app]. now rewrite <- Hs.
      * unfold all_white_space in *. cbn [forallb]. now rewrite Hc, Hpre.
    + exists []. split; reflexivity.
Qed.

Lemma trimStart_starts_clean (s : text) : starts_clean (trimStart s) = true.
Proof.
  induction s as [| c rest IH]; cbn [trimStart]; [reflexivity |].
  destruct (is_white_space c) eqn:Hc; [exact IH |].
  cbn. now rewrite Hc.
Qed.

Lemma trimStart_clean (s : text) : starts_clean s = true -> trimStart s = s.
Proof.
  destruct s as [| c rest]; [reflexivity |].
  cbn. intros Hc. apply negb_true_iff in Hc. now rewrite Hc.
Qed.

Lemma all_white_space_rev (s : text) :
  all_white_space (rev s) = all_white_space s.
Proof.
  unfold all_white_space. induction s as [| c rest IH]; [reflexivity |].
  cbn [rev forallb]. rewrite forallb_app, IH. cbn.
  rewrite andb_true_r. apply andb_comm.
Qed.

Lemma trimEnd_split (s : text) :
  exists post, s = (trimEnd s ++ post)%list /\ all_white_space post = true.
Proof.
  unfold trimEnd. destruct (trimStart_split (rev s)) as [pre [Hs Hpre]].
  exists (rev pre). split.
  - rewrite <- rev_app_distr, <- Hs. symmetry. apply rev_involutive.
  - now rewrite all_white_space_rev.
Qed.

Lemma trimEnd_ends_clean (s : text) : ends_clean (trimEnd s) = true.
Proof.
  unfold ends_clean, trimEnd. rewrite rev_involutive.
  apply trimStart_starts_clean.
Qed.

(** Stripping the end keeps a clean start. *)
Lemma trimEnd_starts_clean (s : text) :
  starts_clean s = true -> starts_clean (trimEnd s) = true.
Proof.
  intros Hs. destruct (trimEnd_split s) as [post [Hsplit _]].
  destruct (trimEnd s) as [| c rest]; [reflexivity |].
  rewrite Hsplit in Hs. exact Hs.
Qed.

Lemma trimEnd_clean (s : text) : ends_clean s = true -> trimEnd s = s.
Proof.
  unfold ends_clean, trimEnd. intros Hs.
  rewrite (trimStart_clean _ Hs). apply rev_involutive.
Qed.

Lemma trim_split (s : text) :
  exists pre post,
    s = (pre ++ trim s ++ post)%list /\
    all_white_space pre = true /\ all_white_space post = true.
Proof.
  unfold trim.
  destruct (trimStart_split s) as [pre [Hs Hpre]].
  destruct (trimEnd_split (trimStart s)) as [post [Ht Hpost]].
  exists pre, post. split; [| split; assumption].
  rewrite <- Ht. exact Hs.
Qed.

Lemma trim_clean (s : text) :
  starts_clean (trim s) = true /\ ends_clean (trim s) = true.
Proof.
  unfold trim. split.
  - apply trimEnd_starts_clean, trimStart_starts_clean.
  - apply trimEnd_ends_clean.
Qed.

Lemma trim_idempotent (s : text) : trim (trim s) = trim s.
Proof.
  destruct (trim_clean s) as [Hstart Hend].
  unfold trim at 1. rewrite (trimStart_clean _ Hstart).
  now apply trimEnd_clean.
Qed.

(** A text made of white space only trims to nothing, and conversely. *)
Lemma trim_empty_iff (s : text) :
  trim s = [] <-> all_white_space s = true.
Proof.
  split.
  - intros Hnil. destruct (trim_split s) as [pre [post [Hs [Hpre Hpost]]]].
    rewrite Hnil in Hs. rewrite Hs. unfold all_white_space in *.
    cbn [app]. rewrite forallb_app. now rewrite Hpre, Hpost.
  - intros Hall. unfold trim.
    assert (Hstart : trimStart s = []).
    { induction s as [| c rest IH]; [reflexivity |].
      cbn in Hall. apply andb_true_iff in Hall. destruct Hall as [Hc Hrest].
      cbn [trimStart]. rewrite Hc. now apply IH. }
    rewrite Hstart. reflexivity.
Qed.

(** The content of the comments sent. *)
Definition contents_sent (effects : list Effect) : list text :=
  flat_map (fun r => match r with
                     | Api.AddComment _ comment => [Api.content comment]
                     | _ => []
                     end)
           (requests_of effects).


Lemma handleSubmit_blank (props : Props) (outcome : settled Types.Comment)
    (s : State) :
  trim (commentText s) = [] ->
  handleSubmit props outcome s = (tt, s, [PreventDefault]).
Proof.
  intros Hblank. unfold handleSubmit, bind, emit, get, ret.
  cbn [fst snd]. rewrite Hblank. reflexivity.
Qed.

Lemma handleSubmit_resolved (props : Props) (newComment : Types.Comment)
    (s : State) :
  trim (commentText s) <> [] ->
  handleSubmit props (Resolved newComment) s
  = (tt,
     {| commentText := []; isSubmitting := false; error := None;
        commentAdded := true |},
     [PreventDefault;
      Call (Api.AddComment (artworkId props)
              {| Api.artwork_id := artworkId props;
                 Api.content := trim (commentText s) |})]
     ++ (if onCommentAdded props then [OnCommentAdded newComment] else []))%list.
Proof.
  intros Htext. unfold handleSubmit, bind, emit, get, ret, set.
  cbn [fst snd].
  destruct (trim (commentText s)) as [| c rest]; [now contradiction Htext |].
  destruct (onCommentAdded props); reflexivity.
Qed.

Lemma handleSubmit_rejected (props : Props) (err : thrown) (s : State) :
  trim (commentText s) <> [] ->
  handleSubmit props (Rejected err) s
  = (tt,
     {| commentText := commentText s; isSubmitting := false;
        error := Some (error_message err "Failed to add comment. Please try again.");
        commentAdded := false |},
     [PreventDefault;
      Call (Api.AddComment (artworkId props)
              {| Api.artwork_id := artworkId props;
                 Api.content := trim (commentText s) |})]).
Proof.
  intros Htext. unfold handleSubmit, bind, emit, get, ret, set.
  cbn [fst snd].
  destruct (trim (commentText s)) as [| c rest]; [now contradiction Htext |].
  reflexivity.
Qed.

(** *** A session with the form *)

(** What the user does: type in the text field ([onChange]) or submit the
    form, the request then settling with the given outcome. *)
Inductive Event : Type :=
| Typed (t : text)
| Submitted (outcome : settled Types.Comment).

(** The state at the first render. *)
Definition initialState : State :=
  {| commentText := []; isSubmitting := false; error := None;
     commentAdded := false |}.

Definition handle (props : Props) (ev : Event) (s : State) : State :=
  match ev with
  | Typed t => setCommentText t s
  | Submitted outcome => state_of (handleSubmit props outcome s)
  end.

Definition session (props : Props) (events : list Event) : State :=
  fold_left (fun s ev => handle props ev s) events initialState.



(** X1: the comment text that is sent.  Whatever the user typed, the content
    of a comment request is never empty, neither starts nor ends with a
    white-space code unit, is left unchanged by a further [trim], and is the
    typed text with only white space removed before and after it. *)
Theorem sent_comment_is_trimmed_text :
  forall (props : Props) (outcome : settled Types.Comment) (s : State) (c : text),
    In c (contents_sent (effects_of (handleSubmit props outcome s))) ->
    c <> [] /\
    starts_clean c = true /\ ends_clean c = true /\
    trim c = c /\
    exists pre post,
      commentText s = (pre ++ c ++ post)%list /\
      all_white_space pre = true /\ all_white_space post = true.
Proof.
  intros props outcome s c Hin.
  assert (Hc : c = trim (commentText s) /\ trim (commentText s) <> []).
  { destruct (trim (commentText s)) as [| u rest] eqn:Htrim.
    - rewrite (handleSubmit_blank props outcome s Htrim) in Hin.
      contradiction Hin.
    - assert (Hne : trim (commentText s) <> []) by (rewrite Htrim; discriminate).
      rewrite <- Htrim.
      destruct outcome as [newComment | err].
      + rewrite (handleSubmit_resolved props newComment s Hne) in Hin.
        destruct (onCommentAdded props);
          cbn in Hin; destruct Hin as [Hin | []]; now split.
      + rewrite (handleSubmit_rejected props err s Hne) in Hin.
        cbn in Hin. destruct Hin as [Hin | []]. now split. }
  destruct Hc as [Hc Hne]. subst c.
  split; [exact Hne |].
  split; [apply trim_clean |].
  split; [apply trim_clean |].
  split; [apply trim_idempotent |].
  apply trim_split.
Qed.

Lemma sent_comment_is_trimmed_text_witness :
  let props := {| artworkId := 7; comments := []; onCommentAdded := false |} in
  let s := {| commentText := text_of_string "  two words " ; isSubmitting := false;
              error := None; commentAdded := false |} in
  let c := text_of_string "two words" in
  c <> [] /\
  starts_clean c = true /\ ends_clean c = true /\
  trim c = c /\
  exists pre post,
    commentText s = (pre ++ c ++ post)%list /\
    all_white_space pre = true /\ all_white_space post = true.
Proof.
  intros props s c.
  apply (sent_comment_is_trimmed_text props (Rejected (NotAnError JNull)) s c).
  cbn. left. reflexivity.
Defined.




End CommentFlow.

(** ** The page behind the WebSocket client
      ([scripts/websocket_client_example.js]) *)
Module SocketPage.
Import Js WebsocketClient.

(** The text of an element: a value assigned to [textContent], or the
    template [By ${artist}]. *)
Inductive TextContent : Type :=
| Plain (v : jsval)
| By (artist : jsval).

(** The elements the handlers write: whether [artwork-container] has the
    class [hidden], and the text of [artwork-title], [artwork-artist] and
    [artwork-status] once written. *)
Record Dom : Type := {
  container_hidden : bool;
  artwork_title : option TextContent;
  artwork_artist : option TextContent;
  artwork_status : option TextContent
}.

(** Calls to the functions of the page. *)
Inductive Call : Type :=
| ShowRevealCelebration
| LoadArtworkContent (id : jsval).

(** A handler runs to its end or throws; what it did before is done. *)
Record Outcome : Type := {
  dom : Dom;
  calls : list Call;
  threw : bool
}.

Definition setHidden (b : bool) (d : Dom) : Dom :=
  {| container_hidden := b; artwork_title := artwork_title d;
     artwork_artist := artwork_artist d; artwork_status := artwork_status d |}.

Definition setTitle (t : TextContent) (d : Dom) : Dom :=
  {| container_hidden := container_hidden d; artwork_title := Some t;
     artwork_artist := artwork_artist d; artwork_status := artwork_status d |}.

Definition setArtist (t : TextContent) (d : Dom) : Dom :=
  {| container_hidden := container_hidden d; artwork_title := artwork_title d;
     artwork_artist := Some t; artwork_status := artwork_status d |}.

Definition setStatus (t : TextContent) (d : Dom) : Dom :=
  {| container_hidden := container_hidden d; artwork_title := artwork_title d;
     artwork_artist := artwork_artist d; artwork_status := Some t |}.

(** Handle artwork status messages. *)
Definition handleArtworkStatus (data : jsval) (d : Dom) : Outcome :=
  if truthy (get_prop data "is_revealed") then
    (* Show the artwork if it's revealed *)
    let d1 := setHidden false d in
    match read_prop (get_prop data "artwork") "title" with
    | None => {| dom := d1; calls := []; threw := true |}
    | Some title =>
        {| dom := setTitle (Plain title) d1;
           (* Load the artwork content *)
           calls := [LoadArtworkContent (get_prop (get_prop data "artwork") "id")];
           threw := false |}
    end
  else
    {| dom := d |> setHidden true
                |> setStatus (Plain (JStr "This artwork has not been revealed yet"));
       calls := []; threw := false |}.

(** Handle artwork revealed messages. *)
Definition handleArtworkRevealed (data : jsval) (d : Dom) : Outcome :=
  (* Update UI to show the revealed artwork *)
  let d1 := setHidden false d in
  match read_prop (get_prop data "artwork") "title" with
  | None => {| dom := d1; calls := [ShowRevealCelebration]; threw := true |}
  | Some title =>
      {| dom := d1 |> setTitle (Plain title)
                   |> setArtist (By (get_prop (get_prop data "artwork") "artist"));
         calls := [ShowRevealCelebration;
                   LoadArtworkContent (get_prop (get_prop data "artwork") "id")];
         threw := false |}
  end.

(** [socket.onmessage] of the artwork socket on a parsed frame. *)
Definition onmessage (data : jsval) (d : Dom) : Outcome :=
  match artworkSocket_onmessage data with
  | Some (HandleArtworkStatus data) => handleArtworkStatus data d
  | Some (HandleArtworkRevealed data) => handleArtworkRevealed data d
  | Some (UnknownMessageType _) => {| dom := d; calls := []; threw := false |}
  | None => {| dom := d; calls := []; threw := true |}
  end.

(** The frames of a connection, one after the other; an exception in a
    handler does not close the socket. *)
Fixpoint receive (frames : list jsval) (d : Dom) : Outcome :=
  match frames with
  | [] => {| dom := d; calls := []; threw := false |}
  | data :: rest =>
      let first := onmessage data d in
      let then_ := receive rest (dom first) in
      {| dom := dom then_;
         calls := (calls first ++ calls then_)%list;
         threw := threw first || threw then_ |}
  end.

(** The message reports the artwork as revealed. *)
Definition says_revealed (data : jsval) : bool :=
  match get_prop data "type" with
  | JStr "artwork_status" => truthy (get_prop data "is_revealed")
  | JStr "artwork_revealed" => true
  | _ => false
  end.

(** What the notifications socket shows for a parsed frame. *)
Definition notification_ui (data : jsval) : list UiEffect :=
  match notificationsSocket_onmessage data with
  | Some (DisplayNotification message payload) => displayNotification message payload
  | _ => []
  end.

(** The artworks whose content is loaded. *)
Definition loads (l : list Call) : list jsval :=
  flat_map (fun c => match c with LoadArtworkContent id => [id] | _ => [] end) l.

Lemma loads_app (l1 l2 : list Call) : loads (l1 ++ l2) = (loads l1 ++ loads l2)%list.
Proof. unfold loads. apply flat_map_app. Qed.

(** The [switch] of the artwork socket, as a sequence of comparisons. *)
Lemma artwork_switch {T : Type} (s : string) (status revealed other : T) :
  match s with
  | "artwork_status" => status
  | "artwork_revealed" => revealed
  | _ => other
  end
  = if String.eqb s "artwork_status" then status
    else if String.eqb s "artwork_revealed" then revealed
    else other.
Proof.
  repeat (let c := fresh "c" in
          destruct s as [| c s]; [reflexivity |];
          destruct c as [[|] [|] [|] [|] [|] [|] [|] [|]]; try reflexivity).
Qed.

(** One frame, whatever it holds: content is loaded only when the frame
    reports the artwork as revealed, and then for the artwork it names. *)
Lemma onmessage_loads (data : jsval) (d : Dom) (id : jsval) :
  In id (loads (calls (onmessage data d))) ->
  says_revealed data = true /\ id = get_prop (get_prop data "artwork") "id".
Proof.
  unfold onmessage, artworkSocket_onmessage, says_revealed, read_prop.
  destruct data as [ | | b | n | s | name | items | fields];
    try (cbn; contradiction).
  cbn [get_prop].
  destruct (assoc "type" fields) as [t |]; [| cbn; contradiction].
  destruct t as [ | | b | n | s | name | items | fs]; try (cbn; contradiction).
  rewrite !artwork_switch.
  destruct (String.eqb s "artwork_status").
  { unfold handleArtworkStatus, read_prop. cbn [get_prop].
    destruct (truthy _); [| cbn; contradiction].
    destruct (match assoc "artwork" fields with Some v => v | None => JUndefined end);
      cbn; intuition congruence. }
  destruct (String.eqb s "artwork_revealed"); [| cbn; contradiction].
  unfold handleArtworkRevealed, read_prop. cbn [get_prop].
  destruct (match assoc "artwork" fields with Some v => v | None => JUndefined end);
    cbn; intuition congruence.
Qed.

(** A message of the catalogue of the artwork channel. *)
Lemma onmessage_sent (artwork_id : Z) (data : jsval) (d : Dom) :
  Wire.sent (Wire.ArtworkChannel artwork_id) data ->
  threw (onmessage data d) = false /\
  loads (calls (onmessage data d))
  = (if says_revealed data then [JNum artwork_id] else []) /\
  container_hidden (dom (onmessage data d)) = negb (says_revealed data).
Proof.
  intros Hsent. inversion Hsent as [id is_revealed title | id title artist | |]; subst.
  - destruct is_revealed; repeat split; reflexivity.
  - repeat split; reflexivity.
Qed.

Lemma last_cons {A : Type} (a d : A) (l : list A) : last (a :: l) d = last l a.
Proof.
  revert a d. induction l as [| b rest IH]; intros a d; [reflexivity |].
  change (last (a :: b :: rest) d) with (last (b :: rest) d).
  now rewrite !IH.
Qed.

(** X14: the artwork socket loads content only for revealed artworks.
    Whatever frames arrive, content is loaded only in answer to a frame
    that reports the artwork as revealed (an [artwork_revealed] message, or
    an [artwork_status] message whose [is_revealed] is truthy), and for the
    artwork that frame names.  For the messages of the README on the
    channel of an artwork, no handler throws, the content of that artwork is
    loaded once for every message that reports it revealed, and the
    container ends hidden exactly when the last message reported the artwork
    as not revealed. *)
Theorem content_loaded_only_when_revealed :
  (forall (frames : list jsval) (d : Dom) (id : jsval),
      In id (loads (calls (receive frames d))) ->
      exists data,
        In data frames /\ says_revealed data = true /\
        id = get_prop (get_prop data "artwork") "id") /\
  (forall (artwork_id : Z) (frames : list jsval) (d : Dom),
      Forall (Wire.sent (Wire.ArtworkChannel artwork_id)) frames ->
      threw (receive frames d) = false /\
      loads (calls (receive frames d))
      = map (fun _ => JNum artwork_id) (filter says_revealed frames) /\
      container_hidden (dom (receive frames d))
      = negb (last (map says_revealed frames) (negb (container_hidden d)))).
Proof.
  split.
  - intros frames. induction frames as [| data rest IH]; intros d id Hin;
      [contradiction Hin |].
    cbn [receive calls] in Hin. rewrite loads_app, in_app_iff in Hin.
    destruct Hin as [Hfirst | Hrest].
    + exists data. split; [now left |]. exact (onmessage_loads data d id Hfirst).
    + destruct (IH _ _ Hrest) as [m [Hm Hrevealed]].
      exists m. split; [now right | exact Hrevealed].
  - intros artwork_id frames d Hall. revert d.
    induction Hall as [| data rest Hsent Hrest IH]; intros d.
    + cbn. now rewrite negb_involutive.
    + destruct (onmessage_sent artwork_id data d Hsent) as [Hthrew [Hloads Hhidden]].
      destruct (IH (dom (onmessage data d))) as [IHthrew [IHloads IHhidden]].
      cbn [receive threw calls dom map filter].
      rewrite Hthrew, IHthrew, loads_app, Hloads, IHloads, IHhidden, Hhidden.
      rewrite negb_involutive, last_cons.
      split; [reflexivity |]. split; [| reflexivity].
      destruct (says_revealed data); reflexivity.
Qed.

(** The message reports the artwork as not revealed. *)
Definition says_hidden (data : jsval) : bool :=
  match get_prop data "type" with
  | JStr t => String.eqb t "artwork_status" && negb (truthy (get_prop data "is_revealed"))
  | _ => false
  end.

Definition not_revealed_yet : TextContent :=
  Plain (JStr "This artwork has not been revealed yet").

Lemma onmessage_status (data : jsval) (d : Dom) :
  artwork_status (dom (onmessage data d))
  = if says_hidden data then Some not_revealed_yet else artwork_status d.
Proof.
  unfold onmessage, artworkSocket_onmessage, says_hidden, read_prop.
  destruct data as [ | | b | n | s | name | items | fields]; try reflexivity.
  cbn [get_prop].
  destruct (assoc "type" fields) as [t |]; [| reflexivity].
  destruct t as [ | | b | n | s | name | items | fs]; try reflexivity.
  rewrite artwork_switch.
  destruct (String.eqb s "artwork_status"); cbn [andb].
  { unfold handleArtworkStatus, read_prop. cbn [get_prop].
    destruct (truthy _); [| reflexivity].
    destruct (match assoc "artwork" fields with Some v => v | None => JUndefined end);
      reflexivity. }
  destruct (String.eqb s "artwork_revealed"); [| reflexivity].
  unfold handleArtworkRevealed, read_prop. cbn [get_prop].
  destruct (match assoc "artwork" fields with Some v => v | None => JUndefined end);
    reflexivity.
Qed.

(** X16: the status line is never cleared.  Whatever frames arrive, the
    text of the status element is the one it had, unless some frame was an
    [artwork_status] message with a falsy [is_revealed]: from then on it
    reads that the artwork has not been revealed yet, also after a later
    message has revealed the artwork and shown the container. *)
Theorem status_line_never_cleared :
  forall (frames : list jsval) (d : Dom),
    artwork_status (dom (receive frames d))
    = if existsb says_hidden frames then Some not_revealed_yet
      else artwork_status d.
Proof.
  induction frames as [| data rest IH]; intros d; [reflexivity |].
  cbn [receive dom existsb]. rewrite IH, onmessage_status.
  destruct (says_hidden data), (existsb says_hidden rest); reflexivity.
Qed.

(** The [switch] of the notifications socket. *)
Lemma notification_switch {T : Type} (s : string) (welcome notification other : T) :
  match s with
  | "welcome" => welcome
  | "notification" => notification
  | _ => other
  end
  = if String.eqb s "welcome" then welcome
    else if String.eqb s "notification" then notification
    else other.
Proof.
  repeat (let c := fresh "c" in
          destruct s as [| c s]; [reflexivity |];
          destruct c as [[|] [|] [|] [|] [|] [|] [|] [|]]; try reflexivity).
Qed.

Lemma revealed_switch {T : Type} (s : string) (revealed other : T) :
  match s with
  | "artwork_revealed" => revealed
  | _ => other
  end
  = if String.eqb s "artwork_revealed" then revealed else other.
Proof.
  repeat (let c := fresh "c" in
          destruct s as [| c s]; [reflexivity |];
          destruct c as [[|] [|] [|] [|] [|] [|] [|] [|]]; try reflexivity).
Qed.

(** The effects shown for the frames received, in order. *)
Definition notifications_shown (frames : list jsval) : list UiEffect :=
  flat_map notification_ui frames.

Definition offers (l : list UiEffect) : list jsval :=
  flat_map (fun e => match e with OfferToNavigateToArtwork id => [id] | _ => [] end) l.

Definition toasts (l : list UiEffect) : list jsval :=
  flat_map (fun e => match e with ShowToast m => [m] | _ => [] end) l.

(** The frame is a notification, of a reveal. *)
Definition is_notification (data : jsval) : bool :=
  match get_prop data "type" with
  | JStr t => String.eqb t "notification"
  | _ => false
  end.

Definition is_reveal_notification (data : jsval) : bool :=
  is_notification data &&
  truthy (get_prop data "data") &&
  match get_prop (get_prop data "data") "type" with
  | JStr t => String.eqb t "artwork_revealed"
  | _ => false
  end.

Lemma notification_ui_spec (data : jsval) :
  toasts (notification_ui data)
  = (if is_notification data then [get_prop data "message"] else []) /\
  offers (notification_ui data)
  = (if is_reveal_notification data
     then [get_prop (get_prop data "data") "artwork_id"] else []).
Proof.
  unfold notification_ui, notificationsSocket_onmessage, is_reveal_notification,
    is_notification, read_prop.
  destruct data as [ | | b | n | s | name | items | fields];
    try (split; reflexivity).
  cbn [get_prop].
  destruct (assoc "type" fields) as [t |]; [| split; reflexivity].
  destruct t as [ | | b | n | s | name | items | fs]; try (split; reflexivity).
  rewrite notification_switch.
  destruct (String.eqb_spec s "welcome") as [-> | _]; [split; reflexivity |].
  destruct (String.eqb s "notification"); [| split; reflexivity].
  unfold displayNotification. cbn [toasts offers flat_map app andb].
  set (payload := match assoc "data" fields with Some v => v | None => JUndefined end).
  destruct (truthy payload); [| split; reflexivity].
  destruct (get_prop payload "type") as [ | | b | n | t | name | items | fs];
    try (split; reflexivity).
  rewrite revealed_switch.
  destruct (String.eqb t "artwork_revealed"); split; reflexivity.
Qed.

(** X15: what the notifications socket shows.  Whatever frames arrive,
    there is one toast for every frame of type [notification], in order and
    with the message of the frame, and one offer to navigate for every
    notification whose payload has the type [artwork_revealed], to the
    artwork the payload names; frames of any other type, the welcome
    included, show nothing. *)
Theorem notifications_shown_for_frames :
  forall frames : list jsval,
    toasts (notifications_shown frames)
    = map (fun data => get_prop data "message") (filter is_notification frames) /\
    offers (notifications_shown frames)
    = map (fun data => get_prop (get_prop data "data") "artwork_id")
          (filter is_reveal_notification frames).
Proof.
  induction frames as [| data rest [IHtoasts IHoffers]]; [split; reflexivity |].
  destruct (notification_ui_spec data) as [Htoasts Hoffers].
  unfold notifications_shown, toasts, offers in *.
  cbn [flat_map filter]. rewrite !flat_map_app, Htoasts, Hoffers, IHtoasts, IHoffers.
  split.
  - destruct (is_notification data); reflexivity.
  - destruct (is_reveal_notification data); reflexivity.
Qed.

Example notification_frames :
  notifications_shown
    [Wire.welcome;
     Wire.notification "New comment on your artwork"
       (Wire.new_comment_data 7 31 "commentor");
     Wire.notification "Your artwork has been revealed"
       (Wire.artwork_revealed_data 7);
     Wire.artwork_revealed 7 "Mystery Landscape" "artist";
     JNull]
  = [ShowToast (JStr "New comment on your artwork");
     ShowToast (JStr "Your artwork has been revealed");
     OfferToNavigateToArtwork (JNum 7)].
Proof. reflexivity. Qed.

Example artwork_frames :
  let shown :=
    {| container_hidden := true; artwork_title := None; artwork_artist := None;
       artwork_status := None |} in
  let r := receive [Wire.artwork_status false 7 "Mystery Landscape";
                    Wire.welcome;
                    Wire.artwork_revealed 7 "Mystery Landscape" "artist"] shown in
  dom r = {| container_hidden := false;
             artwork_title := Some (Plain (JStr "Mystery Landscape"));
             artwork_artist := Some (By (JStr "artist"));
             artwork_status :=
               Some (Plain (JStr "This artwork has not been revealed yet")) |} /\
  calls r = [ShowRevealCelebration; LoadArtworkContent (JNum 7)] /\
  threw r = false /\
  (* a reveal without its artwork: the container is shown, then the handler
     throws *)
  receive [JObj [("type", JStr "artwork_revealed")]] shown
  = {| dom := setHidden false shown; calls := [ShowRevealCelebration];
       threw := true |}.
Proof. repeat split; reflexivity. Qed.

End SocketPage.
